(** * Adaptive progress and roadmap engine

    A shallow embedding of [database_manager.py] (the progress and
    catalogue slice of [DatabaseManager]) and of [roadmap_generator.py]
    ([RoadmapGenerator]), with the properties of the allocation engine,
    the roadmap builder and the adaptation step.

    Conventions of the embedding:
    - the SQLite database is a record of tables, each a list of rows in
      insertion order; every method takes the store and returns the new one;
    - Python exceptions are the [Raise] case of [result];
    - [datetime.now()] and [uuid.uuid4()] are inputs, gathered in [Env];
    - Python [int] is [Z]; Python [float] is the rational it denotes, and
      every float operation rounds its exact result to binary64
      (module [Float]);
    - dictionaries whose iteration order is observed are association lists
      in insertion order. *)

From Stdlib Require Import ZArith QArith List String DecimalString Bool Lia.
From Stdlib Require Import Sorted Permutation.
From Stdlib Require Import Ascii.
From Stdlib Require Decimal DecimalPos DecimalZ FinFun.
Import ListNotations.

Open Scope string_scope.
Open Scope list_scope.
Open Scope Z_scope.

(** ** Exceptions *)

Inductive exn : Type :=
| ValueError
| OverflowError
| ZeroDivisionError
| KeyError.

Inductive result (A : Type) : Type :=
| Ok (a : A)
| Raise (e : exn).

Arguments Ok {A} a.
Arguments Raise {A} e.

Definition bind {A B : Type} (r : result A) (k : A -> result B) : result B :=
  match r with
  | Ok a => k a
  | Raise e => Raise e
  end.

Notation "'do' x <- r ; k" := (bind r (fun x => k))
  (at level 10, x pattern, r at level 100, k at level 200).

(** ** Python floats

    A float is represented by the rational number it denotes.  [fl] rounds
    a rational to the nearest number with a 53-bit significand, ties to the
    even significand, which is what every binary64 operation does to its
    exact result.  The exponent is left unbounded: the quantities of this
    program (hours, percentages, mastery levels) are far from overflow and
    from the subnormal range. *)

Module Float.

Definition float : Type := Q.

(** Nearest integer to [n / d] for [0 < d], ties to even. *)
Definition round_half_even (n d : Z) : Z :=
  let q := n / d in
  let r := n mod d in
  match 2 * r ?= d with
  | Lt => q
  | Gt => q + 1
  | Eq => if Z.even q then q else q + 1
  end.

(** [fl_pos n d] rounds [n / d] for [0 < n] and [0 < d]: [k] is the
    binary exponent of [n / d], the significand is [n / d / 2 ^ (k - 52)]
    rounded to an integer, and the result is returned in lowest terms. *)
Definition fl_pos (n d : Z) : float :=
  let k0 := Z.log2 n - Z.log2 d in
  let above := if 0 <=? k0 then d * 2 ^ k0 <=? n else d <=? n * 2 ^ (- k0) in
  let k := if above then k0 else k0 - 1 in
  let e := k - 52 in
  if 0 <=? e
  then inject_Z (round_half_even n (d * 2 ^ e) * 2 ^ e)
  else Qred (Qmake (round_half_even (n * 2 ^ (- e)) d) (Z.to_pos (2 ^ (- e)))).

Definition fl (x : Q) : float :=
  match Qnum x with
  | Z0 => 0%Q
  | Zpos n => fl_pos (Zpos n) (Zpos (Qden x))
  | Zneg n => Qopp (fl_pos (Zpos n) (Zpos (Qden x)))
  end.

Definition of_int (z : Z) : float := fl (inject_Z z).

Definition fadd (x y : float) : float := fl (x + y)%Q.
Definition fmul (x y : float) : float := fl (x * y)%Q.
Definition fdiv (x y : float) : float := fl (x / y)%Q.

(** [a / b] on two Python ints: the correctly rounded quotient. *)
Definition int_truediv (a b : Z) : float := fl (inject_Z a / inject_Z b)%Q.

(** [int(x)]: truncation towards zero. *)
Definition trunc (x : float) : Z := Z.quot (Qnum x) (Zpos (Qden x)).

(** [round(x)] with one argument: nearest integer, ties to even. *)
Definition py_round (x : float) : Z := round_half_even (Qnum x) (Zpos (Qden x)).

Definition ltb (x y : float) : bool := negb (Qle_bool y x).
Definition leb (x y : float) : bool := Qle_bool x y.

(** [sum(xs)]: Python adds from left to right, starting from the int 0.
    (CPython 3.12 and later compensate the partial sums, which can change
    the last bit of the result; the properties below only compare means
    with thresholds.) *)
Definition fsum (xs : list float) : float :=
  fold_left fadd xs 0%Q.

(** Decimal literals of the source. *)
Definition lit (n : Z) (d : positive) : float := fl (Qmake n d).

Arguments fl : simpl never.
Arguments lit : simpl never.
Arguments of_int : simpl never.
Arguments int_truediv : simpl never.

End Float.

Import Float.

(** ** Generic helpers *)

(** A stable insertion sort: [x] is placed before the first element [y]
    with [le x y], so elements that compare equal keep their order, as with
    Python's [sorted] and [list.sort]. *)
Fixpoint insert_sorted {A : Type} (le : A -> A -> bool) (x : A) (l : list A)
  : list A :=
  match l with
  | [] => [x]
  | y :: l' => if le x y then x :: l else y :: insert_sorted le x l'
  end.

Definition stable_sort {A : Type} (le : A -> A -> bool) (l : list A) : list A :=
  fold_right (insert_sorted le) [] l.

(** Python dictionaries with string keys, in insertion order. *)
Definition dict (V : Type) : Type := list (string * V).

Fixpoint dict_get {V : Type} (d : dict V) (k : string) : option V :=
  match d with
  | [] => None
  | (k', v) :: d' => if String.eqb k' k then Some v else dict_get d' k
  end.

(** [d[k] = v]: an existing key keeps its position. *)
Fixpoint dict_set {V : Type} (d : dict V) (k : string) (v : V) : dict V :=
  match d with
  | [] => [(k, v)]
  | (k', v') :: d' =>
      if String.eqb k' k then (k', v) :: d' else (k', v') :: dict_set d' k v
  end.

Definition dict_keys {V : Type} (d : dict V) : list string := map fst d.
Definition dict_values {V : Type} (d : dict V) : list V := map snd d.

Definition sum_Z (l : list Z) : Z := fold_left Z.add l 0.

(** ** The database *)

(** Rows of the tables created by [DatabaseManager.init_database].  Columns
    that the progress and roadmap code never reads are left out of [users],
    [user_profiles], [subjects] and [topics]; [roadmaps] and
    [roadmap_items] keep every column, in the order of their declaration.
    Timestamps are clock readings; the integer columns [target_year] and
    [study_hours_per_day] are taken to hold integers (never NULL). *)

Record user_row : Type := {
  u_id : string;
  u_exam_type : string;
  u_target_year : Z
}.

Record user_profile_row : Type := {
  up_user_id : string;
  up_study_hours_per_day : Z
}.

Record subject_row : Type := {
  s_id : string;
  s_name : string;
  s_exam_type : string
}.

Record topic_row : Type := {
  t_id : string;
  t_subject_id : string;
  t_name : string;
  t_chapter_number : Z;
  t_difficulty_level : Z;
  t_importance : Z
}.

Record progress_row : Type := {
  pr_id : string;
  pr_user_id : string;
  pr_topic_id : string;
  pr_mastery_level : float;
  pr_time_spent : Z;
  pr_last_studied : Z;
  pr_attempts : Z;
  pr_correct_answers : Z;
  pr_status : string
}.

Record roadmap_row : Type := {
  r_id : string;
  r_user_id : string;
  r_week_number : Z;
  r_year : Z;
  r_status : string;
  r_created_at : Z;
  r_updated_at : Z
}.

Record roadmap_item_row : Type := {
  ri_id : string;
  ri_roadmap_id : string;
  ri_topic_id : string;
  ri_day_of_week : Z;
  ri_study_hours : Z;
  ri_priority : Z;
  ri_status : string
}.

Record Store : Type := {
  users : list user_row;
  user_profiles : list user_profile_row;
  subjects : list subject_row;
  topics : list topic_row;
  user_progress : list progress_row;
  roadmaps : list roadmap_row;
  roadmap_items : list roadmap_item_row
}.

(** What the program reads from outside: the clock and the random
    identifiers.  [week_of k] is the ISO week number and the calendar year
    of [datetime.now() + timedelta(weeks=k)]; [uuid4 n] is the [n]-th
    identifier drawn during the call.  [week_of] is total: the
    [OverflowError] of the date arithmetic, for an offset that leaves the
    years 1 to 9999, is not part of the model, which is meant for the
    offsets of [week_offset_in_range]. *)
Record Env : Type := {
  now_year : Z;
  now_month : Z;
  now_stamp : Z;
  week_of : Z -> Z * Z;
  uuid4 : nat -> string
}.


(** ** [DatabaseManager] *)

(** The dictionary returned by [get_user_profile]. *)
Record user_profile : Type := {
  user_id : string;
  exam_type : string;
  target_year : Z;
  study_hours_per_day : Z
}.

Definition get_user_profile (st : Store) (uid : string) : option user_profile :=
  let rows :=
    flat_map (fun u =>
      map (fun up => {| user_id := up_user_id up;
                        exam_type := u_exam_type u;
                        target_year := u_target_year u;
                        study_hours_per_day := up_study_hours_per_day up |})
          (filter (fun up => String.eqb (u_id u) (up_user_id up))
                  (user_profiles st)))
      (filter (fun u => String.eqb (u_id u) uid) (users st)) in
  hd_error rows.

Definition get_subjects_for_exam (st : Store) (exam : string) : list subject_row :=
  filter (fun s => String.eqb (s_exam_type s) exam
                   || String.eqb (s_exam_type s) "BOTH")
         (subjects st).

Definition get_topics_for_subject (st : Store) (sid : string) : list topic_row :=
  stable_sort (fun a b => t_chapter_number a <=? t_chapter_number b)
    (filter (fun t => String.eqb (t_subject_id t) sid) (topics st)).

(** The status rule of [update_progress]. *)
Definition progress_status (mastery_level : float) (attempts : Z) : string :=
  if leb (lit 8 10) mastery_level then "completed"
  else if leb (lit 4 10) mastery_level then "in_progress"
  else if (3 <? attempts) && ltb mastery_level (lit 3 10) then "struggling"
  else "in_progress".

(** [INSERT OR REPLACE]: the rows that clash with the new one on the primary
    key or on [UNIQUE(user_id, topic_id)] are deleted, then the row is
    added. *)
Definition update_progress (env : Env) (st : Store) (uid tid : string)
    (mastery_level : float) (time_spent attempts correct_answers : Z) : Store :=
  let status := progress_status mastery_level attempts in
  let row := {| pr_id := (uid ++ "_" ++ tid)%string;
                pr_user_id := uid;
                pr_topic_id := tid;
                pr_mastery_level := mastery_level;
                pr_time_spent := time_spent;
                pr_last_studied := now_stamp env;
                pr_attempts := attempts;
                pr_correct_answers := correct_answers;
                pr_status := status |} in
  let clash (p : progress_row) :=
    String.eqb (pr_id p) (pr_id row)
    || (String.eqb (pr_user_id p) uid && String.eqb (pr_topic_id p) tid) in
  {| users := users st;
     user_profiles := user_profiles st;
     subjects := subjects st;
     topics := topics st;
     user_progress := filter (fun p => negb (clash p)) (user_progress st) ++ [row];
     roadmaps := roadmaps st;
     roadmap_items := roadmap_items st |}.

(** A row of [get_user_progress]: the progress record joined with the name
    of its topic and of its subject. *)
Record progress : Type := {
  p_topic_id : string;
  p_mastery_level : float;
  p_last_studied : Z;
  p_attempts : Z;
  p_status : string;
  p_topic_name : string;
  p_subject_name : string
}.

Definition get_user_progress (st : Store) (uid : string) : list progress :=
  let joined :=
    flat_map (fun p =>
      flat_map (fun t =>
        map (fun s => {| p_topic_id := pr_topic_id p;
                         p_mastery_level := pr_mastery_level p;
                         p_last_studied := pr_last_studied p;
                         p_attempts := pr_attempts p;
                         p_status := pr_status p;
                         p_topic_name := t_name t;
                         p_subject_name := s_name s |})
            (filter (fun s => String.eqb (t_subject_id t) (s_id s)) (subjects st)))
        (filter (fun t => String.eqb (pr_topic_id p) (t_id t)) (topics st)))
      (filter (fun p => String.eqb (pr_user_id p) uid) (user_progress st)) in
  stable_sort (fun a b => p_last_studied b <=? p_last_studied a) joined.

(** ** [RoadmapGenerator]: the allocation engine *)

Record strategy : Type := {
  phase : string;
  months_remaining : Z;
  focus_areas : list string;
  subject_allocation : dict Z;
  subject_performance : dict float;
  priority_subjects : list string;
  study_intensity : string
}.

(** [sum(p['mastery_level'] for p in ps) / len(ps)], for a non-empty [ps]. *)
Definition mean_mastery (ps : list progress) : float :=
  fdiv (fsum (map p_mastery_level ps)) (of_int (Z.of_nat (List.length ps))).

Definition get_priority_subjects (performance : dict float) : list string :=
  map fst (stable_sort (fun a b => leb (snd a) (snd b)) performance).

Definition calculate_study_intensity (months : Z) (ph : string) : string :=
  if months <=? 2 then "high"
  else if months <=? 6 then "medium_high"
  else if months <=? 12 then "medium"
  else "low_medium".

(** The loop that fills [subject_performance]. *)
Definition subject_performance_of (prog : list progress) (subs : list subject_row)
  : dict float :=
  fold_left
    (fun perf s =>
       let subject_progress :=
         filter (fun p => String.eqb (p_subject_name p) (s_name s)) prog in
       match subject_progress with
       | [] => dict_set perf (s_name s) 0%Q
       | _ :: _ => dict_set perf (s_name s) (mean_mastery subject_progress)
       end)
    subs [].

Definition base_allocation (exam : string) : dict Z :=
  if String.eqb exam "JEE"
  then [("Physics", 33); ("Chemistry", 33); ("Mathematics", 34)]
  else [("Physics", 25); ("Chemistry", 25); ("Biology", 50)].

(** One step of the adjustment loop. *)
Definition adjust (performance : dict float) (subject : string) (base_percent : Z) : Z :=
  match dict_get performance subject with
  | Some perf =>
      if ltb perf (lit 3 10) then Z.min 50 (base_percent + 10)
      else if ltb (lit 7 10) perf then Z.max 20 (base_percent - 5)
      else base_percent
  | None => base_percent
  end.

Definition adjusted_allocation (performance : dict float) (base : dict Z) : dict Z :=
  fold_left
    (fun adj kv => dict_set adj (fst kv) (adjust performance (fst kv) (snd kv)))
    base [].

(** "Normalize to 100%": every entry is replaced by
    [round(entry * 100 / total)]. *)
Definition normalize (adj : dict Z) : result (dict Z) :=
  let total := sum_Z (dict_values adj) in
  match adj with
  | [] => Ok []
  | _ :: _ =>
      if total =? 0 then Raise ZeroDivisionError
      else Ok (map (fun kv => (fst kv, py_round (int_truediv (snd kv * 100) total))) adj)
  end.

Definition create_roadmap_strategy (env : Env) (profile : user_profile)
    (prog : list progress) (subs : list subject_row) : result strategy :=
  let exam_month := if String.eqb (exam_type profile) "JEE" then 4 else 5 in
  (* datetime(target_year, exam_month, 1): the year is converted to a C
     int, and then checked against MINYEAR and MAXYEAR *)
  if (target_year profile <? - 2147483648) || (2147483647 <? target_year profile)
  then Raise OverflowError
  else if (target_year profile <? 1) || (9999 <? target_year profile)
  then Raise ValueError
  else
    let months :=
      Z.max 1 ((target_year profile - now_year env) * 12
               + exam_month - now_month env) in
    let '(ph, focus) :=
      match prog with
      | [] => ("foundation", ["basic_concepts"; "ncert_completion"])
      | _ :: _ =>
          let avg_mastery := mean_mastery prog in
          if ltb avg_mastery (lit 3 10)
          then ("foundation", ["concept_building"; "basic_practice"])
          else if ltb avg_mastery (lit 6 10)
          then ("intermediate", ["problem_solving"; "previous_year_questions"])
          else ("advanced", ["mock_tests"; "advanced_problems"; "revision"])
      end in
    let performance := subject_performance_of prog subs in
    let adj := adjusted_allocation performance (base_allocation (exam_type profile)) in
    do alloc <- normalize adj;
    Ok {| phase := ph;
          months_remaining := months;
          focus_areas := focus;
          subject_allocation := alloc;
          subject_performance := performance;
          priority_subjects := get_priority_subjects performance;
          study_intensity := calculate_study_intensity months ph |}.

(** ** [RoadmapGenerator]: the roadmap builder *)

(** An activity of a day.  The keys ['topic'], ['topic_id'] and
    ['priority'] are absent from some activities. *)
Record activity : Type := {
  a_type : string;
  a_subject : string;
  a_topic : option string;
  a_topic_id : option string;
  a_duration : Z;
  a_priority : option string
}.

Record day_plan : Type := {
  dp_day : Z;
  dp_focus : string;
  dp_activities : list activity
}.

Definition day_names : list string :=
  ["Monday"; "Tuesday"; "Wednesday"; "Thursday"; "Friday"; "Saturday"; "Sunday"].

(** [subject_hours] of [generate_weekly_plan]; the plan does not use it. *)
Definition subject_hours (strat : strategy) (profile : user_profile) : dict Z :=
  let total_weekly_hours := study_hours_per_day profile * 7 in
  fold_left
    (fun d kv =>
       dict_set d (fst kv) (py_round (int_truediv (total_weekly_hours * snd kv) 100)))
    (subject_allocation strat) [].

Definition topic_rank_ge (x y : topic_row) : bool :=
  (t_importance y <? t_importance x)
  || ((t_importance y =? t_importance x)
      && (t_difficulty_level y <=? t_difficulty_level x)).

(** [select_topics_for_day] returns the selected topics.  When no topic
    passes the filter, [suitable_topics] is the caller's list itself and
    [sort] reorders it in place: the second component is the caller's list
    after the call. *)
Definition select_topics_for_day (st : Store) (tops : list topic_row)
    (uid : string) (ph : string) : list topic_row * list topic_row :=
  match tops with
  | [] => ([], tops)
  | _ :: _ =>
      let prog := get_user_progress st uid in
      let topic_progress :=
        fold_left (fun d p => dict_set d (p_topic_id p) p) prog [] in
      let mastery (t : topic_row) : float :=
        match dict_get topic_progress (t_id t) with
        | Some p => p_mastery_level p
        | None => 0%Q
        end in
      let suits (t : topic_row) : bool :=
        if String.eqb ph "foundation" then ltb (mastery t) (lit 4 10)
        else if String.eqb ph "intermediate"
        then leb (lit 3 10) (mastery t) && ltb (mastery t) (lit 7 10)
        else leb (lit 6 10) (mastery t) in
      match filter suits tops with
      | [] =>
          let sorted := stable_sort topic_rank_ge tops in
          (firstn 3 sorted, sorted)
      | suitable =>
          (firstn 3 (stable_sort topic_rank_ge suitable), tops)
      end
  end.

(** Hours of the three blocks of a regular day: [int(h * 0.7)],
    [int(h * 0.2)] and what is left. *)
Definition primary_hours (hours : Z) : Z := trunc (fmul (of_int hours) (lit 7 10)).
Definition secondary_hours (hours : Z) : Z := trunc (fmul (of_int hours) (lit 2 10)).
Definition revision_hours (hours : Z) : Z :=
  hours - primary_hours hours - secondary_hours hours.

Definition primary_activity (subject : string) (t : topic_row) (hours : Z) : activity :=
  {| a_type := "concept_study";
     a_subject := subject;
     a_topic := Some (t_name t);
     a_topic_id := Some (t_id t);
     a_duration := primary_hours hours;
     a_priority := Some "high" |}.

Definition secondary_activity (subject : string) (t : topic_row) (hours : Z) : activity :=
  {| a_type := "practice";
     a_subject := subject;
     a_topic := Some (t_name t);
     a_topic_id := Some (t_id t);
     a_duration := secondary_hours hours;
     a_priority := Some "medium" |}.

Definition mixed_revision (hours : Z) : activity :=
  {| a_type := "revision";
     a_subject := "Mixed";
     a_topic := None;
     a_topic_id := None;
     a_duration := revision_hours hours;
     a_priority := Some "low" |}.

(** A regular study day (days 1 to 6).  [all_topics] is threaded through
    because of the in-place sort above. *)
Definition regular_day (st : Store) (strat : strategy) (profile : user_profile)
    (all_topics : dict (list topic_row)) (day : Z)
  : result (day_plan * dict (list topic_row)) :=
  let prio := priority_subjects strat in
  let n := Z.of_nat (List.length prio) in
  if n =? 0 then Raise ZeroDivisionError
  else
    let primary_subject := nth (Z.to_nat (day mod n)) prio "" in
    let secondary_subject := nth (Z.to_nat ((day + 1) mod n)) prio "" in
    let hours := study_hours_per_day profile in
    let '(primary_topics, all_topics1) :=
      match dict_get all_topics primary_subject with
      | Some tops =>
          let '(sel, tops') :=
            select_topics_for_day st tops (user_id profile) (phase strat) in
          (sel, dict_set all_topics primary_subject tops')
      | None =>
          (fst (select_topics_for_day st [] (user_id profile) (phase strat)),
           all_topics)
      end in
    let activities1 :=
      match primary_topics with
      | t :: _ => [primary_activity primary_subject t hours]
      | [] => []
      end in
    let '(activities2, all_topics2) :=
      match dict_get all_topics1 secondary_subject with
      | Some tops =>
          let '(sel, tops') :=
            select_topics_for_day st tops (user_id profile) (phase strat) in
          (match sel with
           | t :: _ => activities1 ++ [secondary_activity secondary_subject t hours]
           | [] => activities1
           end,
           dict_set all_topics1 secondary_subject tops')
      | None => (activities1, all_topics1)
      end in
    let activities := activities2 ++ [mixed_revision hours] in
    Ok ({| dp_day := day; dp_focus := primary_subject; dp_activities := activities |},
        all_topics2).

(** Day 7: revision and mock test. *)
Definition sunday (profile : user_profile) (day : Z) : day_plan :=
  let hours := study_hours_per_day profile in
  {| dp_day := day;
     dp_focus := "revision_and_assessment";
     dp_activities :=
       [{| a_type := "revision"; a_subject := "Mixed"; a_topic := None;
           a_topic_id := None; a_duration := hours / 2; a_priority := None |};
        {| a_type := "mock_test"; a_subject := "Mixed"; a_topic := None;
           a_topic_id := None; a_duration := hours / 2; a_priority := None |}] |}.

(** The body of the loop [for day in range(1, 8)]. *)
Definition plan_day (st : Store) (strat : strategy) (profile : user_profile)
    (acc : dict day_plan * dict (list topic_row)) (day : Z)
  : result (dict day_plan * dict (list topic_row)) :=
  let '(weekly_plan, all_topics) := acc in
  let day_name := nth (Z.to_nat (day - 1)) day_names "" in
  if day =? 7
  then Ok (dict_set weekly_plan day_name (sunday profile day), all_topics)
  else
    do r <- regular_day st strat profile all_topics day;
    Ok (dict_set weekly_plan day_name (fst r), snd r).

Fixpoint plan_days (st : Store) (strat : strategy) (profile : user_profile)
    (days : list Z) (acc : dict day_plan * dict (list topic_row))
  : result (dict day_plan * dict (list topic_row)) :=
  match days with
  | [] => Ok acc
  | day :: days' =>
      do acc' <- plan_day st strat profile acc day;
      plan_days st strat profile days' acc'
  end.

Definition generate_weekly_plan (st : Store) (strat : strategy)
    (profile : user_profile) : result (dict day_plan) :=
  let subs := get_subjects_for_exam st (exam_type profile) in
  let all_topics :=
    fold_left (fun d s => dict_set d (s_name s) (get_topics_for_subject st (s_id s)))
              subs [] in
  do r <- plan_days st strat profile [1; 2; 3; 4; 5; 6; 7] ([], all_topics);
  Ok (fst r).

(** ** [RoadmapGenerator]: persistence *)

Definition with_roadmaps (st : Store) (rs : list roadmap_row)
    (items : list roadmap_item_row) : Store :=
  {| users := users st;
     user_profiles := user_profiles st;
     subjects := subjects st;
     topics := topics st;
     user_progress := user_progress st;
     roadmaps := rs;
     roadmap_items := items |}.

(** [activity.get('topic_id')] in a condition: present and not empty. *)
Definition has_topic_id (a : activity) : bool :=
  match a_topic_id a with
  | Some tid => negb (String.eqb tid "")
  | None => false
  end.

Definition priority_number (p : string) : Z :=
  if String.eqb p "high" then 1 else if String.eqb p "medium" then 2 else 3.

(** The inner loop of [save_roadmap] over the activities of one day.
    [acc] holds the number of identifiers drawn so far and the rows
    inserted so far. *)
Fixpoint save_activities (env : Env) (roadmap_id : string) (day : Z)
    (acts : list activity) (acc : nat * list roadmap_item_row)
  : result (nat * list roadmap_item_row) :=
  match acts with
  | [] => Ok acc
  | a :: acts' =>
      if has_topic_id a
      then
        match a_topic_id a, a_priority a with
        | Some tid, Some prio =>
            let row := {| ri_id := uuid4 env (fst acc);
                          ri_roadmap_id := roadmap_id;
                          ri_topic_id := tid;
                          ri_day_of_week := day;
                          ri_study_hours := a_duration a;
                          ri_priority := priority_number prio;
                          ri_status := "pending" |} in
            save_activities env roadmap_id day acts' (S (fst acc), snd acc ++ [row])
        | _, _ => Raise KeyError
        end
      else save_activities env roadmap_id day acts' acc
  end.

Fixpoint save_days (env : Env) (roadmap_id : string) (plan : dict day_plan)
    (acc : nat * list roadmap_item_row) : result (nat * list roadmap_item_row) :=
  match plan with
  | [] => Ok acc
  | (_, dp) :: plan' =>
      do acc' <- save_activities env roadmap_id (dp_day dp) (dp_activities dp) acc;
      save_days env roadmap_id plan' acc'
  end.

(** [save_roadmap] commits once, at its end: an exception leaves the
    database as it was. *)
Definition save_roadmap (env : Env) (st : Store) (uid : string)
    (week_number year : Z) (weekly_plan : dict day_plan) : result (string * Store) :=
  let roadmap_id := uuid4 env 0%nat in
  let roadmap := {| r_id := roadmap_id;
                    r_user_id := uid;
                    r_week_number := week_number;
                    r_year := year;
                    r_status := "active";
                    r_created_at := now_stamp env;
                    r_updated_at := now_stamp env |} in
  do r <- save_days env roadmap_id weekly_plan (1%nat, []);
  Ok (roadmap_id,
      with_roadmaps st (roadmaps st ++ [roadmap]) (roadmap_items st ++ snd r)).

(** The dictionary returned by [generate_weekly_roadmap]. *)
Inductive roadmap_reply : Type :=
| ErrorReply (error : string)
| RoadmapReply (roadmap_id : string) (week_number year : Z) (exam : string)
    (hours_per_day : Z) (weekly_plan : dict day_plan) (strat : strategy).

Definition generate_weekly_roadmap (env : Env) (st : Store) (uid : string)
    (week_offset : Z) : result (roadmap_reply * Store) :=
  match get_user_profile st uid with
  | None => Ok (ErrorReply "User not found", st)
  | Some profile =>
      let '(week_number, year) := week_of env week_offset in
      let prog := get_user_progress st uid in
      let subs := get_subjects_for_exam st (exam_type profile) in
      do strat <- create_roadmap_strategy env profile prog subs;
      do weekly_plan <- generate_weekly_plan st strat profile;
      do saved <- save_roadmap env st uid week_number year weekly_plan;
      Ok (RoadmapReply (fst saved) week_number year (exam_type profile)
            (study_hours_per_day profile) weekly_plan strat,
          snd saved)
  end.

(** The database after a call: an exception is raised before anything is
    committed. *)
Definition store_after {A : Type} (st : Store) (r : result (A * Store)) : Store :=
  match r with
  | Ok (_, st') => st'
  | Raise _ => st
  end.

(** *** [get_roadmap] *)

(** A value of a result row. *)
Inductive sqlval : Type :=
| SNull
| SInt (z : Z)
| SText (s : string)
| STime (t : Z).

(** Truth value of a column in a condition; a timestamp reaches Python as
    a non-empty string. *)
Definition truthy (v : sqlval) : bool :=
  match v with
  | SNull => false
  | SInt z => negb (z =? 0)
  | SText s => negb (String.eqb s "")
  | STime _ => true
  end.

Definition roadmap_columns (r : roadmap_row) : list sqlval :=
  [SText (r_id r); SText (r_user_id r); SInt (r_week_number r); SInt (r_year r);
   SText (r_status r); STime (r_created_at r); STime (r_updated_at r)].

Definition item_columns (i : roadmap_item_row) : list sqlval :=
  [SText (ri_id i); SText (ri_roadmap_id i); SText (ri_topic_id i);
   SInt (ri_day_of_week i); SInt (ri_study_hours i); SInt (ri_priority i);
   SText (ri_status i)].

(** The right-hand side of a [LEFT JOIN]: the matching rows, or one row of
    NULLs when there is none. *)
Definition or_nulls (nulls : list sqlval) (rows : list (list sqlval))
  : list (list sqlval) :=
  match rows with
  | [] => [nulls]
  | _ :: _ => rows
  end.

(** Columns [t.name, s.name] for a topic. *)
Definition subject_join (st : Store) (t : topic_row) : list (list sqlval) :=
  or_nulls [SText (t_name t); SNull]
    (map (fun s => [SText (t_name t); SText (s_name s)])
         (filter (fun s => String.eqb (t_subject_id t) (s_id s)) (subjects st))).

(** Columns [t.name, s.name] for an item. *)
Definition topic_join (st : Store) (i : roadmap_item_row) : list (list sqlval) :=
  or_nulls [SNull; SNull]
    (flat_map (subject_join st)
       (filter (fun t => String.eqb (ri_topic_id i) (t_id t)) (topics st))).

(** Columns [ri.*, t.name, s.name] for a roadmap. *)
Definition item_join (st : Store) (r : roadmap_row) : list (list sqlval) :=
  or_nulls (repeat SNull 9)
    (flat_map (fun i => map (app (item_columns i)) (topic_join st i))
       (filter (fun i => String.eqb (r_id r) (ri_roadmap_id i)) (roadmap_items st))).

(** The rows of [SELECT r.*, ri.*, t.name, s.name FROM roadmaps r
    LEFT JOIN roadmap_items ri ON r.id = ri.roadmap_id
    LEFT JOIN topics t ON ri.topic_id = t.id
    LEFT JOIN subjects s ON t.subject_id = s.id
    WHERE r.user_id = ? AND r.week_number = ? AND r.year = ?]. *)
Definition roadmap_rows (st : Store) (uid : string) (week_number year : Z)
  : list (list sqlval) :=
  flat_map (fun r => map (app (roadmap_columns r)) (item_join st r))
    (filter (fun r => String.eqb (r_user_id r) uid
                      && (r_week_number r =? week_number)
                      && (r_year r =? year))
            (roadmaps st)).

Record item_view : Type := {
  iv_id : sqlval;
  iv_topic_id : sqlval;
  iv_day_of_week : sqlval;
  iv_study_hours : sqlval;
  iv_priority : sqlval;
  iv_status : sqlval;
  iv_topic_name : sqlval;
  iv_subject_name : sqlval
}.

Record roadmap_view : Type := {
  rv_id : sqlval;
  rv_user_id : sqlval;
  rv_week_number : sqlval;
  rv_year : sqlval;
  rv_status : sqlval;
  rv_items : list item_view
}.

(** [row[i]]; every row of [roadmap_rows] has sixteen columns. *)
Definition col (row : list sqlval) (i : nat) : sqlval := nth i row SNull.

Definition item_of_row (result : list sqlval) : item_view :=
  {| iv_id := col result 6;
     iv_topic_id := col result 8;
     iv_day_of_week := col result 9;
     iv_study_hours := col result 10;
     iv_priority := col result 11;
     iv_status := col result 12;
     iv_topic_name := col result 13;
     iv_subject_name := col result 14 |}.

Definition get_roadmap (env : Env) (st : Store) (uid : string) (week_offset : Z)
  : option roadmap_view :=
  let '(week_number, year) := week_of env week_offset in
  let results := roadmap_rows st uid week_number year in
  match results with
  | [] => None
  | first :: _ =>
      let roadmap_info := firstn 6 first in
      Some {| rv_id := col roadmap_info 0;
              rv_user_id := col roadmap_info 1;
              rv_week_number := col roadmap_info 2;
              rv_year := col roadmap_info 3;
              rv_status := col roadmap_info 4;
              rv_items :=
                map item_of_row (filter (fun result => truthy (col result 6)) results) |}
  end.

Definition update_roadmap_progress (st : Store) (item_id status : string) : Store :=
  with_roadmaps st (roadmaps st)
    (map (fun i =>
            if String.eqb (ri_id i) item_id
            then {| ri_id := ri_id i;
                    ri_roadmap_id := ri_roadmap_id i;
                    ri_topic_id := ri_topic_id i;
                    ri_day_of_week := ri_day_of_week i;
                    ri_study_hours := ri_study_hours i;
                    ri_priority := ri_priority i;
                    ri_status := status |}
            else i)
         (roadmap_items st)).

(** ** [RoadmapGenerator]: analytics and adaptation *)

(** [str(n)] for a Python int. *)
Definition str_of_int (n : Z) : string := NilZero.string_of_int (Z.to_int n).

(** A group of [GROUP BY r.week_number, r.year, ri.status] with its
    [COUNT]. *)
Record stat_row : Type := {
  sr_week_number : Z;
  sr_year : Z;
  sr_status : string;
  sr_count : Z
}.

Definition same_group (a : stat_row) (w y : Z) (s : string) : bool :=
  (sr_week_number a =? w) && (sr_year a =? y) && String.eqb (sr_status a) s.

Fixpoint count_group (groups : list stat_row) (w y : Z) (s : string)
  : list stat_row :=
  match groups with
  | [] => [{| sr_week_number := w; sr_year := y; sr_status := s; sr_count := 1 |}]
  | g :: groups' =>
      if same_group g w y s
      then {| sr_week_number := w; sr_year := y; sr_status := s;
              sr_count := sr_count g + 1 |} :: groups'
      else g :: count_group groups' w y s
  end.

(** The rows of the query of [get_roadmap_analytics]: the groups come by
    decreasing year and week number, as the query orders them, and within
    a week by increasing status, as the grouping of SQLite leaves
    them. *)
Definition analytics_rows (st : Store) (uid : string) (from_week : Z)
  : list stat_row :=
  let joined :=
    flat_map (fun r =>
      map (fun i => (r_week_number r, r_year r, ri_status i))
          (filter (fun i => String.eqb (r_id r) (ri_roadmap_id i)) (roadmap_items st)))
      (filter (fun r => String.eqb (r_user_id r) uid && (from_week <=? r_week_number r))
              (roadmaps st)) in
  let groups :=
    fold_left (fun gs row => count_group gs (fst (fst row)) (snd (fst row)) (snd row))
              joined [] in
  stable_sort
    (fun a b => (sr_year b <? sr_year a)
                || ((sr_year b =? sr_year a)
                    && ((sr_week_number b <? sr_week_number a)
                        || ((sr_week_number b =? sr_week_number a)
                            && String.leb (sr_status a) (sr_status b)))))
    groups.

Record week_stats : Type := {
  counts : dict Z;
  completion_rate : float
}.

Definition count_of (d : dict Z) (k : string) : Z :=
  match dict_get d k with
  | Some n => n
  | None => 0
  end.

Definition week_key (row : stat_row) : string :=
  (str_of_int (sr_year row) ++ "-W" ++ str_of_int (sr_week_number row))%string.

(** The first loop of [get_roadmap_analytics]. *)
Definition tally (weekly : dict (dict Z)) (row : stat_row) : dict (dict Z) :=
  let key := week_key row in
  let stats :=
    match dict_get weekly key with
    | Some stats => stats
    | None => [("completed", 0); ("pending", 0); ("skipped", 0); ("total", 0)]
    end in
  let stats1 := dict_set stats (sr_status row) (sr_count row) in
  let stats2 := dict_set stats1 "total" (count_of stats1 "total" + sr_count row) in
  dict_set weekly key stats2.

Definition rate_of (stats : dict Z) : float :=
  let total := count_of stats "total" in
  let done := count_of stats "completed" in
  if 0 <? total then fmul (int_truediv done total) (of_int 100) else 0%Q.

Record analytics : Type := {
  weekly_stats : dict week_stats;
  avg_completion_rate : float;
  total_weeks_tracked : Z
}.

Definition get_roadmap_analytics (env : Env) (st : Store) (uid : string)
    (weeks_back : Z) : analytics :=
  let results := analytics_rows st uid (fst (week_of env 0) - weeks_back) in
  let tallied := fold_left tally results [] in
  let stats :=
    map (fun kv => (fst kv, {| counts := snd kv; completion_rate := rate_of (snd kv) |}))
        tallied in
  {| weekly_stats := stats;
     avg_completion_rate :=
       match stats with
       | [] => 0%Q
       | _ :: _ =>
           fdiv (fsum (map (fun kv => completion_rate (snd kv)) stats))
                (of_int (Z.of_nat (List.length stats)))
       end;
     total_weeks_tracked := Z.of_nat (List.length stats) |}.

Record adaptation : Type := {
  ad_type : string;
  ad_subject : option string;
  ad_reason : string;
  ad_action : string
}.

Definition reduce_workload : adaptation :=
  {| ad_type := "reduce_workload";
     ad_subject := None;
     ad_reason := "Low completion rate";
     ad_action := "Reduce daily study hours by 1" |}.

Definition increase_focus (subject : string) (count : Z) : adaptation :=
  {| ad_type := "increase_focus";
     ad_subject := Some subject;
     ad_reason := ("Struggling with " ++ str_of_int count ++ " topics")%string;
     ad_action := ("Increase " ++ subject ++ " study time by 30%")%string |}.

Definition increase_difficulty : adaptation :=
  {| ad_type := "increase_difficulty";
     ad_subject := None;
     ad_reason := "Excellent performance";
     ad_action := "Add advanced topics and mock tests" |}.

(** The decisions of [adapt_roadmap_based_on_performance], from the figures
    it reads. *)
Definition adaptations_for (avg_rate : float) (prog : list progress)
  : list adaptation :=
  let low := if ltb avg_rate (of_int 50) then [reduce_workload] else [] in
  let subject_struggles :=
    fold_left
      (fun d p =>
         if String.eqb (p_status p) "struggling"
         then dict_set d (p_subject_name p) (count_of d (p_subject_name p) + 1)
         else d)
      prog [] in
  let focus :=
    flat_map (fun kv => if 2 <=? snd kv then [increase_focus (fst kv) (snd kv)] else [])
             subject_struggles in
  let excellent :=
    if ltb (of_int 80) avg_rate
    then
      let avg_mastery := match prog with [] => 0%Q | _ :: _ => mean_mastery prog end in
      if ltb (lit 7 10) avg_mastery then [increase_difficulty] else []
    else [] in
  low ++ focus ++ excellent.

Record adaptation_reply : Type := {
  adaptations : list adaptation;
  recommended_changes : bool
}.

Definition adapt_roadmap_based_on_performance (env : Env) (st : Store)
    (uid : string) : adaptation_reply :=
  let stats := get_roadmap_analytics env st uid 2 in
  let prog := get_user_progress st uid in
  let ads := adaptations_for (avg_completion_rate stats) prog in
  {| adaptations := ads;
     recommended_changes := 0 <? Z.of_nat (List.length ads) |}.

(** *** Notions used to state what the analytics report *)





(** The sum of the counts of the groups that pass a test. *)
Definition group_sum (p : stat_row -> bool) (groups : list stat_row) : Z :=
  sum_Z (map sr_count (filter p groups)).




(** What [weekly_stats] holds after the rows [done] have been tallied. *)
Definition tallied (weekly : dict (dict Z)) (done : list stat_row) : Prop :=
  (forall k, dict_get weekly k <> None <-> exists g, In g done /\ week_key g = k) /\
  NoDup (dict_keys weekly) /\
  forall k c,
    dict_get weekly k = Some c ->
    (forall g, In g done -> week_key g = k -> sr_status g <> "total") ->
    (forall s, s <> "total" ->
       count_of c s
       = group_sum (fun g => String.eqb (week_key g) k && String.eqb (sr_status g) s)
                   done) /\
    count_of c "total" = group_sum (fun g => String.eqb (week_key g) k) done.

(** ** Sample data

    The subjects inserted by [populate_initial_data], a few of its topics,
    and a small database used by the examples. *)

Definition seed_subjects : list subject_row :=
  [{| s_id := "physics_jee_neet"; s_name := "Physics"; s_exam_type := "BOTH" |};
   {| s_id := "chemistry_jee_neet"; s_name := "Chemistry"; s_exam_type := "BOTH" |};
   {| s_id := "mathematics_jee"; s_name := "Mathematics"; s_exam_type := "JEE" |};
   {| s_id := "biology_neet"; s_name := "Biology"; s_exam_type := "NEET" |}].

Definition seed_topics : list topic_row :=
  [{| t_id := "physics_mechanics"; t_subject_id := "physics_jee_neet";
      t_name := "Mechanics"; t_chapter_number := 1;
      t_difficulty_level := 4; t_importance := 5 |};
   {| t_id := "physics_optics"; t_subject_id := "physics_jee_neet";
      t_name := "Optics"; t_chapter_number := 5;
      t_difficulty_level := 3; t_importance := 4 |};
   {| t_id := "chemistry_atomic_structure"; t_subject_id := "chemistry_jee_neet";
      t_name := "Atomic Structure"; t_chapter_number := 1;
      t_difficulty_level := 3; t_importance := 4 |};
   {| t_id := "mathematics_calculus"; t_subject_id := "mathematics_jee";
      t_name := "Calculus"; t_chapter_number := 3;
      t_difficulty_level := 5; t_importance := 5 |};
   {| t_id := "biology_cell_biology"; t_subject_id := "biology_neet";
      t_name := "Cell Biology"; t_chapter_number := 1;
      t_difficulty_level := 2; t_importance := 4 |}].

(** Two users: [u1] prepares JEE, [u2] has a track that is neither JEE nor
    NEET. *)
Definition sample_store : Store :=
  {| users := [{| u_id := "u1"; u_exam_type := "JEE"; u_target_year := 2027 |};
               {| u_id := "u2"; u_exam_type := "GATE"; u_target_year := 2027 |}];
     user_profiles := [{| up_user_id := "u1"; up_study_hours_per_day := 4 |};
                       {| up_user_id := "u2"; up_study_hours_per_day := 4 |}];
     subjects := seed_subjects;
     topics := seed_topics;
     user_progress := [];
     roadmaps := [];
     roadmap_items := [] |}.

Definition sample_env : Env :=
  {| now_year := 2026;
     now_month := 11;
     now_stamp := 1000;
     week_of := fun k => (45 + k, 2026);
     uuid4 := fun n => ("id-" ++ str_of_int (Z.of_nat n))%string |}.

Definition sample_jee_profile : user_profile :=
  {| user_id := "u1"; exam_type := "JEE"; target_year := 2027;
     study_hours_per_day := 4 |}.

Definition sample_progress (subject : string) (mastery : float) : progress :=
  {| p_topic_id := subject;
     p_mastery_level := mastery;
     p_last_studied := 0;
     p_attempts := 1;
     p_status := "in_progress";
     p_topic_name := subject;
     p_subject_name := subject |}.

(** Progress of [u1]: Physics and Chemistry at 0.5, Mathematics at 0.9. *)
Definition sample_store_uneven : Store :=
  update_progress sample_env
    (update_progress sample_env
       (update_progress sample_env sample_store
          "u1" "physics_mechanics" (lit 5 10) 60 2 1)
       "u1" "chemistry_atomic_structure" (lit 5 10) 60 2 1)
    "u1" "mathematics_calculus" (lit 9 10) 60 2 2.

(** Two progress states that differ in the mastery of Physics only. *)
Definition sample_progress_before : list progress :=
  [sample_progress "Physics" (lit 5 10);
   sample_progress "Chemistry" (lit 5 10);
   sample_progress "Mathematics" (lit 9 10)].

Definition sample_progress_after : list progress :=
  [sample_progress "Physics" (lit 2 10);
   sample_progress "Chemistry" (lit 5 10);
   sample_progress "Mathematics" (lit 9 10)].

Definition valid_year (y : Z) : Prop := 1 <= y <= 9999.

Definition with_exam_type (profile : user_profile) (exam : string) : user_profile :=
  {| user_id := user_id profile;
     exam_type := exam;
     target_year := target_year profile;
     study_hours_per_day := study_hours_per_day profile |}.

(** The plan of a regular day: the block of the primary subject when a
    topic was selected for it, then the block of the secondary subject when
    a topic was selected for it, then the mixed revision. *)
Definition regular_shape (strat : strategy) (profile : user_profile) (day : Z)
    (dp : day_plan) : Prop :=
  let prio := priority_subjects strat in
  let n := Z.of_nat (List.length prio) in
  let hours := study_hours_per_day profile in
  let primary_subject := nth (Z.to_nat (day mod n)) prio "" in
  let secondary_subject := nth (Z.to_nat ((day + 1) mod n)) prio "" in
  dp_day dp = day /\
  dp_focus dp = primary_subject /\
  exists prim sec,
    dp_activities dp = prim ++ sec ++ [mixed_revision hours] /\
    (prim = [] \/ exists t, prim = [primary_activity primary_subject t hours]) /\
    (sec = [] \/ exists t, sec = [secondary_activity secondary_subject t hours]).

(** [all_topics] of [generate_weekly_plan], as built before the first day:
    the topics of each subject of the track, by subject name. *)
Definition catalogue_topics (st : Store) (profile : user_profile)
  : dict (list topic_row) :=
  fold_left (fun d s => dict_set d (s_name s) (get_topics_for_subject st (s_id s)))
            (get_subjects_for_exam st (exam_type profile)) [].

(** [all_topics.get(subject, [])] on that dictionary. *)
Definition topics_of (st : Store) (profile : user_profile) (subject : string)
  : list topic_row :=
  match dict_get (catalogue_topics st profile) subject with
  | Some tops => tops
  | None => []
  end.

(** The topic of a block: the first one that [select_topics_for_day]
    returns for the catalogue topics of the subject, if any. *)
Definition selected_topic (st : Store) (strat : strategy) (profile : user_profile)
    (subject : string) : option topic_row :=
  hd_error (fst (select_topics_for_day st (topics_of st profile subject)
                   (user_id profile) (phase strat))).

(** The plan of a regular day, from the catalogue alone. *)
Definition planned_day (st : Store) (strat : strategy) (profile : user_profile)
    (day : Z) : day_plan :=
  let prio := priority_subjects strat in
  let n := Z.of_nat (List.length prio) in
  let hours := study_hours_per_day profile in
  let primary_subject := nth (Z.to_nat (day mod n)) prio "" in
  let secondary_subject := nth (Z.to_nat ((day + 1) mod n)) prio "" in
  {| dp_day := day;
     dp_focus := primary_subject;
     dp_activities :=
       match selected_topic st strat profile primary_subject with
       | Some t => [primary_activity primary_subject t hours]
       | None => []
       end
       ++ match selected_topic st strat profile secondary_subject with
          | Some t => [secondary_activity secondary_subject t hours]
          | None => []
          end
       ++ [mixed_revision hours] |}.

(** What the in-place sort can have made of a list of the catalogue. *)
Definition settled (st : Store) (strat : strategy) (profile : user_profile)
    (tops0 tops : list topic_row) : Prop :=
  tops = tops0 \/
  tops = snd (select_topics_for_day st tops0 (user_id profile) (phase strat)).

(** The dictionary of topics on a later day: the same subjects, each with
    its list as it was or as a selection left it. *)
Definition threaded (st : Store) (strat : strategy) (profile : user_profile)
    (all_topics : dict (list topic_row)) : Prop :=
  forall subject,
    match dict_get (catalogue_topics st profile) subject with
    | Some tops0 =>
        exists tops, dict_get all_topics subject = Some tops /\ settled st strat profile tops0 tops
    | None => dict_get all_topics subject = None
    end.

(** A JEE aspirant with an odd budget of 5 hours a day. *)
Definition sample_profile_5_hours : user_profile :=
  {| user_id := "u1"; exam_type := "JEE"; target_year := 2027;
     study_hours_per_day := 5 |}.

(** The strategy of [u1] in [sample_store]. *)
Definition sample_strategy : strategy :=
  {| phase := "foundation";
     months_remaining := 5;
     focus_areas := ["basic_concepts"; "ncert_completion"];
     subject_allocation := [("Physics", 33); ("Chemistry", 33); ("Mathematics", 34)];
     subject_performance := [("Physics", 0%Q); ("Chemistry", 0%Q); ("Mathematics", 0%Q)];
     priority_subjects := ["Physics"; "Chemistry"; "Mathematics"];
     study_intensity := "medium_high" |}.

(** The databases that the three writers of this slice can produce from a
    database without roadmap items. *)
Inductive reachable : Store -> Prop :=
| reach_fresh (st : Store) :
    roadmap_items st = [] -> reachable st
| reach_update_progress (env : Env) (st : Store) (uid tid : string) (m : float)
    (time_spent attempts correct : Z) :
    reachable st ->
    reachable (update_progress env st uid tid m time_spent attempts correct)
| reach_generate (env : Env) (st : Store) (uid : string) (week_offset : Z) :
    reachable st ->
    reachable (store_after st (generate_weekly_roadmap env st uid week_offset))
| reach_item_status (st : Store) (item_id status : string) :
    reachable st ->
    reachable (update_roadmap_progress st item_id status).

(** Scenario D: [u1] has a roadmap for each of the weeks 44 and 45, of
    five items each, two of them completed. *)
Definition sample_roadmap (rid : string) (week_number : Z) : roadmap_row :=
  {| r_id := rid; r_user_id := "u1"; r_week_number := week_number; r_year := 2026;
     r_status := "active"; r_created_at := 900; r_updated_at := 900 |}.

Definition sample_item (iid rid : string) (day : Z) (status : string)
  : roadmap_item_row :=
  {| ri_id := iid; ri_roadmap_id := rid; ri_topic_id := "physics_mechanics";
     ri_day_of_week := day; ri_study_hours := 2; ri_priority := 1;
     ri_status := status |}.

Definition scenario_d_store : Store :=
  with_roadmaps sample_store_uneven
    [sample_roadmap "r44" 44; sample_roadmap "r45" 45]
    [sample_item "a1" "r44" 1 "completed"; sample_item "a2" "r44" 2 "completed";
     sample_item "a3" "r44" 3 "pending"; sample_item "a4" "r44" 4 "skipped";
     sample_item "a5" "r44" 5 "pending";
     sample_item "b1" "r45" 1 "completed"; sample_item "b2" "r45" 2 "pending";
     sample_item "b3" "r45" 3 "completed"; sample_item "b4" "r45" 4 "pending";
     sample_item "b5" "r45" 5 "pending"].


(** The row of [user_progress] for a user and a topic. *)
Definition stored_progress (st : Store) (uid tid : string) : option progress_row :=
  find (fun p => String.eqb (pr_user_id p) uid && String.eqb (pr_topic_id p) tid)
       (user_progress st).
(** ** Definitions for the further properties *)

(** The mastery that [select_topics_for_day] reads for a topic: that of the
    last progress record with the topic's id, or 0.0. *)
Definition topic_mastery (st : Store) (uid : string) (t : topic_row) : float :=
  match dict_get (fold_left (fun d p => dict_set d (p_topic_id p) p)
                            (get_user_progress st uid) [])
                 (t_id t) with
  | Some p => p_mastery_level p
  | None => 0%Q
  end.

(** The filter of [select_topics_for_day] for a phase. *)
Definition suits_phase (ph : string) (m : float) : bool :=
  if String.eqb ph "foundation" then ltb m (lit 4 10)
  else if String.eqb ph "intermediate" then leb (lit 3 10) m && ltb m (lit 7 10)
  else leb (lit 6 10) m.

(** The topics that [select_topics_for_day] ranks: those that suit the
    phase, or all of them when none does. *)
Definition candidates (st : Store) (tops : list topic_row) (uid ph : string)
  : list topic_row :=
  match filter (fun t => suits_phase ph (topic_mastery st uid t)) tops with
  | [] => tops
  | suitable => suitable
  end.

(** *** [create_user] and [update_user_profile] *)

Inductive sqlite_error : Type :=
| IntegrityError
| OperationalError.

Inductive db_result (A : Type) : Type :=
| Done (a : A)
| Failed (e : sqlite_error).

Arguments Done {A} a.
Arguments Failed {A} e.

Definition with_users (st : Store) (us : list user_row)
    (ps : list user_profile_row) : Store :=
  {| users := us;
     user_profiles := ps;
     subjects := subjects st;
     topics := topics st;
     user_progress := user_progress st;
     roadmaps := roadmaps st;
     roadmap_items := roadmap_items st |}.

(** [create_user]: the identifier is drawn at random; [users.id] and
    [user_profiles.user_id] are primary keys, so an identifier already in
    use makes the insertion fail, and nothing is committed.  The profile
    row takes the defaults of its table ([study_hours_per_day] 4). *)
Definition create_user (env : Env) (st : Store) (name exam : string) (year : Z)
  : db_result (string * Store) :=
  let uid := uuid4 env 0%nat in
  if existsb (fun u => String.eqb (u_id u) uid) (users st) then Failed IntegrityError
  else if existsb (fun p => String.eqb (up_user_id p) uid) (user_profiles st)
  then Failed IntegrityError
  else
    Done (uid,
          with_users st
            (users st ++ [{| u_id := uid; u_exam_type := exam; u_target_year := year |}])
            (user_profiles st ++ [{| up_user_id := uid; up_study_hours_per_day := 4 |}])).

Definition profile_fields : list string :=
  ["learning_style"; "difficulty_preference"; "preferred_explanation_style";
   "confidence_level"; "curiosity_level"; "patience_level"; "current_level";
   "adaptive_difficulty"; "study_hours_per_day"; "preferred_study_time";
   "weak_subjects"; "strong_subjects"].

(** [update_user_profile]: for the first of [profile_fields] found in the
    keyword arguments the method executes
    [UPDATE user_profiles SET <field> = ?, updated_at = CURRENT_TIMESTAMP ...];
    the table [user_profiles] has no column [updated_at], so SQLite rejects
    the statement and the method raises before it commits.  Without any of
    these fields no statement is executed. *)
Definition update_user_profile (st : Store) (uid : string) (kwargs : dict sqlval)
  : db_result Store :=
  if existsb (fun field => match dict_get kwargs field with
                           | Some _ => true
                           | None => false
                           end) profile_fields
  then Failed OperationalError
  else Done st.

(** The database after a call of [DatabaseManager] that may fail. *)
Definition db_after {A : Type} (st : Store) (r : db_result (A * Store)) : Store :=
  match r with
  | Done (_, st') => st'
  | Failed _ => st
  end.

(** The identifier that [update_progress] gives to the row of a pair. *)
Definition progress_id (uid tid : string) : string := (uid ++ "_" ++ tid)%string.

Definition same_pair (uid tid : string) (p : progress_row) : bool :=
  String.eqb (pr_user_id p) uid && String.eqb (pr_topic_id p) tid.

(** Every progress row carries the identifier of its pair. *)
Definition well_keyed (st : Store) : Prop :=
  forall p, In p (user_progress st) ->
            pr_id p = progress_id (pr_user_id p) (pr_topic_id p).

(** The databases produced by the writers of [DatabaseManager] and
    [RoadmapGenerator] from one without progress, roadmaps and items. *)
Inductive history : Store -> Prop :=
| history_start (st : Store) :
    user_progress st = [] -> roadmaps st = [] -> roadmap_items st = [] ->
    history st
| history_create_user (env : Env) (st : Store) (name exam : string) (year : Z) :
    history st ->
    history (db_after st (create_user env st name exam year))
| history_update_progress (env : Env) (st : Store) (uid tid : string) (m : float)
    (time_spent attempts correct : Z) :
    history st ->
    history (update_progress env st uid tid m time_spent attempts correct)
| history_generate (env : Env) (st : Store) (uid : string) (week_offset : Z) :
    history st ->
    history (store_after st (generate_weekly_roadmap env st uid week_offset))
| history_item_status (st : Store) (item_id status : string) :
    history st ->
    history (update_roadmap_progress st item_id status).

(** The roadmaps that [get_roadmap] selects for a user and a week. *)
Definition matching_roadmaps (st : Store) (uid : string) (week_number year : Z)
  : list roadmap_row :=
  filter (fun r => String.eqb (r_user_id r) uid
                   && (r_week_number r =? week_number)
                   && (r_year r =? year))
         (roadmaps st).

(** *** The route [GET /api/roadmap/{user_id}] of [backend/server.py] *)

Inductive endpoint_reply : Type :=
| Existing (roadmap : roadmap_view)
| Generated (reply : roadmap_reply).

(** The route returns the stored roadmap, or generates one when
    [get_roadmap] returns None.  (An exception becomes an HTTP error 500;
    here it stays an exception.) *)
Definition get_roadmap_endpoint (env : Env) (st : Store) (uid : string)
    (week_offset : Z) : result (endpoint_reply * Store) :=
  match get_roadmap env st uid week_offset with
  | Some roadmap => Ok (Existing roadmap, st)
  | None =>
      do r <- generate_weekly_roadmap env st uid week_offset;
      Ok (Generated (fst r), snd r)
  end.

(** The clock on 2024-12-31 and on 2025-01-02, two days of the ISO week 1
    of 2025, for offsets of less than a year. *)
Definition env_2024_12_31 : Env :=
  {| now_year := 2024;
     now_month := 12;
     now_stamp := 1000;
     week_of := fun k => if k =? 0 then (1, 2024)
                         else if 0 <? k then (1 + k, 2025) else (53 + k, 2024);
     uuid4 := fun n => ("a-" ++ str_of_int (Z.of_nat n))%string |}.

Definition env_2025_01_02 : Env :=
  {| now_year := 2025;
     now_month := 1;
     now_stamp := 2000;
     week_of := fun k => if 0 <=? k then (1 + k, 2025) else (53 + k, 2024);
     uuid4 := fun n => ("b-" ++ str_of_int (Z.of_nat n))%string |}.



(** The hours planned for a day. *)
Definition day_total (dp : day_plan) : Z := sum_Z (map a_duration (dp_activities dp)).

(** Progress of a NEET candidate: strong in Physics and Chemistry, average
    in Biology; and strong in Physics only. *)
Definition sample_neet_profile : user_profile :=
  {| user_id := "u9"; exam_type := "NEET"; target_year := 2027;
     study_hours_per_day := 6 |}.

Definition sample_progress_strong_two : list progress :=
  [sample_progress "Physics" (lit 9 10);
   sample_progress "Chemistry" (lit 9 10);
   sample_progress "Biology" (lit 5 10)].

Definition sample_progress_strong_one : list progress :=
  [sample_progress "Physics" (lit 9 10);
   sample_progress "Biology" (lit 5 10)].

(** The record of [get_user_progress] for a progress row joined with its
    topic and the subject of the topic. *)
Definition joined_progress (p : progress_row) (t : topic_row) (s : subject_row)
  : progress :=
  {| p_topic_id := pr_topic_id p;
     p_mastery_level := pr_mastery_level p;
     p_last_studied := pr_last_studied p;
     p_attempts := pr_attempts p;
     p_status := pr_status p;
     p_topic_name := t_name t;
     p_subject_name := s_name s |}.

(** The number of progress records of a subject with status
    ['struggling']. *)
Definition struggling_topics (prog : list progress) (subject : string) : Z :=
  Z.of_nat (List.length
              (filter (fun p => String.eqb (p_status p) "struggling"
                                && String.eqb (p_subject_name p) subject)
                      prog)).

(** The database after [update_user_profile]. *)
Definition profile_after (st : Store) (r : db_result Store) : Store :=
  match r with
  | Done st' => st'
  | Failed _ => st
  end.

(** The databases produced by all the modelled writers, [update_user_profile]
    included, from one without users, roadmaps and items. *)
Inductive profile_history : Store -> Prop :=
| profile_start (st : Store) :
    user_profiles st = [] -> roadmap_items st = [] -> profile_history st
| profile_create_user (env : Env) (st : Store) (name exam : string) (year : Z) :
    profile_history st ->
    profile_history (db_after st (create_user env st name exam year))
| profile_update (st : Store) (uid : string) (kwargs : dict sqlval) :
    profile_history st ->
    profile_history (profile_after st (update_user_profile st uid kwargs))
| profile_update_progress (env : Env) (st : Store) (uid tid : string) (m : float)
    (time_spent attempts correct : Z) :
    profile_history st ->
    profile_history (update_progress env st uid tid m time_spent attempts correct)
| profile_generate (env : Env) (st : Store) (uid : string) (week_offset : Z) :
    profile_history st ->
    profile_history (store_after st (generate_weekly_roadmap env st uid week_offset))
| profile_item_status (st : Store) (item_id status : string) :
    profile_history st ->
    profile_history (update_roadmap_progress st item_id status).

(** A database with the seeded catalogue and nothing else. *)
Definition fresh_store : Store :=
  {| users := [];
     user_profiles := [];
     subjects := seed_subjects;
     topics := seed_topics;
     user_progress := [];
     roadmaps := [];
     roadmap_items := [] |}.

(** The seeded database after a NEET aspirant has signed up and asked for
    8 study hours a day. *)
Definition sample_store_new_user : Store :=
  let st := db_after fresh_store (create_user sample_env fresh_store "Asha" "NEET" 2027) in
  profile_after st
    (update_user_profile st (uuid4 sample_env 0%nat) [("study_hours_per_day", SInt 8)]).

(** A JEE aspirant whose target year has passed. *)
Definition sample_late_profile : user_profile :=
  {| user_id := "u1"; exam_type := "JEE"; target_year := 2020;
     study_hours_per_day := 4 |}.

Example fl_0_7 : fl (7 # 10) = (3152519739159347 # 4503599627370496)%Q.
Proof. reflexivity. Qed.

Example fl_0_2 : fl (2 # 10) = (3602879701896397 # 18014398509481984)%Q.
Proof. reflexivity. Qed.

Example int_90_times_0_7 : trunc (fmul (of_int 90) (lit 7 10)) = 62.
Proof. reflexivity. Qed.

Example int_10_times_0_7 : trunc (fmul (of_int 10) (lit 7 10)) = 7.
Proof. reflexivity. Qed.

Example fl_large : fl (inject_Z (2 ^ 60 + 1)) = inject_Z (2 ^ 60).
Proof. reflexivity. Qed.

Example round_half_cases :
  (py_round (5 # 2), py_round (7 # 2), py_round (fl (- 5 # 2))) = (2, 4, -2).
Proof. reflexivity. Qed.

(** * Properties *)

(** ** Comparisons of floats *)

Lemma leb_iff (x y : float) : leb x y = true <-> (x <= y)%Q.
Proof. apply Qle_bool_iff. Qed.

Lemma ltb_iff (x y : float) : ltb x y = true <-> (x < y)%Q.
Proof.
  unfold ltb. rewrite negb_true_iff. split.
  - intros H. apply Qnot_le_lt. intros Hle.
    apply Qle_bool_iff in Hle. congruence.
  - intros H. destruct (Qle_bool y x) eqn:E; [|reflexivity].
    apply Qle_bool_iff in E. exfalso. exact (Qlt_not_le _ _ H E).
Qed.

Lemma leb_false_iff (x y : float) : leb x y = false <-> (y < x)%Q.
Proof.
  rewrite <- ltb_iff. unfold ltb, leb.
  destruct (Qle_bool x y); simpl; split; congruence.
Qed.

Lemma ltb_false_iff (x y : float) : ltb x y = false <-> (y <= x)%Q.
Proof.
  rewrite <- leb_iff. unfold ltb, leb.
  destruct (Qle_bool y x); simpl; split; congruence.
Qed.

(** ** Stable sorting *)

Section StableSort.

Variable A : Type.
Variable le : A -> A -> bool.
Hypothesis le_total : forall x y, le x y = true \/ le y x = true.
Hypothesis le_trans : forall x y z, le x y = true -> le y z = true -> le x z = true.

Lemma insert_sorted_perm (x : A) (l : list A) :
  Permutation (insert_sorted le x l) (x :: l).
Proof.
  induction l as [|y l IH]; simpl.
  - apply Permutation_refl.
  - destruct (le x y).
    + apply Permutation_refl.
    + eapply perm_trans; [apply perm_skip, IH | apply perm_swap].
Qed.

Lemma stable_sort_perm (l : list A) : Permutation (stable_sort le l) l.
Proof.
  induction l as [|x l IH]; simpl.
  - apply perm_nil.
  - eapply perm_trans; [apply insert_sorted_perm | apply perm_skip, IH].
Qed.

Lemma insert_sorted_sorted (x : A) (l : list A) :
  StronglySorted (fun a b => le a b = true) l ->
  StronglySorted (fun a b => le a b = true) (insert_sorted le x l).
Proof.
  induction 1 as [|y l Hs IH Hy]; simpl.
  - constructor; constructor.
  - destruct (le x y) eqn:E.
    + constructor; [constructor; assumption|].
      constructor; [exact E|].
      rewrite Forall_forall in Hy |- *. intros z Hz.
      eapply le_trans; [exact E | now apply Hy].
    + constructor; [exact IH|].
      rewrite Forall_forall in Hy |- *. intros z Hz.
      apply (Permutation_in _ (insert_sorted_perm x l)) in Hz.
      destruct Hz as [<- | Hz]; [|now apply Hy].
      destruct (le_total x y) as [H | H]; [congruence | exact H].
Qed.

Lemma stable_sort_sorted (l : list A) :
  StronglySorted (fun a b => le a b = true) (stable_sort le l).
Proof.
  induction l as [|x l IH]; simpl.
  - constructor.
  - apply insert_sorted_sorted, IH.
Qed.

(** Sorting a sorted list changes nothing. *)
Lemma stable_sort_of_sorted (l : list A) :
  StronglySorted (fun a b => le a b = true) l -> stable_sort le l = l.
Proof.
  induction 1 as [|x l Hs IH Hx]; simpl.
  - reflexivity.
  - rewrite IH. destruct l as [|y l]; simpl; [reflexivity|].
    inversion Hx as [|? ? Hxy _]; subst. now rewrite Hxy.
Qed.

(** Filtering commutes with the insertion, hence with the sort: the
    elements that compare equal keep their order. *)
Lemma filter_insert_sorted (f : A -> bool) (x : A) (l : list A) :
  StronglySorted (fun a b => le a b = true) l ->
  filter f (insert_sorted le x l)
  = if f x then insert_sorted le x (filter f l) else filter f l.
Proof.
  induction 1 as [|y l Hs IH Hy]; simpl.
  - destruct (f x); reflexivity.
  - destruct (le x y) eqn:E; simpl.
    + destruct (f x) eqn:Ex, (f y) eqn:Ey; simpl; rewrite ?E; try reflexivity.
      (* x kept, y dropped: x still goes in front of what is left *)
      assert (Hfront : forall l', Forall (fun b => le y b = true) l' ->
                insert_sorted le x (filter f l') = x :: filter f l').
      { intros l' Hl'. induction Hl' as [|z l' Hz _ IH']; simpl; [reflexivity|].
        destruct (f z); simpl; [|exact IH'].
        now rewrite (le_trans _ _ _ E Hz). }
      now rewrite Hfront.
    + rewrite IH. destruct (f x), (f y); simpl; rewrite ?E; reflexivity.
Qed.

Lemma filter_stable_sort (f : A -> bool) (l : list A) :
  filter f (stable_sort le l) = stable_sort le (filter f l).
Proof.
  induction l as [|x l IH]; simpl.
  - reflexivity.
  - rewrite filter_insert_sorted by apply stable_sort_sorted.
    rewrite IH. destruct (f x); reflexivity.
Qed.

End StableSort.

(** ** Dictionaries *)

Lemma dict_set_keys (V : Type) (d : dict V) (k : string) (v : V) (k' : string) :
  In k' (dict_keys (dict_set d k v)) <-> k' = k \/ In k' (dict_keys d).
Proof.
  unfold dict_keys. induction d as [|[k0 v0] d IH]; simpl.
  - intuition.
  - destruct (String.eqb k0 k) eqn:E; simpl.
    + apply String.eqb_eq in E. subst k0. intuition.
    + rewrite IH. intuition.
Qed.

Lemma dict_set_nodup (V : Type) (d : dict V) (k : string) (v : V) :
  NoDup (dict_keys d) -> NoDup (dict_keys (dict_set d k v)).
Proof.
  unfold dict_keys. induction d as [|[k0 v0] d IH]; simpl; intros Hn.
  - constructor; [intros [] | constructor].
  - inversion Hn as [|? ? Hnot Hn']; subst.
    destruct (String.eqb k0 k) eqn:E; simpl.
    + constructor; assumption.
    + constructor; [|now apply IH].
      intros Hin. apply (dict_set_keys V d k v k0) in Hin.
      destruct Hin as [-> | Hin]; [|now apply Hnot].
      rewrite String.eqb_refl in E. discriminate.
Qed.

Lemma dict_get_in (V : Type) (d : dict V) (k : string) (v : V) :
  dict_get d k = Some v -> In (k, v) d.
Proof.
  induction d as [|[k0 v0] d IH]; simpl; [discriminate|].
  destruct (String.eqb k0 k) eqn:E.
  - apply String.eqb_eq in E. intros H. injection H as ->. subst. now left.
  - intros H. right. now apply IH.
Qed.

Lemma dict_in_get (V : Type) (d : dict V) (k : string) (v : V) :
  NoDup (dict_keys d) -> In (k, v) d -> dict_get d k = Some v.
Proof.
  unfold dict_keys. induction d as [|[k0 v0] d IH]; simpl; intros Hn Hin; [destruct Hin|].
  inversion Hn as [|? ? Hnot Hn']; subst.
  destruct Hin as [E | Hin].
  - injection E as -> ->. now rewrite String.eqb_refl.
  - destruct (String.eqb k0 k) eqn:E; [|now apply IH].
    apply String.eqb_eq in E. subst k0. exfalso. apply Hnot.
    apply in_map_iff. exists (k, v). auto.
Qed.

Lemma dict_get_set (V : Type) (d : dict V) (k k' : string) (v : V) :
  dict_get (dict_set d k v) k'
  = if String.eqb k k' then Some v else dict_get d k'.
Proof.
  induction d as [|[k0 v0] d IH]; simpl.
  - reflexivity.
  - destruct (String.eqb k0 k) eqn:E0; simpl.
    + apply String.eqb_eq in E0. subst k0.
      destruct (String.eqb k k'); reflexivity.
    + destruct (String.eqb k0 k') eqn:E1.
      * apply String.eqb_eq in E1. subst k0. now rewrite String.eqb_sym, E0.
      * exact IH.
Qed.

Lemma dict_set_not_nil (V : Type) (d : dict V) (k : string) (v : V) :
  dict_set d k v <> [].
Proof.
  destruct d as [|[k0 v0] d]; simpl; [discriminate|].
  destruct (String.eqb k0 k); discriminate.
Qed.

Lemma dict_set_in (V : Type) (d : dict V) (k : string) (v : V) (kv : string * V) :
  In kv (dict_set d k v) -> kv = (k, v) \/ In kv d.
Proof.
  induction d as [|[k0 v0] d IH]; simpl.
  - intros [<- | []]. now left.
  - destruct (String.eqb k0 k) eqn:E; simpl.
    + apply String.eqb_eq in E. subst k0. intros [<- | H]; auto.
    + intros [<- | H]; auto. destruct (IH H); auto.
Qed.

(** ** Lists *)

Lemma sum_Z_from (l : list Z) (acc : Z) : fold_left Z.add l acc = acc + sum_Z l.
Proof.
  unfold sum_Z. revert acc. induction l as [|x l IH]; intros acc; simpl.
  - lia.
  - rewrite IH, (IH x). lia.
Qed.

Lemma sum_Z_cons (x : Z) (l : list Z) : sum_Z (x :: l) = x + sum_Z l.
Proof. unfold sum_Z at 1. simpl. apply sum_Z_from. Qed.


Lemma flat_map_nil (A B : Type) (f : A -> list B) (l : list A) :
  (forall x, In x l -> f x = []) -> flat_map f l = [].
Proof.
  induction l as [|x l IH]; intros H; simpl; [reflexivity|].
  rewrite (H x (or_introl eq_refl)), IH; [reflexivity|].
  intros y Hy. apply H. now right.
Qed.

Lemma filter_nil (A : Type) (f : A -> bool) (l : list A) :
  (forall x, In x l -> f x = false) -> filter f l = [].
Proof.
  induction l as [|x l IH]; intros H; simpl; [reflexivity|].
  rewrite (H x (or_introl eq_refl)). apply IH. intros y Hy. apply H. now right.
Qed.

Lemma fl_zero (q : Q) : Qnum q = 0 -> fl q = 0%Q.
Proof. intros H. unfold fl. now rewrite H. Qed.

(** ** The status of a progress record *)

Lemma find_after_replace (A : Type) (same clash : A -> bool) (row : A) (l : list A) :
  (forall x, same x = true -> clash x = true) ->
  same row = true ->
  find same (filter (fun x => negb (clash x)) l ++ [row]) = Some row.
Proof.
  intros Hsub Hrow. induction l as [|x l IH]; simpl.
  - now rewrite Hrow.
  - destruct (clash x) eqn:Ec; simpl; [exact IH|].
    destruct (same x) eqn:Es; [|exact IH].
    apply Hsub in Es. congruence.
Qed.

(** [update_progress] leaves exactly one row for the pair, with the status
    computed by the rule. *)
Lemma update_progress_stored (env : Env) (st : Store) (uid tid : string)
    (m : float) (time_spent attempts correct : Z) :
  option_map pr_status
    (stored_progress (update_progress env st uid tid m time_spent attempts correct)
                     uid tid)
  = Some (progress_status m attempts).
Proof.
  unfold stored_progress, update_progress; simpl.
  rewrite find_after_replace; [reflexivity| |].
  - intros x Hx. rewrite Hx. apply orb_true_r.
  - simpl. now rewrite !String.eqb_refl.
Qed.

Lemma lit_order : (lit 3 10 < lit 4 10)%Q /\ (lit 4 10 < lit 8 10)%Q.
Proof. split; apply ltb_iff; vm_compute; reflexivity. Qed.

Lemma progress_status_rule (m : float) (attempts : Z) :
  ((lit 8 10 <= m)%Q -> progress_status m attempts = "completed") /\
  ((lit 4 10 <= m)%Q -> (m < lit 8 10)%Q -> progress_status m attempts = "in_progress") /\
  ((m < lit 3 10)%Q -> 3 < attempts -> progress_status m attempts = "struggling") /\
  ((m < lit 4 10)%Q -> ~ ((m < lit 3 10)%Q /\ 3 < attempts) ->
   progress_status m attempts = "in_progress").
Proof.
  destruct lit_order as [H34 H48].
  unfold progress_status. repeat split.
  - intros H. apply leb_iff in H. now rewrite H.
  - intros H4 H8. apply leb_false_iff in H8. apply leb_iff in H4.
    now rewrite H8, H4.
  - intros H3 Ha.
    assert (H8 : leb (lit 8 10) m = false).
    { apply leb_false_iff. eapply Qlt_trans; [exact H3|].
      eapply Qlt_trans; eassumption. }
    assert (H4 : leb (lit 4 10) m = false).
    { apply leb_false_iff. eapply Qlt_trans; eassumption. }
    apply ltb_iff in H3. apply Z.ltb_lt in Ha.
    now rewrite H8, H4, Ha, H3.
  - intros H4 Hn.
    assert (H8 : leb (lit 8 10) m = false).
    { apply leb_false_iff. eapply Qlt_trans; eassumption. }
    apply leb_false_iff in H4. rewrite H8, H4.
    destruct (3 <? attempts) eqn:Ea; simpl; [|reflexivity].
    destruct (ltb m (lit 3 10)) eqn:E3; [|reflexivity].
    exfalso. apply Hn. split; [now apply ltb_iff | now apply Z.ltb_lt].
Qed.

(** C1, as stated, fails: with mastery level 0.35 and 5 attempts the row
    stored by [update_progress] is ["in_progress"], although
    [0.35 < 0.4] and [5 > 3]. *)
Lemma update_progress_0_35_after_5_attempts :
  (lit 35 100 < lit 4 10)%Q /\ 3 < 5 /\
  option_map pr_status
    (stored_progress
       (update_progress sample_env sample_store "u1" "physics_mechanics"
                        (lit 35 100) 30 5 1)
       "u1" "physics_mechanics")
  = Some "in_progress" /\
  "in_progress" <> "struggling".
Proof.
  split; [apply ltb_iff; vm_compute; reflexivity|].
  split; [lia|].
  split; [vm_compute; reflexivity | discriminate].
Qed.

(** C1, amended: the status stored by [update_progress] is ["completed"]
    from mastery level 0.8 on, ["in_progress"] from 0.4 up to 0.8,
    ["struggling"] below 0.3 with more than 3 attempts, and ["in_progress"]
    in every other case, which includes every mastery level from 0.3 up to
    0.4. *)
Theorem update_progress_status_rule (env : Env) (st : Store) (uid tid : string)
    (m : float) (time_spent attempts correct : Z) :
  exists status,
    option_map pr_status
      (stored_progress (update_progress env st uid tid m time_spent attempts correct)
                       uid tid)
    = Some status /\
    ((lit 8 10 <= m)%Q -> status = "completed") /\
    ((lit 4 10 <= m)%Q -> (m < lit 8 10)%Q -> status = "in_progress") /\
    ((m < lit 3 10)%Q -> 3 < attempts -> status = "struggling") /\
    ((m < lit 4 10)%Q -> ~ ((m < lit 3 10)%Q /\ 3 < attempts) ->
     status = "in_progress").
Proof.
  exists (progress_status m attempts). split.
  - apply update_progress_stored.
  - apply progress_status_rule.
Qed.

Lemma update_progress_status_rule_witness :
  option_map pr_status
    (stored_progress
       (update_progress sample_env sample_store "u1" "physics_mechanics"
                        (lit 25 100) 30 5 1)
       "u1" "physics_mechanics")
  = Some "struggling" /\
  option_map pr_status
    (stored_progress
       (update_progress sample_env sample_store "u1" "physics_mechanics"
                        (lit 85 100) 30 1 1)
       "u1" "physics_mechanics")
  = Some "completed".
Proof.
  split.
  - destruct (update_progress_status_rule sample_env sample_store "u1"
                "physics_mechanics" (lit 25 100) 30 5 1)
      as (s & Hs & _ & _ & H3 & _).
    rewrite Hs. f_equal. apply H3; [apply ltb_iff; vm_compute; reflexivity | lia].
  - destruct (update_progress_status_rule sample_env sample_store "u1"
                "physics_mechanics" (lit 85 100) 30 1 1)
      as (s & Hs & H1 & _).
    rewrite Hs. f_equal. apply H1. apply leb_iff. vm_compute. reflexivity.
Defined.

(** ** The allocation engine *)

Lemma adjust_cases (performance : dict float) (subject : string) (b : Z) :
  adjust performance subject b = Z.min 50 (b + 10) \/
  adjust performance subject b = Z.max 20 (b - 5) \/
  adjust performance subject b = b.
Proof.
  unfold adjust. destruct (dict_get performance subject) as [perf|]; [|auto].
  destruct (ltb perf (lit 3 10)); [auto|].
  destruct (ltb (lit 7 10) perf); auto.
Qed.

Lemma adjusted_allocation_base (performance : dict float) (exam : string) :
  adjusted_allocation performance (base_allocation exam)
  = map (fun kv => (fst kv, adjust performance (fst kv) (snd kv)))
        (base_allocation exam).
Proof.
  unfold base_allocation. destruct (String.eqb exam "JEE"); reflexivity.
Qed.

(** Whatever the performance of the subjects, the normalisation divides by
    a positive total, keeps the subjects of the base split, and the
    rounded percentages add up to 99, 100 or 101. *)
Lemma normalize_base (performance : dict float) (exam : string) :
  exists alloc,
    normalize (adjusted_allocation performance (base_allocation exam)) = Ok alloc /\
    dict_keys alloc = dict_keys (base_allocation exam) /\
    99 <= sum_Z (dict_values alloc) <= 101.
Proof.
  rewrite adjusted_allocation_base. unfold base_allocation.
  destruct (String.eqb exam "JEE"); cbn [map fst snd].
  - destruct (adjust_cases performance "Physics" 33) as [-> | [-> | ->]];
    destruct (adjust_cases performance "Chemistry" 33) as [-> | [-> | ->]];
    destruct (adjust_cases performance "Mathematics" 34) as [-> | [-> | ->]];
    eexists; (split; [vm_compute; reflexivity|]);
    (split; [reflexivity | vm_compute; split; discriminate]).
  - destruct (adjust_cases performance "Physics" 25) as [-> | [-> | ->]];
    destruct (adjust_cases performance "Chemistry" 25) as [-> | [-> | ->]];
    destruct (adjust_cases performance "Biology" 50) as [-> | [-> | ->]];
    eexists; (split; [vm_compute; reflexivity|]);
    (split; [reflexivity | vm_compute; split; discriminate]).
Qed.

Lemma valid_year_check (y : Z) :
  valid_year y -> (y <? 1) || (9999 <? y) = false.
Proof.
  unfold valid_year. intros H.
  apply orb_false_iff. split; apply Z.ltb_ge; lia.
Qed.

Lemma valid_year_fits (y : Z) :
  valid_year y -> (y <? - 2147483648) || (2147483647 <? y) = false.
Proof.
  unfold valid_year. intros H.
  apply orb_false_iff. split; apply Z.ltb_ge; lia.
Qed.

(** [create_roadmap_strategy] returns for every valid target year, and its
    allocation is the normalised adjustment of the base split. *)
Lemma create_roadmap_strategy_ok (env : Env) (profile : user_profile)
    (prog : list progress) (subs : list subject_row) :
  valid_year (target_year profile) ->
  exists strat,
    create_roadmap_strategy env profile prog subs = Ok strat /\
    normalize (adjusted_allocation (subject_performance_of prog subs)
                                   (base_allocation (exam_type profile)))
    = Ok (subject_allocation strat) /\
    subject_performance strat = subject_performance_of prog subs /\
    priority_subjects strat = get_priority_subjects (subject_performance_of prog subs).
Proof.
  intros Hy. unfold create_roadmap_strategy.
  rewrite (valid_year_fits _ Hy), (valid_year_check _ Hy).
  destruct (normalize_base (subject_performance_of prog subs) (exam_type profile))
    as (alloc & Hn & _).
  rewrite Hn.
  destruct (match prog with
            | [] => _
            | _ :: _ => _
            end) as [ph focus].
  simpl. eexists. split; [reflexivity|]. simpl. auto.
Qed.

(** C2, as stated, fails: for the JEE user of [sample_store_uneven]
    (Physics 0.5, Chemistry 0.5, Mathematics 0.9) the adjusted split
    33/33/29 is normalised to 35/35/31, which adds up to 101. *)
Lemma allocation_sum_101 :
  exists strat,
    create_roadmap_strategy sample_env sample_jee_profile
      (get_user_progress sample_store_uneven "u1")
      (get_subjects_for_exam sample_store_uneven "JEE") = Ok strat /\
    subject_allocation strat
    = [("Physics", 35); ("Chemistry", 35); ("Mathematics", 31)] /\
    sum_Z (dict_values (subject_allocation strat)) = 101 /\
    101 <> 100.
Proof.
  eexists. split; [vm_compute; reflexivity|].
  split; [reflexivity|]. split; [reflexivity | discriminate].
Qed.

(** C2, amended: for every profile with a valid target year, every progress
    state and every subject set, [create_roadmap_strategy] returns a
    strategy whose allocation percentages, each rounded on its own, add up
    to 99, 100 or 101. *)
Theorem allocation_sum_bounds (env : Env) (profile : user_profile)
    (prog : list progress) (subs : list subject_row) :
  valid_year (target_year profile) ->
  exists strat,
    create_roadmap_strategy env profile prog subs = Ok strat /\
    99 <= sum_Z (dict_values (subject_allocation strat)) <= 101.
Proof.
  intros Hy.
  destruct (create_roadmap_strategy_ok env profile prog subs Hy)
    as (strat & Hs & Hn & _).
  exists strat. split; [exact Hs|].
  destruct (normalize_base (subject_performance_of prog subs) (exam_type profile))
    as (alloc & Hn' & _ & Hsum).
  rewrite Hn in Hn'. injection Hn' as ->. exact Hsum.
Qed.

Lemma allocation_sum_bounds_witness :
  exists strat,
    create_roadmap_strategy sample_env sample_jee_profile
      (get_user_progress sample_store_uneven "u1")
      (get_subjects_for_exam sample_store_uneven "JEE") = Ok strat /\
    99 <= sum_Z (dict_values (subject_allocation strat)) <= 101.
Proof.
  apply (allocation_sum_bounds sample_env sample_jee_profile).
  unfold valid_year. simpl. lia.
Defined.

(** ** Monotonicity of the allocation *)

Lemma create_roadmap_strategy_inv (env : Env) (profile : user_profile)
    (prog : list progress) (subs : list subject_row) (strat : strategy) :
  create_roadmap_strategy env profile prog subs = Ok strat ->
  normalize (adjusted_allocation (subject_performance_of prog subs)
                                 (base_allocation (exam_type profile)))
  = Ok (subject_allocation strat) /\
  subject_performance strat = subject_performance_of prog subs /\
  priority_subjects strat = get_priority_subjects (subject_performance_of prog subs).
Proof.
  intros H.
  assert (Hy : valid_year (target_year profile)).
  { unfold create_roadmap_strategy in H. unfold valid_year.
    destruct ((target_year profile <? - 2147483648)
              || (2147483647 <? target_year profile)); [discriminate|].
    destruct ((target_year profile <? 1) || (9999 <? target_year profile)) eqn:E;
      [discriminate|].
    apply orb_false_iff in E. destruct E as [E1 E2].
    apply Z.ltb_ge in E1, E2. lia. }
  destruct (create_roadmap_strategy_ok env profile prog subs Hy)
    as (strat' & Hs & Hrest).
  rewrite H in Hs. injection Hs as <-. exact Hrest.
Qed.

Section Monotone.

Variables (perf1 perf2 : dict float) (subject : string) (v1 v2 : float).
Hypothesis Hget1 : dict_get perf1 subject = Some v1.
Hypothesis Hmid_lo : ltb v1 (lit 3 10) = false.
Hypothesis Hmid_hi : ltb (lit 7 10) v1 = false.
Hypothesis Hget2 : dict_get perf2 subject = Some v2.
Hypothesis Hweak : ltb v2 (lit 3 10) = true.
Hypothesis Hothers :
  forall other, other <> subject -> dict_get perf1 other = dict_get perf2 other.

Lemma adjust_before (b : Z) : adjust perf1 subject b = b.
Proof. unfold adjust. now rewrite Hget1, Hmid_lo, Hmid_hi. Qed.

Lemma adjust_after (b : Z) : adjust perf2 subject b = Z.min 50 (b + 10).
Proof. unfold adjust. now rewrite Hget2, Hweak. Qed.

Lemma adjust_other (other : string) (b : Z) :
  other <> subject -> adjust perf1 other b = adjust perf2 other b.
Proof. intros H. unfold adjust. now rewrite (Hothers other H). Qed.

(** The three subjects of a base split, one of which is [subject] (or
    none): the new percentage of [subject] is computed in each case. *)
Lemma normalize_monotone_keys (k1 k2 k3 : string) (b1 b2 b3 : Z)
    (a1 a2 : dict Z) (p1 : Z) :
  (forall x1 x2 x3 y1 y2 y3,
      (x1 = Z.min 50 (b1 + 10) \/ x1 = Z.max 20 (b1 - 5) \/ x1 = b1) ->
      (x2 = Z.min 50 (b2 + 10) \/ x2 = Z.max 20 (b2 - 5) \/ x2 = b2) ->
      (x3 = Z.min 50 (b3 + 10) \/ x3 = Z.max 20 (b3 - 5) \/ x3 = b3) ->
      (x1 = y1 \/ x1 = b1 /\ y1 = Z.min 50 (b1 + 10)) ->
      (x2 = y2 \/ x2 = b2 /\ y2 = Z.min 50 (b2 + 10)) ->
      (x3 = y3 \/ x3 = b3 /\ y3 = Z.min 50 (b3 + 10)) ->
      exists q1 q2 q3 r1 r2 r3,
        normalize [(k1, x1); (k2, x2); (k3, x3)]
        = Ok [(k1, q1); (k2, q2); (k3, q3)] /\
        normalize [(k1, y1); (k2, y2); (k3, y3)]
        = Ok [(k1, r1); (k2, r2); (k3, r3)] /\
        (x1 = y1 -> x2 = y2 -> x3 = y3 -> q1 = r1 /\ q2 = r2 /\ q3 = r3) /\
        (x2 = y2 -> x3 = y3 -> q1 <= r1) /\
        (x1 = y1 -> x3 = y3 -> q2 <= r2) /\
        (x1 = y1 -> x2 = y2 -> q3 <= r3)) ->
  String.eqb k1 k2 = false -> String.eqb k1 k3 = false -> String.eqb k2 k3 = false ->
  normalize [(k1, adjust perf1 k1 b1); (k2, adjust perf1 k2 b2);
             (k3, adjust perf1 k3 b3)] = Ok a1 ->
  normalize [(k1, adjust perf2 k1 b1); (k2, adjust perf2 k2 b2);
             (k3, adjust perf2 k3 b3)] = Ok a2 ->
  dict_get a1 subject = Some p1 ->
  exists p2, dict_get a2 subject = Some p2 /\ p1 <= p2.
Proof.
  intros Hnum N12 N13 N23 H1 H2 Hp.
  assert (Hrel : forall k b,
             adjust perf1 k b = adjust perf2 k b \/
             (k = subject /\ adjust perf1 k b = b
              /\ adjust perf2 k b = Z.min 50 (b + 10))).
  { intros k b. destruct (string_dec k subject) as [->|Hk].
    - right. split; [reflexivity|]. split; [apply adjust_before | apply adjust_after].
    - left. now apply adjust_other. }
  destruct (Hnum (adjust perf1 k1 b1) (adjust perf1 k2 b2) (adjust perf1 k3 b3)
                 (adjust perf2 k1 b1) (adjust perf2 k2 b2) (adjust perf2 k3 b3))
    as (q1 & q2 & q3 & r1 & r2 & r3 & Hq & Hr & Hsame & Hm1 & Hm2 & Hm3);
    try apply adjust_cases;
    try (destruct (Hrel k1 b1) as [E|(_ & E1 & E2)]; [left; exact E | right; auto]);
    try (destruct (Hrel k2 b2) as [E|(_ & E1 & E2)]; [left; exact E | right; auto]);
    try (destruct (Hrel k3 b3) as [E|(_ & E1 & E2)]; [left; exact E | right; auto]).
  rewrite Hq in H1. rewrite Hr in H2.
  injection H1 as <-. injection H2 as <-.
  assert (Hne : forall k k', String.eqb k k' = false -> k = subject -> k' <> subject).
  { intros k k' Hkk -> ->. rewrite String.eqb_refl in Hkk. discriminate. }
  assert (Hne' : forall k k', String.eqb k k' = false -> k' = subject -> k <> subject).
  { intros k k' Hkk -> ->. rewrite String.eqb_refl in Hkk. discriminate. }
  assert (Heq : forall k b, k <> subject -> adjust perf1 k b = adjust perf2 k b).
  { intros k b Hk. now apply adjust_other. }
  cbn [dict_get] in Hp |- *.
  destruct (String.eqb k1 subject) eqn:E1.
  { apply String.eqb_eq in E1. injection Hp as <-.
    exists r1. split; [reflexivity|].
    apply Hm1; apply Heq; eauto. }
  destruct (String.eqb k2 subject) eqn:E2.
  { apply String.eqb_eq in E2. injection Hp as <-.
    exists r2. split; [reflexivity|].
    apply Hm2; apply Heq; eauto. }
  destruct (String.eqb k3 subject) eqn:E3.
  { apply String.eqb_eq in E3. injection Hp as <-.
    exists r3. split; [reflexivity|].
    apply Hm3; apply Heq; eauto. }
  discriminate.
Qed.

End Monotone.

Ltac allocation_cases :=
  intros x1 x2 x3 y1 y2 y3
         [-> | [-> | ->]] [-> | [-> | ->]] [-> | [-> | ->]]
         [<- | [E1 ->]] [<- | [E2 ->]] [<- | [E3 ->]];
  try (exfalso; lia);
  do 6 eexists;
  (split; [vm_compute; reflexivity|]);
  (split; [vm_compute; reflexivity|]);
  repeat split; intros; lia.

Lemma normalize_numbers_jee :
  forall x1 x2 x3 y1 y2 y3,
    (x1 = Z.min 50 (33 + 10) \/ x1 = Z.max 20 (33 - 5) \/ x1 = 33) ->
    (x2 = Z.min 50 (33 + 10) \/ x2 = Z.max 20 (33 - 5) \/ x2 = 33) ->
    (x3 = Z.min 50 (34 + 10) \/ x3 = Z.max 20 (34 - 5) \/ x3 = 34) ->
    (x1 = y1 \/ x1 = 33 /\ y1 = Z.min 50 (33 + 10)) ->
    (x2 = y2 \/ x2 = 33 /\ y2 = Z.min 50 (33 + 10)) ->
    (x3 = y3 \/ x3 = 34 /\ y3 = Z.min 50 (34 + 10)) ->
    exists q1 q2 q3 r1 r2 r3,
      normalize [("Physics", x1); ("Chemistry", x2); ("Mathematics", x3)]
      = Ok [("Physics", q1); ("Chemistry", q2); ("Mathematics", q3)] /\
      normalize [("Physics", y1); ("Chemistry", y2); ("Mathematics", y3)]
      = Ok [("Physics", r1); ("Chemistry", r2); ("Mathematics", r3)] /\
      (x1 = y1 -> x2 = y2 -> x3 = y3 -> q1 = r1 /\ q2 = r2 /\ q3 = r3) /\
      (x2 = y2 -> x3 = y3 -> q1 <= r1) /\
      (x1 = y1 -> x3 = y3 -> q2 <= r2) /\
      (x1 = y1 -> x2 = y2 -> q3 <= r3).
Proof. allocation_cases. Qed.

Lemma normalize_numbers_neet :
  forall x1 x2 x3 y1 y2 y3,
    (x1 = Z.min 50 (25 + 10) \/ x1 = Z.max 20 (25 - 5) \/ x1 = 25) ->
    (x2 = Z.min 50 (25 + 10) \/ x2 = Z.max 20 (25 - 5) \/ x2 = 25) ->
    (x3 = Z.min 50 (50 + 10) \/ x3 = Z.max 20 (50 - 5) \/ x3 = 50) ->
    (x1 = y1 \/ x1 = 25 /\ y1 = Z.min 50 (25 + 10)) ->
    (x2 = y2 \/ x2 = 25 /\ y2 = Z.min 50 (25 + 10)) ->
    (x3 = y3 \/ x3 = 50 /\ y3 = Z.min 50 (50 + 10)) ->
    exists q1 q2 q3 r1 r2 r3,
      normalize [("Physics", x1); ("Chemistry", x2); ("Biology", x3)]
      = Ok [("Physics", q1); ("Chemistry", q2); ("Biology", q3)] /\
      normalize [("Physics", y1); ("Chemistry", y2); ("Biology", y3)]
      = Ok [("Physics", r1); ("Chemistry", r2); ("Biology", r3)] /\
      (x1 = y1 -> x2 = y2 -> x3 = y3 -> q1 = r1 /\ q2 = r2 /\ q3 = r3) /\
      (x2 = y2 -> x3 = y3 -> q1 <= r1) /\
      (x1 = y1 -> x3 = y3 -> q2 <= r2) /\
      (x1 = y1 -> x2 = y2 -> q3 <= r3).
Proof. allocation_cases. Qed.

(** Moving a subject from the middle band (0.3 to 0.7) down below 0.3,
    the other subjects unchanged, does not lower its percentage. *)
Lemma normalize_monotone (perf1 perf2 : dict float) (subject : string)
    (v1 v2 : float) (exam : string) (a1 a2 : dict Z) (p1 : Z) :
  dict_get perf1 subject = Some v1 ->
  ltb v1 (lit 3 10) = false ->
  ltb (lit 7 10) v1 = false ->
  dict_get perf2 subject = Some v2 ->
  ltb v2 (lit 3 10) = true ->
  (forall other, other <> subject -> dict_get perf1 other = dict_get perf2 other) ->
  normalize (adjusted_allocation perf1 (base_allocation exam)) = Ok a1 ->
  normalize (adjusted_allocation perf2 (base_allocation exam)) = Ok a2 ->
  dict_get a1 subject = Some p1 ->
  exists p2, dict_get a2 subject = Some p2 /\ p1 <= p2.
Proof.
  intros G1 Lo Hi G2 W Ho.
  rewrite !adjusted_allocation_base. unfold base_allocation.
  destruct (String.eqb exam "JEE"); cbn [map fst snd].
  - apply (normalize_monotone_keys perf1 perf2 subject v1 v2 G1 Lo Hi G2 W Ho);
      [exact normalize_numbers_jee | reflexivity..].
  - apply (normalize_monotone_keys perf1 perf2 subject v1 v2 G1 Lo Hi G2 W Ho);
      [exact normalize_numbers_neet | reflexivity..].
Qed.

(** C4: for two progress states that differ only in the mean mastery of
    one subject, 0.5 in the first and 0.2 in the second, the percentage
    [create_roadmap_strategy] allocates to that subject in the second is at
    least the one in the first. *)
Theorem allocation_monotone_in_weakness (env : Env) (profile : user_profile)
    (prog1 prog2 : list progress) (subs : list subject_row)
    (strat1 strat2 : strategy) (subject : string) (p1 : Z) :
  create_roadmap_strategy env profile prog1 subs = Ok strat1 ->
  create_roadmap_strategy env profile prog2 subs = Ok strat2 ->
  dict_get (subject_performance strat1) subject = Some (lit 5 10) ->
  dict_get (subject_performance strat2) subject = Some (lit 2 10) ->
  (forall other, other <> subject ->
     dict_get (subject_performance strat1) other
     = dict_get (subject_performance strat2) other) ->
  dict_get (subject_allocation strat1) subject = Some p1 ->
  exists p2, dict_get (subject_allocation strat2) subject = Some p2 /\ p1 <= p2.
Proof.
  intros H1 H2 G1 G2 Ho Hp.
  apply create_roadmap_strategy_inv in H1, H2.
  destruct H1 as (N1 & P1 & _). destruct H2 as (N2 & P2 & _).
  rewrite P1 in G1, Ho. rewrite P2 in G2, Ho.
  eapply (normalize_monotone _ _ subject (lit 5 10) (lit 2 10));
    try eassumption; vm_compute; reflexivity.
Qed.

Lemma allocation_monotone_in_weakness_witness :
  exists p2,
    dict_get
      (match create_roadmap_strategy sample_env sample_jee_profile
               sample_progress_after (get_subjects_for_exam sample_store "JEE") with
       | Ok strat2 => subject_allocation strat2
       | Raise _ => []
       end) "Physics" = Some p2 /\
    35 <= p2.
Proof.
  destruct (create_roadmap_strategy sample_env sample_jee_profile
              sample_progress_before (get_subjects_for_exam sample_store "JEE"))
    as [strat1|e] eqn:E1; [|vm_compute in E1; discriminate].
  destruct (create_roadmap_strategy sample_env sample_jee_profile
              sample_progress_after (get_subjects_for_exam sample_store "JEE"))
    as [strat2|e] eqn:E2; [|vm_compute in E2; discriminate].
  pose proof E1 as V1. pose proof E2 as V2.
  vm_compute in V1, V2. injection V1 as <-. injection V2 as <-.
  apply (allocation_monotone_in_weakness sample_env sample_jee_profile
           sample_progress_before sample_progress_after
           (get_subjects_for_exam sample_store "JEE") _ _ "Physics" 35 E1 E2).
  - reflexivity.
  - reflexivity.
  - intros other Hne. cbn [dict_get subject_performance].
    destruct (String.eqb "Physics" other) eqn:E; [|reflexivity].
    apply String.eqb_eq in E. congruence.
  - reflexivity.
Defined.

(** ** Ranking and selecting topics *)

Lemma topic_rank_ge_total (x y : topic_row) :
  topic_rank_ge x y = true \/ topic_rank_ge y x = true.
Proof.
  unfold topic_rank_ge.
  destruct (Z.lt_trichotomy (t_importance x) (t_importance y)) as [H | [H | H]].
  - right. apply orb_true_iff. left. now apply Z.ltb_lt.
  - destruct (Z.le_ge_cases (t_difficulty_level x) (t_difficulty_level y)) as [D | D].
    + right. apply orb_true_iff. right. apply andb_true_iff.
      split; [apply Z.eqb_eq; lia | now apply Z.leb_le].
    + left. apply orb_true_iff. right. apply andb_true_iff.
      split; [apply Z.eqb_eq; lia | now apply Z.leb_le].
  - left. apply orb_true_iff. left. now apply Z.ltb_lt.
Qed.

Lemma topic_rank_ge_spec (x y : topic_row) :
  topic_rank_ge x y = true <->
  t_importance y < t_importance x \/
  (t_importance y = t_importance x /\ t_difficulty_level y <= t_difficulty_level x).
Proof.
  unfold topic_rank_ge.
  rewrite orb_true_iff, andb_true_iff, Z.ltb_lt, Z.eqb_eq, Z.leb_le. reflexivity.
Qed.

Lemma topic_rank_ge_trans (x y z : topic_row) :
  topic_rank_ge x y = true -> topic_rank_ge y z = true -> topic_rank_ge x z = true.
Proof. rewrite !topic_rank_ge_spec. lia. Qed.

Lemma select_topics_for_day_eq (st : Store) (tops : list topic_row) (uid ph : string) :
  tops <> [] ->
  select_topics_for_day st tops uid ph
  = (firstn 3 (stable_sort topic_rank_ge (candidates st tops uid ph)),
     match filter (fun t => suits_phase ph (topic_mastery st uid t)) tops with
     | [] => stable_sort topic_rank_ge tops
     | _ :: _ => tops
     end).
Proof.
  intros Hne. destruct tops as [|t tops]; [congruence|].
  unfold select_topics_for_day, candidates.
  change (fun t0 : topic_row =>
            if String.eqb ph "foundation" then _ else _)
    with (fun t0 => suits_phase ph (topic_mastery st uid t0)).
  destruct (filter _ (t :: tops)); reflexivity.
Qed.

Lemma candidates_spec (st : Store) (tops : list topic_row) (uid ph : string) :
  incl (candidates st tops uid ph) tops /\
  (candidates st tops uid ph = [] <-> tops = []) /\
  ((exists t, In t tops /\ suits_phase ph (topic_mastery st uid t) = true) ->
   forall c, In c (candidates st tops uid ph) ->
             suits_phase ph (topic_mastery st uid c) = true).
Proof.
  unfold candidates.
  destruct (filter _ tops) as [|c0 cs] eqn:E.
  - split; [apply incl_refl|]. split; [tauto|].
    intros (t & Ht & Hs). exfalso.
    assert (Hin : In t (filter (fun t => suits_phase ph (topic_mastery st uid t)) tops))
      by (apply filter_In; auto).
    rewrite E in Hin. destruct Hin.
  - rewrite <- E. split; [|split].
    + intros c Hc. now apply filter_In in Hc.
    + rewrite E. split; [discriminate|].
      intros ->. discriminate.
    + intros _ c Hc. now apply filter_In in Hc.
Qed.

(** ** The roadmap builder *)

Lemma bind_ok (A B : Type) (r : result A) (k : A -> result B) (b : B) :
  bind r k = Ok b -> exists a, r = Ok a /\ k a = Ok b.
Proof. destruct r as [a|e]; simpl; [eauto | discriminate]. Qed.

Lemma regular_day_shape (st : Store) (strat : strategy) (profile : user_profile)
    (all_topics all_topics' : dict (list topic_row)) (day : Z) (dp : day_plan) :
  regular_day st strat profile all_topics day = Ok (dp, all_topics') ->
  regular_shape strat profile day dp.
Proof.
  unfold regular_day, regular_shape.
  destruct (Z.of_nat (List.length (priority_subjects strat)) =? 0); [discriminate|].
  set (primary_subject := nth _ (priority_subjects strat) "").
  set (secondary_subject := nth (Z.to_nat ((day + 1) mod _)) (priority_subjects strat) "").
  destruct (match dict_get all_topics primary_subject with
            | Some _ => _
            | None => _
            end) as [primary_topics all_topics1].
  destruct (dict_get all_topics1 secondary_subject) as [tops|].
  - destruct (select_topics_for_day st tops (user_id profile) (phase strat))
      as [sel tops'].
    intros H. injection H as <- _. simpl.
    split; [reflexivity|]. split; [reflexivity|].
    destruct primary_topics as [|t ?]; destruct sel as [|t' ?].
    + exists [], []. auto.
    + exists [], [secondary_activity secondary_subject t' (study_hours_per_day profile)].
      split; [reflexivity|]. split; [auto | right; eauto].
    + exists [primary_activity primary_subject t (study_hours_per_day profile)], [].
      split; [reflexivity|]. split; [right; eauto | auto].
    + exists [primary_activity primary_subject t (study_hours_per_day profile)],
             [secondary_activity secondary_subject t' (study_hours_per_day profile)].
      split; [reflexivity|]. split; right; eauto.
  - intros H. injection H as <- _. simpl.
    split; [reflexivity|]. split; [reflexivity|].
    destruct primary_topics as [|t ?].
    + exists [], []. auto.
    + exists [primary_activity primary_subject t (study_hours_per_day profile)], [].
      split; [reflexivity|]. split; [right; eauto | auto].
Qed.

Lemma regular_day_ok (st : Store) (strat : strategy) (profile : user_profile)
    (all_topics : dict (list topic_row)) (day : Z) :
  priority_subjects strat <> [] ->
  exists r, regular_day st strat profile all_topics day = Ok r.
Proof.
  intros Hne. unfold regular_day.
  destruct (Z.of_nat (List.length (priority_subjects strat)) =? 0) eqn:E.
  - apply Z.eqb_eq in E. destruct (priority_subjects strat); [congruence|].
    simpl in E. lia.
  - destruct (match dict_get all_topics _ with
              | Some _ => _
              | None => _
              end) as [primary_topics all_topics1].
    destruct (match dict_get all_topics1 _ with
              | Some _ => _
              | None => _
              end) as [activities2 all_topics2].
    eauto.
Qed.

Lemma plan_day_regular (st : Store) (strat : strategy) (profile : user_profile)
    (acc acc' : dict day_plan * dict (list topic_row)) (day : Z) :
  day <> 7 ->
  plan_day st strat profile acc day = Ok acc' ->
  exists dp,
    fst acc' = dict_set (fst acc) (nth (Z.to_nat (day - 1)) day_names "") dp /\
    regular_shape strat profile day dp.
Proof.
  intros Hd. unfold plan_day. destruct acc as [weekly_plan all_topics].
  apply Z.eqb_neq in Hd. rewrite Hd. intros H.
  apply bind_ok in H as ([dp all_topics'] & Hr & E).
  injection E as <-. exists dp. split; [reflexivity|].
  eapply regular_day_shape; eassumption.
Qed.

Lemma plan_day_sunday (st : Store) (strat : strategy) (profile : user_profile)
    (acc acc' : dict day_plan * dict (list topic_row)) :
  plan_day st strat profile acc 7 = Ok acc' ->
  fst acc' = dict_set (fst acc) "Sunday" (sunday profile 7).
Proof.
  unfold plan_day. destruct acc as [weekly_plan all_topics]. simpl.
  intros H. injection H as <-. reflexivity.
Qed.

Lemma plan_day_ok (st : Store) (strat : strategy) (profile : user_profile)
    (acc : dict day_plan * dict (list topic_row)) (day : Z) :
  priority_subjects strat <> [] ->
  exists acc', plan_day st strat profile acc day = Ok acc'.
Proof.
  intros Hne. unfold plan_day. destruct acc as [weekly_plan all_topics].
  destruct (day =? 7); [eauto|].
  destruct (regular_day_ok st strat profile all_topics day Hne) as (r & ->).
  simpl. eauto.
Qed.

Lemma plan_days_ok (st : Store) (strat : strategy) (profile : user_profile)
    (days : list Z) :
  priority_subjects strat <> [] ->
  forall acc, exists acc', plan_days st strat profile days acc = Ok acc'.
Proof.
  intros Hne. induction days as [|day days IH]; intros acc; simpl.
  - eauto.
  - destruct (plan_day_ok st strat profile acc day Hne) as (acc1 & ->).
    simpl. apply IH.
Qed.

(** A plan is generated whenever the strategy ranks at least one subject. *)
Lemma generate_weekly_plan_ok (st : Store) (strat : strategy) (profile : user_profile) :
  priority_subjects strat <> [] ->
  exists plan, generate_weekly_plan st strat profile = Ok plan.
Proof.
  intros Hne. unfold generate_weekly_plan.
  match goal with
  | |- context [plan_days st strat profile ?days ?acc] =>
      destruct (plan_days_ok st strat profile days Hne acc) as (acc' & ->)
  end.
  simpl. eauto.
Qed.

(** With no subject to rank, the first day divides by zero. *)
Lemma generate_weekly_plan_no_subject (st : Store) (strat : strategy)
    (profile : user_profile) :
  priority_subjects strat = [] ->
  generate_weekly_plan st strat profile = Raise ZeroDivisionError.
Proof.
  intros He. unfold generate_weekly_plan. simpl.
  unfold regular_day. rewrite He. reflexivity.
Qed.

Ltac regular_step H acc dp Hs :=
  let E := fresh "E" in
  let Hd := fresh "Hd" in
  apply bind_ok in H as (acc & Hd & H);
  apply plan_day_regular in Hd as (dp & E & Hs); [|discriminate];
  simpl in E.

(** The seven days of a generated plan. *)
Lemma generate_weekly_plan_inv (st : Store) (strat : strategy)
    (profile : user_profile) (plan : dict day_plan) :
  generate_weekly_plan st strat profile = Ok plan ->
  exists d1 d2 d3 d4 d5 d6,
    plan = [("Monday", d1); ("Tuesday", d2); ("Wednesday", d3); ("Thursday", d4);
            ("Friday", d5); ("Saturday", d6); ("Sunday", sunday profile 7)] /\
    regular_shape strat profile 1 d1 /\
    regular_shape strat profile 2 d2 /\
    regular_shape strat profile 3 d3 /\
    regular_shape strat profile 4 d4 /\
    regular_shape strat profile 5 d5 /\
    regular_shape strat profile 6 d6.
Proof.
  unfold generate_weekly_plan. intros H.
  apply bind_ok in H as (acc7 & H & E). injection E as <-.
  cbn [plan_days] in H.
  regular_step H acc1 d1 S1. regular_step H acc2 d2 S2.
  regular_step H acc3 d3 S3. regular_step H acc4 d4 S4.
  regular_step H acc5 d5 S5. regular_step H acc6 d6 S6.
  apply bind_ok in H as (acc & Hd & H). injection H as <-.
  apply plan_day_sunday in Hd.
  exists d1, d2, d3, d4, d5, d6.
  split; [|auto 10].
  rewrite Hd, E4, E3, E2, E1, E0, E. reflexivity.
Qed.

Example sample_strategy_created :
  create_roadmap_strategy sample_env sample_jee_profile
    (get_user_progress sample_store "u1") (get_subjects_for_exam sample_store "JEE")
  = Ok sample_strategy.
Proof. vm_compute. reflexivity. Qed.

(** C5, as stated, fails for an odd budget: with 5 hours a day the
    revision and the mock test of day 7 get 2 hours each, which is not half
    of the budget, and one hour of the day is not planned. *)
Lemma day_7_of_5_hours :
  exists plan dp,
    generate_weekly_plan sample_store sample_strategy sample_profile_5_hours = Ok plan /\
    study_hours_per_day sample_profile_5_hours = 5 /\
    dict_get plan "Sunday" = Some dp /\
    map a_type (dp_activities dp) = ["revision"; "mock_test"] /\
    map a_duration (dp_activities dp) = [2; 2] /\
    2 * 2 <> 5 /\ 2 + 2 <> 5.
Proof.
  do 2 eexists. split; [vm_compute; reflexivity|].
  split; [reflexivity|]. split; [reflexivity|].
  split; [reflexivity|]. split; [reflexivity|].
  split; discriminate.
Qed.

(** C5, amended: whenever [generate_weekly_plan] returns a plan, which it
    does as soon as the strategy ranks a subject, the entry of day 7 holds
    exactly two activities, a revision and a mock test, each of
    [study_hours_per_day // 2] hours (the half of the budget rounded down
    to whole hours, so that the two together are the budget less its
    remainder modulo 2), on subject Mixed and without topic; no activity
    of that day is a concept study, and no other entry of the plan is for
    day 7. *)
Theorem day_7_revision_and_mock_test (st : Store) (strat : strategy)
    (profile : user_profile) :
  (priority_subjects strat <> [] ->
   exists plan, generate_weekly_plan st strat profile = Ok plan) /\
  (forall plan,
     generate_weekly_plan st strat profile = Ok plan ->
     (exists dp,
        dict_get plan "Sunday" = Some dp /\
        dp_day dp = 7 /\
        map a_type (dp_activities dp) = ["revision"; "mock_test"] /\
        map a_duration (dp_activities dp)
        = [study_hours_per_day profile / 2; study_hours_per_day profile / 2] /\
        List.length (filter (fun a => String.eqb (a_type a) "concept_study")
                            (dp_activities dp)) = 0%nat /\
        (forall a, In a (dp_activities dp) ->
                   a_subject a = "Mixed" /\ a_topic a = None /\ a_topic_id a = None)) /\
     (forall name dp, In (name, dp) plan -> dp_day dp = 7 -> name = "Sunday")) /\
  2 * (study_hours_per_day profile / 2)
  = study_hours_per_day profile - study_hours_per_day profile mod 2.
Proof.
  split; [apply generate_weekly_plan_ok|].
  split; [|pose proof (Z.div_mod (study_hours_per_day profile) 2); lia].
  intros plan H.
  apply generate_weekly_plan_inv in H
    as (d1 & d2 & d3 & d4 & d5 & d6 & -> & S1 & S2 & S3 & S4 & S5 & S6).
  split.
  - exists (sunday profile 7).
    do 5 (split; [reflexivity|]).
    simpl. intros a [<- | [<- | []]]; auto.
  - destruct S1 as [D1 _], S2 as [D2 _], S3 as [D3 _],
             S4 as [D4 _], S5 as [D5 _], S6 as [D6 _].
    intros name dp Hin Hd. simpl in Hin.
    repeat (destruct Hin as [Hin | Hin];
            [injection Hin as <- <-; (reflexivity || lia)|]).
    destruct Hin.
Qed.

Lemma day_7_revision_and_mock_test_witness :
  exists plan dp,
    generate_weekly_plan sample_store sample_strategy sample_jee_profile = Ok plan /\
    dict_get plan "Sunday" = Some dp /\
    map a_type (dp_activities dp) = ["revision"; "mock_test"] /\
    map a_duration (dp_activities dp) = [2; 2].
Proof.
  destruct (day_7_revision_and_mock_test sample_store sample_strategy
              sample_jee_profile) as (Hex & Hall & _).
  destruct Hex as (plan & Hplan); [simpl; discriminate|].
  destruct (Hall plan Hplan) as ((dp & Hget & _ & Hty & Hdur & _) & _).
  exists plan, dp. auto.
Defined.

Example primary_hours_of_90 : primary_hours 90 = 62 /\ 7 * 90 / 10 = 63.
Proof. split; reflexivity. Qed.

(** For a daily budget of at most 24 hours the truncated products are the
    integer parts of 7h/10 and 2h/10. *)
Lemma hours_of_a_day (h : Z) :
  0 <= h <= 24 ->
  primary_hours h = 7 * h / 10 /\
  secondary_hours h = 2 * h / 10 /\
  revision_hours h = h - 7 * h / 10 - 2 * h / 10.
Proof.
  intros Hh.
  assert (Hall : forallb (fun n => let k := Z.of_nat n in
                            (primary_hours k =? 7 * k / 10)
                            && (secondary_hours k =? 2 * k / 10))
                         (seq 0 25) = true) by (vm_compute; reflexivity).
  rewrite forallb_forall in Hall.
  specialize (Hall (Z.to_nat h)).
  rewrite Z2Nat.id in Hall by lia.
  assert (Hin : In (Z.to_nat h) (seq 0 25)) by (apply in_seq; lia).
  apply Hall in Hin. cbv zeta in Hin.
  apply andb_true_iff in Hin as [Hp Hs].
  apply Z.eqb_eq in Hp, Hs.
  unfold revision_hours. rewrite Hp, Hs. auto.
Qed.

(** C6, as stated, fails: with the default budget of 4 hours a day the
    Monday of [u1] gives 2 hours to the primary subject, 0 to the secondary
    one and 2 to the mixed revision, that is 50%, 0% and 50% of the day. *)
Lemma regular_day_split_of_4_hours :
  exists plan dp,
    generate_weekly_plan sample_store sample_strategy sample_jee_profile = Ok plan /\
    study_hours_per_day sample_jee_profile = 4 /\
    dict_get plan "Monday" = Some dp /\
    map a_type (dp_activities dp) = ["concept_study"; "practice"; "revision"] /\
    map a_duration (dp_activities dp) = [2; 0; 2] /\
    10 * 2 <> 7 * 4 /\ 10 * 0 <> 2 * 4 /\ 10 * 2 <> 1 * 4.
Proof.
  do 2 eexists. split; [vm_compute; reflexivity|].
  split; [reflexivity|]. split; [reflexivity|].
  split; [reflexivity|]. split; [reflexivity|].
  repeat split; discriminate.
Qed.

(** Selecting again from the list as a call left it gives the same
    selection and leaves the list as it is. *)
Lemma select_topics_for_day_again (st : Store) (tops : list topic_row)
    (uid ph : string) :
  select_topics_for_day st (snd (select_topics_for_day st tops uid ph)) uid ph
  = (fst (select_topics_for_day st tops uid ph),
     snd (select_topics_for_day st tops uid ph)).
Proof.
  destruct tops as [|t tops]; [reflexivity|].
  rewrite (select_topics_for_day_eq st (t :: tops)) by discriminate.
  cbn [fst snd]. unfold candidates.
  set (f := fun t0 => suits_phase ph (topic_mastery st uid t0)).
  destruct (filter f (t :: tops)) as [|c cs] eqn:E.
  - assert (Hne : stable_sort topic_rank_ge (t :: tops) <> []).
    { intros He. pose proof (stable_sort_perm _ topic_rank_ge (t :: tops)) as Hp.
      rewrite He in Hp. apply Permutation_nil in Hp. discriminate. }
    rewrite select_topics_for_day_eq by exact Hne.
    unfold candidates. fold f.
    rewrite (filter_stable_sort _ topic_rank_ge topic_rank_ge_total topic_rank_ge_trans).
    rewrite E. change (stable_sort topic_rank_ge []) with (@nil topic_row).
    cbv iota.
    rewrite (stable_sort_of_sorted _ topic_rank_ge (stable_sort topic_rank_ge (t :: tops)))
      by (apply stable_sort_sorted;
          [apply topic_rank_ge_total | apply topic_rank_ge_trans]).
    reflexivity.
  - rewrite select_topics_for_day_eq by discriminate.
    unfold candidates. fold f. rewrite E. reflexivity.
Qed.

Lemma select_topics_for_day_none (st : Store) (tops : list topic_row)
    (uid ph : string) :
  fst (select_topics_for_day st tops uid ph) = [] <-> tops = [].
Proof.
  split; [|intros ->; reflexivity].
  destruct tops as [|t tops]; [reflexivity|]. intros H. exfalso.
  rewrite select_topics_for_day_eq in H by discriminate. cbn [fst] in H.
  destruct (candidates_spec st (t :: tops) uid ph) as (_ & Hnil & _).
  destruct (candidates st (t :: tops) uid ph) as [|c cs] eqn:Ec.
  - destruct Hnil as [Hnil _]. specialize (Hnil eq_refl). discriminate.
  - pose proof (stable_sort_perm _ topic_rank_ge (c :: cs)) as Hp.
    destruct (stable_sort topic_rank_ge (c :: cs)) as [|x l]; [|discriminate].
    apply Permutation_nil in Hp. discriminate.
Qed.

Lemma settled_select (st : Store) (strat : strategy) (profile : user_profile)
    (tops0 tops : list topic_row) :
  settled st strat profile tops0 tops ->
  fst (select_topics_for_day st tops (user_id profile) (phase strat))
  = fst (select_topics_for_day st tops0 (user_id profile) (phase strat)) /\
  settled st strat profile tops0
    (snd (select_topics_for_day st tops (user_id profile) (phase strat))).
Proof.
  intros [-> | ->].
  - split; [reflexivity | now right].
  - rewrite select_topics_for_day_again. cbn [fst snd]. split; [reflexivity | now right].
Qed.

Lemma threaded_start (st : Store) (strat : strategy) (profile : user_profile) :
  threaded st strat profile (catalogue_topics st profile).
Proof.
  intros subject. destruct (dict_get _ subject) as [tops0|] eqn:E; [|reflexivity].
  exists tops0. split; [reflexivity | now left].
Qed.

(** One selection of a day: what is selected, and the dictionary after. *)
Lemma threaded_select (st : Store) (strat : strategy) (profile : user_profile)
    (all_topics : dict (list topic_row)) (subject : string) :
  threaded st strat profile all_topics ->
  match dict_get all_topics subject with
  | Some tops =>
      hd_error (fst (select_topics_for_day st tops (user_id profile) (phase strat)))
      = selected_topic st strat profile subject /\
      threaded st strat profile
        (dict_set all_topics subject
           (snd (select_topics_for_day st tops (user_id profile) (phase strat))))
  | None => selected_topic st strat profile subject = None
  end.
Proof.
  intros Hth. pose proof (Hth subject) as Hs.
  unfold selected_topic, topics_of.
  destruct (dict_get (catalogue_topics st profile) subject) as [tops0|] eqn:E0.
  - destruct Hs as (tops & -> & Hset).
    destruct (settled_select st strat profile tops0 tops Hset) as [Hsel Hafter].
    split; [now rewrite Hsel|].
    intros k. specialize (Hth k). rewrite dict_get_set.
    destruct (String.eqb subject k) eqn:Ek.
    + apply String.eqb_eq in Ek. subst k. rewrite E0. eauto.
    + exact Hth.
  - rewrite Hs. reflexivity.
Qed.

Lemma regular_day_planned (st : Store) (strat : strategy) (profile : user_profile)
    (all_topics all_topics' : dict (list topic_row)) (day : Z) (dp : day_plan) :
  threaded st strat profile all_topics ->
  regular_day st strat profile all_topics day = Ok (dp, all_topics') ->
  dp = planned_day st strat profile day /\ threaded st strat profile all_topics'.
Proof.
  intros Hth. unfold regular_day, planned_day.
  destruct (Z.of_nat (List.length (priority_subjects strat)) =? 0); [discriminate|].
  set (primary_subject := nth _ (priority_subjects strat) "").
  set (secondary_subject := nth (Z.to_nat ((day + 1) mod _)) (priority_subjects strat) "").
  pose proof (threaded_select st strat profile all_topics primary_subject Hth) as H1.
  destruct (dict_get all_topics primary_subject) as [tops|].
  - destruct H1 as [Hsel1 Hth1].
    destruct (select_topics_for_day st tops (user_id profile) (phase strat))
      as [sel tops'] eqn:Es. cbn [fst snd] in Hsel1, Hth1.
    pose proof (threaded_select st strat profile _ secondary_subject Hth1) as H2.
    destruct (dict_get (dict_set all_topics primary_subject tops') secondary_subject)
      as [tops2|].
    + destruct H2 as [Hsel2 Hth2].
      destruct (select_topics_for_day st tops2 (user_id profile) (phase strat))
        as [sel2 tops2'] eqn:Es2. cbn [fst snd] in Hsel2, Hth2.
      intros H. injection H as <- <-. split; [|exact Hth2].
      rewrite <- Hsel1, <- Hsel2.
      destruct sel as [|t ?], sel2 as [|t2 ?]; simpl; rewrite <- ?app_assoc; reflexivity.
    + intros H. injection H as <- <-. split; [|exact Hth1].
      rewrite <- Hsel1, H2.
      destruct sel as [|t ?]; reflexivity.
  - cbn [fst]. change (fst (select_topics_for_day st [] (user_id profile) (phase strat)))
      with (@nil topic_row).
    pose proof (threaded_select st strat profile _ secondary_subject Hth) as H2.
    destruct (dict_get all_topics secondary_subject) as [tops2|].
    + destruct H2 as [Hsel2 Hth2].
      destruct (select_topics_for_day st tops2 (user_id profile) (phase strat))
        as [sel2 tops2'] eqn:Es2. cbn [fst snd] in Hsel2, Hth2.
      intros H. injection H as <- <-. split; [|exact Hth2].
      rewrite H1, <- Hsel2.
      destruct sel2 as [|t2 ?]; reflexivity.
    + intros H. injection H as <- <-. split; [|exact Hth].
      rewrite H1, H2. reflexivity.
Qed.

Lemma plan_day_planned (st : Store) (strat : strategy) (profile : user_profile)
    (acc acc' : dict day_plan * dict (list topic_row)) (day : Z) :
  day <> 7 ->
  threaded st strat profile (snd acc) ->
  plan_day st strat profile acc day = Ok acc' ->
  fst acc' = dict_set (fst acc) (nth (Z.to_nat (day - 1)) day_names "")
                      (planned_day st strat profile day) /\
  threaded st strat profile (snd acc').
Proof.
  intros Hd Hth. unfold plan_day. destruct acc as [weekly_plan all_topics].
  apply Z.eqb_neq in Hd. rewrite Hd. intros H.
  apply bind_ok in H as ([dp all_topics'] & Hr & E).
  injection E as <-.
  destruct (regular_day_planned st strat profile _ _ _ _ Hth Hr) as [-> Hth'].
  split; [reflexivity | exact Hth'].
Qed.

Ltac planned_step H acc Hth :=
  let E := fresh "E" in
  let Hd := fresh "Hd" in
  apply bind_ok in H as (acc & Hd & H);
  apply plan_day_planned in Hd as (E & Hth); [|discriminate|assumption];
  simpl in E.

(** The seven days of a generated plan, from the catalogue alone. *)
Lemma generate_weekly_plan_days (st : Store) (strat : strategy)
    (profile : user_profile) (plan : dict day_plan) :
  generate_weekly_plan st strat profile = Ok plan ->
  plan = [("Monday", planned_day st strat profile 1);
          ("Tuesday", planned_day st strat profile 2);
          ("Wednesday", planned_day st strat profile 3);
          ("Thursday", planned_day st strat profile 4);
          ("Friday", planned_day st strat profile 5);
          ("Saturday", planned_day st strat profile 6);
          ("Sunday", sunday profile 7)].
Proof.
  unfold generate_weekly_plan. intros H.
  apply bind_ok in H as (acc7 & H & E). injection E as <-.
  cbn [plan_days] in H.
  pose proof (threaded_start st strat profile) as T0.
  unfold catalogue_topics in T0.
  planned_step H acc1 T1. planned_step H acc2 T2.
  planned_step H acc3 T3. planned_step H acc4 T4.
  planned_step H acc5 T5. planned_step H acc6 T6.
  apply bind_ok in H as (acc & Hd & H). injection H as <-.
  apply plan_day_sunday in Hd.
  rewrite Hd, E4, E3, E2, E1, E0, E. reflexivity.
Qed.

Lemma selected_topic_spec (st : Store) (strat : strategy) (profile : user_profile)
    (subject : string) :
  (selected_topic st strat profile subject = None <->
   topics_of st profile subject = []) /\
  (forall t, selected_topic st strat profile subject = Some t ->
             In t (topics_of st profile subject)).
Proof.
  unfold selected_topic.
  set (tops := topics_of st profile subject).
  pose proof (select_topics_for_day_none st tops (user_id profile) (phase strat)) as Hn.
  split.
  - rewrite <- Hn. destruct (fst _); simpl; split; congruence.
  - intros t Ht.
    destruct tops as [|t0 tops0] eqn:Et; [discriminate|].
    rewrite select_topics_for_day_eq in Ht by discriminate. cbn [fst] in Ht.
    destruct (candidates_spec st (t0 :: tops0) (user_id profile) (phase strat))
      as (Hincl & _).
    apply Hincl.
    apply (Permutation_in _ (stable_sort_perm _ topic_rank_ge _)).
    rewrite <- (firstn_skipn 3 (stable_sort topic_rank_ge _)).
    apply in_or_app. left.
    destruct (firstn 3 _) as [|x l]; [discriminate|].
    injection Ht as ->. now left.
Qed.

(** C6, amended: on every regular study day (days 1 to 6) of a generated
    plan the activities are, in this order, a concept study of the primary
    subject for [int(0.7 * h)] hours, a practice of the secondary subject
    for [int(0.2 * h)] hours, and a revision on subject Mixed, without
    topic, for the rest of the budget [h - int(0.7 * h) - int(0.2 * h)].
    The first two are present exactly when the catalogue of the track has
    a topic for the subject, and are on the first topic that
    [select_topics_for_day] returns for the topics of that subject; the
    revision is always present.  For a budget [h] of 0 to 24 hours the
    three durations are the integer parts of [7h/10] and [2h/10] and the
    remainder. *)
Theorem regular_day_time_split (st : Store) (strat : strategy)
    (profile : user_profile) :
  let hours := study_hours_per_day profile in
  let prio := priority_subjects strat in
  let n := Z.of_nat (List.length prio) in
  (prio <> [] -> exists plan, generate_weekly_plan st strat profile = Ok plan) /\
  (forall plan,
     generate_weekly_plan st strat profile = Ok plan ->
     dict_keys plan = day_names /\
     forall name dp,
       In (name, dp) plan -> dp_day dp <> 7 ->
       1 <= dp_day dp <= 6 /\
       dp_activities dp
       = match selected_topic st strat profile
                 (nth (Z.to_nat (dp_day dp mod n)) prio "") with
         | Some t =>
             [primary_activity (nth (Z.to_nat (dp_day dp mod n)) prio "") t hours]
         | None => []
         end
         ++ match selected_topic st strat profile
                  (nth (Z.to_nat ((dp_day dp + 1) mod n)) prio "") with
            | Some t =>
                [secondary_activity
                   (nth (Z.to_nat ((dp_day dp + 1) mod n)) prio "") t hours]
            | None => []
            end
         ++ [mixed_revision hours]) /\
  (forall subject,
     (selected_topic st strat profile subject = None <->
      topics_of st profile subject = []) /\
     (forall t, selected_topic st strat profile subject = Some t ->
                In t (topics_of st profile subject))) /\
  (forall subject t,
     a_type (primary_activity subject t hours) = "concept_study" /\
     a_subject (primary_activity subject t hours) = subject /\
     a_topic_id (primary_activity subject t hours) = Some (t_id t) /\
     a_duration (primary_activity subject t hours) = primary_hours hours /\
     a_type (secondary_activity subject t hours) = "practice" /\
     a_subject (secondary_activity subject t hours) = subject /\
     a_topic_id (secondary_activity subject t hours) = Some (t_id t) /\
     a_duration (secondary_activity subject t hours) = secondary_hours hours) /\
  a_type (mixed_revision hours) = "revision" /\
  a_subject (mixed_revision hours) = "Mixed" /\
  a_duration (mixed_revision hours)
  = hours - primary_hours hours - secondary_hours hours /\
  a_topic (mixed_revision hours) = None /\
  a_topic_id (mixed_revision hours) = None /\
  (0 <= hours <= 24 ->
   primary_hours hours = 7 * hours / 10 /\
   secondary_hours hours = 2 * hours / 10 /\
   revision_hours hours = hours - 7 * hours / 10 - 2 * hours / 10).
Proof.
  intros hours prio n.
  split; [apply generate_weekly_plan_ok|].
  split; [|split; [apply selected_topic_spec|]].
  - intros plan H. apply generate_weekly_plan_days in H. subst plan.
    split; [reflexivity|].
    intros name dp Hin Hd. simpl in Hin.
    destruct Hin as [E | [E | [E | [E | [E | [E | [E | []]]]]]]];
      injection E as _ <-;
      try (split; [simpl; lia | reflexivity]).
    exfalso. apply Hd. reflexivity.
  - split; [intros subject t; repeat split|].
    do 5 (split; [reflexivity|]). apply hours_of_a_day.
Qed.

Lemma regular_day_time_split_witness :
  exists plan dp t1 t2,
    generate_weekly_plan sample_store sample_strategy sample_jee_profile = Ok plan /\
    dict_get plan "Monday" = Some dp /\
    dp_activities dp
    = [primary_activity "Chemistry" t1 4; secondary_activity "Mathematics" t2 4;
       mixed_revision 4] /\
    primary_hours 4 = 7 * 4 / 10.
Proof.
  destruct (regular_day_time_split sample_store sample_strategy sample_jee_profile)
    as (Hex & Hall & _ & _ & _ & _ & _ & _ & _ & Hhours).
  destruct Hex as (plan & Hplan); [simpl; discriminate|].
  destruct (Hall _ Hplan) as (_ & Hdays).
  pose proof Hplan as Hv. apply generate_weekly_plan_days in Hv.
  destruct (Hdays "Monday" (planned_day sample_store sample_strategy sample_jee_profile 1))
    as (_ & Hacts); [rewrite Hv; left; reflexivity | simpl; discriminate |].
  assert (H1 : exists t1, selected_topic sample_store sample_strategy sample_jee_profile
                            "Chemistry" = Some t1) by (eexists; vm_compute; reflexivity).
  assert (H2 : exists t2, selected_topic sample_store sample_strategy sample_jee_profile
                            "Mathematics" = Some t2) by (eexists; vm_compute; reflexivity).
  destruct H1 as (t1 & H1), H2 as (t2 & H2).
  exists plan, (planned_day sample_store sample_strategy sample_jee_profile 1), t1, t2.
  split; [exact Hplan|]. split; [rewrite Hv; reflexivity|].
  split; [|apply Hhours; simpl; lia].
  rewrite Hacts.
  change (dp_day (planned_day sample_store sample_strategy sample_jee_profile 1)) with 1.
  change (nth (Z.to_nat (1 mod Z.of_nat (List.length (priority_subjects sample_strategy))))
              (priority_subjects sample_strategy) "") with "Chemistry".
  change (nth (Z.to_nat ((1 + 1)
                         mod Z.of_nat (List.length (priority_subjects sample_strategy))))
              (priority_subjects sample_strategy) "") with "Mathematics".
  rewrite H1, H2. reflexivity.
Defined.

(** ** Persistence of a roadmap *)

Lemma save_activities_items (env : Env) (rid : string) (day : Z)
    (acts : list activity) :
  forall acc acc',
    save_activities env rid day acts acc = Ok acc' ->
    exists new,
      snd acc' = snd acc ++ new /\
      forall i, In i new ->
        ri_day_of_week i = day /\
        exists a, In a acts /\ has_topic_id a = true.
Proof.
  induction acts as [|a acts IH]; intros acc acc' H; simpl in H.
  - injection H as <-. exists []. split; [now rewrite app_nil_r | intros i []].
  - destruct (has_topic_id a) eqn:Ht.
    + destruct (a_topic_id a) as [tid|]; [|discriminate].
      destruct (a_priority a) as [prio|]; [|discriminate].
      apply IH in H as (new & Hnew & Hall). simpl in Hnew.
      eexists (_ :: new). split.
      * rewrite Hnew, <- app_assoc. reflexivity.
      * intros i [<- | Hi].
        -- simpl. split; [reflexivity|]. exists a. split; [now left | exact Ht].
        -- destruct (Hall i Hi) as (Hd & a' & Ha' & Ht').
           split; [exact Hd|]. exists a'. split; [now right | exact Ht'].
    + apply IH in H as (new & Hnew & Hall).
      exists new. split; [exact Hnew|].
      intros i Hi. destruct (Hall i Hi) as (Hd & a' & Ha' & Ht').
      split; [exact Hd|]. exists a'. split; [now right | exact Ht'].
Qed.

Lemma save_days_items (env : Env) (rid : string) (plan : dict day_plan) :
  forall acc acc',
    save_days env rid plan acc = Ok acc' ->
    exists new,
      snd acc' = snd acc ++ new /\
      forall i, In i new ->
        exists name dp a,
          In (name, dp) plan /\ In a (dp_activities dp) /\
          has_topic_id a = true /\ ri_day_of_week i = dp_day dp.
Proof.
  induction plan as [|[name dp] plan IH]; intros acc acc' H; simpl in H.
  - injection H as <-. exists []. split; [now rewrite app_nil_r | intros i []].
  - apply bind_ok in H as (acc1 & H1 & H).
    apply save_activities_items in H1 as (new1 & Hnew1 & Hall1).
    apply IH in H as (new2 & Hnew2 & Hall2).
    exists (new1 ++ new2). split.
    + rewrite Hnew2, Hnew1, <- app_assoc. reflexivity.
    + intros i Hi. apply in_app_or in Hi as [Hi | Hi].
      * destruct (Hall1 i Hi) as (Hd & a & Ha & Ht).
        exists name, dp, a. repeat split; [now left | assumption..].
      * destruct (Hall2 i Hi) as (name' & dp' & a & Hin & Ha & Ht & Hd).
        exists name', dp', a. repeat split; [now right | assumption..].
Qed.

Lemma save_activities_ok (env : Env) (rid : string) (day : Z) (acts : list activity) :
  (forall a, In a acts -> has_topic_id a = true -> a_priority a <> None) ->
  forall acc, exists acc', save_activities env rid day acts acc = Ok acc'.
Proof.
  induction acts as [|a acts IH]; intros Hp acc; simpl.
  - eauto.
  - assert (Hp' : forall a', In a' acts -> has_topic_id a' = true ->
                             a_priority a' <> None).
    { intros a' Ha'. apply Hp. now right. }
    destruct (has_topic_id a) eqn:Ht; [|apply IH; exact Hp'].
    specialize (Hp a (or_introl eq_refl) Ht).
    unfold has_topic_id in Ht.
    destruct (a_topic_id a) as [tid|]; [|discriminate].
    destruct (a_priority a) as [prio|]; [|congruence].
    apply IH. exact Hp'.
Qed.

Lemma save_days_ok (env : Env) (rid : string) (plan : dict day_plan) :
  (forall name dp a, In (name, dp) plan -> In a (dp_activities dp) ->
                     has_topic_id a = true -> a_priority a <> None) ->
  forall acc, exists acc', save_days env rid plan acc = Ok acc'.
Proof.
  induction plan as [|[name dp] plan IH]; intros Hp acc; simpl.
  - eauto.
  - destruct (save_activities_ok env rid (dp_day dp) (dp_activities dp)) with (acc := acc)
      as (acc1 & ->).
    { intros a Ha. apply (Hp name dp a); [now left | exact Ha]. }
    simpl. apply IH. intros name' dp' a Hin. apply (Hp name' dp' a). now right.
Qed.

(** In a generated plan, an activity with a topic belongs to one of the
    days 1 to 6 and has a priority. *)
Lemma generated_plan_topics (st : Store) (strat : strategy) (profile : user_profile)
    (plan : dict day_plan) :
  generate_weekly_plan st strat profile = Ok plan ->
  forall name dp a,
    In (name, dp) plan -> In a (dp_activities dp) -> has_topic_id a = true ->
    1 <= dp_day dp <= 6 /\ a_priority a <> None.
Proof.
  intros H.
  apply generate_weekly_plan_inv in H
    as (d1 & d2 & d3 & d4 & d5 & d6 & -> & S1 & S2 & S3 & S4 & S5 & S6).
  assert (Hreg : forall day d a,
            regular_shape strat profile day d -> 1 <= day <= 6 ->
            In a (dp_activities d) -> 1 <= dp_day d <= 6 /\ a_priority a <> None).
  { intros day d a (Hday & _ & prim & sec & Hacts & Hprim & Hsec) Hrange Ha.
    split; [lia|]. rewrite Hacts in Ha.
    apply in_app_or in Ha as [Ha | Ha]; [|apply in_app_or in Ha as [Ha | Ha]].
    - destruct Hprim as [-> | (t & ->)]; [destruct Ha|].
      destruct Ha as [<- | []]. discriminate.
    - destruct Hsec as [-> | (t & ->)]; [destruct Ha|].
      destruct Ha as [<- | []]. discriminate.
    - destruct Ha as [<- | []]. discriminate. }
  intros name dp a Hin Ha Ht. simpl in Hin.
  destruct Hin as [E | [E | [E | [E | [E | [E | [E | []]]]]]]];
    injection E as <- <-;
    [ apply (Hreg 1 d1) | apply (Hreg 2 d2) | apply (Hreg 3 d3)
    | apply (Hreg 4 d4) | apply (Hreg 5 d5) | apply (Hreg 6 d6) | ];
    try (assumption || lia).
  simpl in Ha. destruct Ha as [<- | [<- | []]]; discriminate.
Qed.

Lemma generate_weekly_roadmap_items (env : Env) (st st' : Store) (uid : string)
    (week_offset : Z) (reply : roadmap_reply) :
  generate_weekly_roadmap env st uid week_offset = Ok (reply, st') ->
  exists new,
    roadmap_items st' = roadmap_items st ++ new /\
    forall i, In i new -> 1 <= ri_day_of_week i <= 6.
Proof.
  unfold generate_weekly_roadmap.
  destruct (get_user_profile st uid) as [profile|].
  - destruct (week_of env week_offset) as [week_number year]. intros H.
    apply bind_ok in H as (strat & _ & H).
    apply bind_ok in H as (plan & Hplan & H).
    apply bind_ok in H as ([rid st1] & Hsave & H).
    injection H as _ <-.
    unfold save_roadmap in Hsave.
    apply bind_ok in Hsave as (acc & Hdays & Hsave).
    injection Hsave as _ <-.
    apply save_days_items in Hdays as (new & Hnew & Hall).
    exists new. simpl in *. split; [now rewrite Hnew|].
    intros i Hi. destruct (Hall i Hi) as (name & dp & a & Hin & Ha & Ht & ->).
    eapply generated_plan_topics; eassumption.
  - intros H. injection H as _ <-. exists [].
    split; [now rewrite app_nil_r | intros i []].
Qed.

Lemma reachable_days (st : Store) :
  reachable st ->
  forall i, In i (roadmap_items st) -> 1 <= ri_day_of_week i <= 6.
Proof.
  induction 1 as [st H0 | env st uid tid m ts at_ co _ IH
                 | env st uid off _ IH | st item_id status _ IH]; intros i Hi.
  - rewrite H0 in Hi. destruct Hi.
  - apply IH. exact Hi.
  - destruct (generate_weekly_roadmap env st uid off) as [[reply st']|e] eqn:E;
      simpl in Hi; [|now apply IH].
    apply generate_weekly_roadmap_items in E as (new & Hnew & Hall).
    rewrite Hnew in Hi. apply in_app_or in Hi as [Hi | Hi]; [now apply IH | now apply Hall].
  - simpl in Hi. apply in_map_iff in Hi as (j & <- & Hj).
    destruct (String.eqb (ri_id j) item_id); simpl; now apply IH.
Qed.

(** The columns of roadmap_items in a row of [get_roadmap]: all NULL, or
    those of a stored item. *)
Lemma item_join_rows (st : Store) (r : roadmap_row) (rest : list sqlval) :
  In rest (item_join st r) ->
  rest = repeat SNull 9 \/
  exists i names, In i (roadmap_items st) /\ rest = item_columns i ++ names.
Proof.
  unfold item_join, or_nulls.
  destruct (flat_map _ _) as [|row rows] eqn:E.
  - intros [<- | []]. now left.
  - rewrite <- E. intros Hin. right.
    apply in_flat_map in Hin as (i & Hi & Hrow).
    apply filter_In in Hi as [Hi _].
    apply in_map_iff in Hrow as (names & <- & _).
    exists i, names. auto.
Qed.

Lemma roadmap_rows_columns (st : Store) (uid : string) (week_number year : Z)
    (row : list sqlval) :
  In row (roadmap_rows st uid week_number year) ->
  (col row 9 = SNull /\ col row 10 = SNull) \/
  exists i, In i (roadmap_items st) /\
            col row 9 = SText (ri_topic_id i) /\
            col row 10 = SInt (ri_day_of_week i).
Proof.
  unfold roadmap_rows. intros Hin.
  apply in_flat_map in Hin as (r & _ & Hrow).
  apply in_map_iff in Hrow as (rest & <- & Hrest).
  apply item_join_rows in Hrest as [-> | (i & names & Hi & ->)].
  - left. split; reflexivity.
  - right. exists i. repeat split; assumption || reflexivity.
Qed.

(** C9: every item written by [generate_weekly_roadmap] (through
    [save_roadmap]) has a [day_of_week] between 1 and 6, because the two
    activities of day 7 carry no topic; hence in every database reached
    from one without items, all items are on days 1 to 6 and [get_roadmap]
    returns no item with day 7.  ([get_roadmap] reads the item fields one
    column to the left: the day stored in [roadmap_items.day_of_week] comes
    back under ['study_hours'] and ['day_of_week'] holds the topic id;
    neither is 7.) *)
Theorem persisted_items_on_days_1_to_6 :
  (forall env st uid week_offset reply st',
     generate_weekly_roadmap env st uid week_offset = Ok (reply, st') ->
     exists new,
       roadmap_items st' = roadmap_items st ++ new /\
       forall i, In i new -> 1 <= ri_day_of_week i <= 6) /\
  (forall st,
     reachable st ->
     (forall i, In i (roadmap_items st) -> 1 <= ri_day_of_week i <= 6) /\
     forall env uid week_offset roadmap,
       get_roadmap env st uid week_offset = Some roadmap ->
       forall item, In item (rv_items roadmap) ->
         iv_day_of_week item <> SInt 7 /\ iv_study_hours item <> SInt 7).
Proof.
  split.
  - intros env st uid week_offset reply st'. apply generate_weekly_roadmap_items.
  - intros st Hr. pose proof (reachable_days st Hr) as Hdays.
    split; [exact Hdays|].
    intros env uid week_offset roadmap. unfold get_roadmap.
    destruct (week_of env week_offset) as [week_number year].
    destruct (roadmap_rows st uid week_number year) as [|first rows] eqn:E;
      [discriminate|].
    intros H. injection H as <-. cbn [rv_items].
    intros item Hitem.
    apply in_map_iff in Hitem as (row & <- & Hrow).
    apply (proj1 (filter_In (fun result => truthy (col result 6)) row
                            (first :: rows))) in Hrow as [Hrow _].
    rewrite <- E in Hrow.
    apply roadmap_rows_columns in Hrow as [[H9 H10] | (i & Hi & H9 & H10)];
      simpl; rewrite H9, H10.
    + split; discriminate.
    + split; [discriminate|].
      intros H7. injection H7 as H7. specialize (Hdays i Hi). lia.
Qed.

Lemma persisted_items_on_days_1_to_6_witness :
  exists reply st',
    generate_weekly_roadmap sample_env sample_store "u1" 0 = Ok (reply, st') /\
    List.length (roadmap_items st') = 12%nat /\
    forall i, In i (roadmap_items st') -> 1 <= ri_day_of_week i <= 6.
Proof.
  destruct (generate_weekly_roadmap sample_env sample_store "u1" 0)
    as [[reply st']|e] eqn:E; [|vm_compute in E; discriminate].
  exists reply, st'. split; [reflexivity|].
  destruct persisted_items_on_days_1_to_6 as [Hgen _].
  destruct (Hgen _ _ _ _ _ _ E) as (new & Hnew & Hall).
  split.
  - vm_compute in E. injection E as _ <-. reflexivity.
  - rewrite Hnew. exact Hall.
Defined.

(** ** A user without profile *)

(** C10: for a user id without stored profile, [generate_weekly_roadmap]
    returns the error value and the database it was given: no roadmap row
    and no roadmap item is written. *)
Theorem generate_weekly_roadmap_unknown_user (env : Env) (st : Store)
    (uid : string) (week_offset : Z) :
  get_user_profile st uid = None ->
  generate_weekly_roadmap env st uid week_offset
  = Ok (ErrorReply "User not found", st) /\
  roadmaps (store_after st (generate_weekly_roadmap env st uid week_offset))
  = roadmaps st /\
  roadmap_items (store_after st (generate_weekly_roadmap env st uid week_offset))
  = roadmap_items st.
Proof.
  intros H. unfold generate_weekly_roadmap. rewrite H. simpl. auto.
Qed.

Lemma generate_weekly_roadmap_unknown_user_witness :
  generate_weekly_roadmap sample_env sample_store "nobody" 0
  = Ok (ErrorReply "User not found", sample_store).
Proof.
  apply (generate_weekly_roadmap_unknown_user sample_env sample_store "nobody" 0).
  reflexivity.
Defined.

(** ** A new user *)

(** Without progress every subject of the catalogue has performance 0. *)
Lemma performance_without_progress (subs : list subject_row) (k : string) :
  forall d,
    dict_get
      (fold_left
         (fun perf s =>
            match filter (fun p => String.eqb (p_subject_name p) (s_name s)) [] with
            | [] => dict_set perf (s_name s) 0%Q
            | _ :: _ => dict_set perf (s_name s)
                          (mean_mastery
                             (filter (fun p => String.eqb (p_subject_name p) (s_name s))
                                     []))
            end)
         subs d) k
    = if existsb (fun s => String.eqb (s_name s) k) subs then Some 0%Q
      else dict_get d k.
Proof.
  induction subs as [|s subs IH]; intros d; simpl.
  - reflexivity.
  - rewrite IH, dict_get_set.
    destruct (String.eqb (s_name s) k); simpl;
      destruct (existsb _ subs); reflexivity.
Qed.

Lemma subject_performance_new_user (subs : list subject_row) (k : string) :
  In k (map s_name subs) ->
  dict_get (subject_performance_of [] subs) k = Some 0%Q.
Proof.
  intros Hin. unfold subject_performance_of.
  rewrite performance_without_progress.
  destruct (existsb _ subs) eqn:E; [reflexivity|].
  apply in_map_iff in Hin as (s & <- & Hs).
  assert (existsb (fun s0 => String.eqb (s_name s0) (s_name s)) subs = true).
  { apply existsb_exists. exists s. split; [exact Hs | apply String.eqb_refl]. }
  congruence.
Qed.

Lemma insert_sorted_not_nil (A : Type) (le : A -> A -> bool) (x : A) (l : list A) :
  insert_sorted le x l <> [].
Proof. destruct l as [|y l]; simpl; [|destruct (le x y)]; discriminate. Qed.

Lemma get_priority_subjects_not_nil (performance : dict float) :
  performance <> [] -> get_priority_subjects performance <> [].
Proof.
  unfold get_priority_subjects, stable_sort.
  destruct performance as [|kv performance]; [congruence|]. intros _. simpl.
  intros H. apply map_eq_nil in H. revert H. apply insert_sorted_not_nil.
Qed.

Lemma subject_performance_not_nil (prog : list progress) (subs : list subject_row) :
  subs <> [] -> subject_performance_of prog subs <> [].
Proof.
  unfold subject_performance_of.
  set (step := fun perf s => _).
  assert (Hstep : forall d s, step d s <> []).
  { intros d s. unfold step.
    destruct (filter _ prog); apply dict_set_not_nil. }
  assert (Hfold : forall l d, d <> [] -> fold_left step l d <> []).
  { induction l as [|s l IH]; intros d Hd; simpl; [exact Hd|].
    apply IH, Hstep. }
  destruct subs as [|s subs]; [congruence|]. intros _. simpl.
  apply Hfold, Hstep.
Qed.

Lemma create_roadmap_strategy_new_user (env : Env) (profile : user_profile)
    (subs : list subject_row) (strat : strategy) :
  create_roadmap_strategy env profile [] subs = Ok strat ->
  phase strat = "foundation".
Proof.
  unfold create_roadmap_strategy.
  destruct ((target_year profile <? - 2147483648)
            || (2147483647 <? target_year profile)); [discriminate|].
  destruct ((target_year profile <? 1) || (9999 <? target_year profile));
    [discriminate|].
  cbv beta iota zeta.
  destruct (normalize _) as [alloc|e]; [|discriminate].
  cbn [bind]. intros H. injection H as <-. reflexivity.
Qed.

(** [generate_weekly_roadmap] completes for a stored profile with a valid
    target year as soon as the catalogue has a subject for the track. *)
Lemma generate_weekly_roadmap_ok (env : Env) (st : Store) (uid : string)
    (week_offset : Z) (profile : user_profile) :
  get_user_profile st uid = Some profile ->
  valid_year (target_year profile) ->
  get_subjects_for_exam st (exam_type profile) <> [] ->
  exists rid week_number year plan strat st',
    generate_weekly_roadmap env st uid week_offset
    = Ok (RoadmapReply rid week_number year (exam_type profile)
            (study_hours_per_day profile) plan strat, st') /\
    create_roadmap_strategy env profile (get_user_progress st uid)
      (get_subjects_for_exam st (exam_type profile)) = Ok strat.
Proof.
  intros Hprof Hy Hsubs. unfold generate_weekly_roadmap. rewrite Hprof.
  destruct (week_of env week_offset) as [week_number year].
  destruct (create_roadmap_strategy_ok env profile (get_user_progress st uid)
              (get_subjects_for_exam st (exam_type profile)) Hy)
    as (strat & Hs & _ & _ & Hprio).
  rewrite Hs. cbn [bind].
  destruct (generate_weekly_plan_ok st strat profile) as (plan & Hplan).
  { rewrite Hprio. apply get_priority_subjects_not_nil.
    apply subject_performance_not_nil. exact Hsubs. }
  rewrite Hplan. cbn [bind].
  unfold save_roadmap.
  destruct (save_days_ok env (uuid4 env 0%nat) plan) with (acc := (1%nat, @nil roadmap_item_row))
    as (acc & ->).
  { intros name dp a Hin Ha Ht.
    eapply generated_plan_topics; eassumption. }
  cbn [bind fst snd]. do 6 eexists. split; reflexivity.
Qed.

(** C3: for a user with a stored JEE profile (valid target year) and no
    progress record, in a catalogue that offers Physics, Chemistry and
    Mathematics for JEE (as the seeded one does),
    [generate_weekly_roadmap] returns a roadmap whose strategy has the
    allocation Physics 33, Chemistry 33, Mathematics 34 and the phase
    ["foundation"]. *)
Theorem new_jee_user_allocation (env : Env) (st : Store) (uid : string)
    (week_offset : Z) (profile : user_profile) :
  get_user_profile st uid = Some profile ->
  exam_type profile = "JEE" ->
  valid_year (target_year profile) ->
  get_user_progress st uid = [] ->
  In "Physics" (map s_name (get_subjects_for_exam st "JEE")) ->
  In "Chemistry" (map s_name (get_subjects_for_exam st "JEE")) ->
  In "Mathematics" (map s_name (get_subjects_for_exam st "JEE")) ->
  exists rid week_number year plan strat st',
    generate_weekly_roadmap env st uid week_offset
    = Ok (RoadmapReply rid week_number year "JEE" (study_hours_per_day profile)
            plan strat, st') /\
    subject_allocation strat
    = [("Physics", 33); ("Chemistry", 33); ("Mathematics", 34)] /\
    phase strat = "foundation".
Proof.
  intros Hprof Hexam Hy Hprog HP HC HM.
  destruct (generate_weekly_roadmap_ok env st uid week_offset profile Hprof Hy)
    as (rid & week_number & year & plan & strat & st' & Hgen & Hs).
  { rewrite Hexam. intros E. rewrite E in HP. destruct HP. }
  rewrite Hexam in Hgen, Hs. rewrite Hprog in Hs.
  exists rid, week_number, year, plan, strat, st'.
  split; [exact Hgen|].
  pose proof (create_roadmap_strategy_inv _ _ _ _ _ Hs) as (Hn & _).
  rewrite Hexam, adjusted_allocation_base in Hn.
  unfold base_allocation in Hn. cbn [String.eqb Ascii.eqb Bool.eqb map fst snd] in Hn.
  unfold adjust in Hn.
  rewrite !subject_performance_new_user in Hn by assumption.
  assert (Hnum : normalize [("Physics", Z.min 50 (33 + 10));
                            ("Chemistry", Z.min 50 (33 + 10));
                            ("Mathematics", Z.min 50 (34 + 10))]
                 = Ok [("Physics", 33); ("Chemistry", 33); ("Mathematics", 34)])
    by (vm_compute; reflexivity).
  assert (Hweak : ltb 0%Q (lit 3 10) = true) by (vm_compute; reflexivity).
  rewrite Hweak in Hn. rewrite Hnum in Hn. injection Hn as <-.
  split; [reflexivity|].
  eapply create_roadmap_strategy_new_user. exact Hs.
Qed.

Lemma new_jee_user_allocation_witness :
  exists rid week_number year plan strat st',
    generate_weekly_roadmap sample_env sample_store "u1" 0
    = Ok (RoadmapReply rid week_number year "JEE" 4 plan strat, st') /\
    subject_allocation strat
    = [("Physics", 33); ("Chemistry", 33); ("Mathematics", 34)] /\
    phase strat = "foundation".
Proof.
  apply (new_jee_user_allocation sample_env sample_store "u1" 0 sample_jee_profile).
  - reflexivity.
  - reflexivity.
  - unfold valid_year. simpl. lia.
  - reflexivity.
  - simpl. auto.
  - simpl. auto.
  - simpl. auto.
Defined.

(** ** Adaptation *)

Lemma of_int_50_80 : of_int 50 = inject_Z 50 /\ of_int 80 = inject_Z 80.
Proof. split; vm_compute; reflexivity. Qed.

Lemma adaptations_for_spec (avg : float) (prog : list progress) (a : adaptation) :
  In a (adaptations_for avg prog) ->
  (a = reduce_workload /\ (avg < inject_Z 50)%Q) \/
  (exists subject count, a = increase_focus subject count) \/
  (a = increase_difficulty /\ (inject_Z 80 < avg)%Q /\ prog <> [] /\
   (lit 7 10 < mean_mastery prog)%Q).
Proof.
  destruct of_int_50_80 as [E50 E80].
  unfold adaptations_for. rewrite E50, E80. intros Hin.
  apply in_app_or in Hin as [Hin | Hin]; [|apply in_app_or in Hin as [Hin | Hin]].
  - destruct (ltb avg (inject_Z 50)) eqn:E; [|destruct Hin].
    destruct Hin as [<- | []]. left. split; [reflexivity | now apply ltb_iff].
  - right. left. apply in_flat_map in Hin as ([subject count] & _ & Hin).
    simpl in Hin. destruct (2 <=? count); [|destruct Hin].
    destruct Hin as [<- | []]. eauto.
  - destruct (ltb (inject_Z 80) avg) eqn:E; [|destruct Hin].
    destruct prog as [|p prog].
    + destruct (ltb (lit 7 10) 0%Q) eqn:E0; [|destruct Hin].
      vm_compute in E0. discriminate.
    + destruct (ltb (lit 7 10) (mean_mastery (p :: prog))) eqn:Em; [|destruct Hin].
      destruct Hin as [<- | []]. right. right.
      split; [reflexivity|]. split; [now apply ltb_iff|].
      split; [discriminate | now apply ltb_iff].
Qed.

Lemma adaptations_for_reduce (avg : float) (prog : list progress) :
  (avg < inject_Z 50)%Q -> In reduce_workload (adaptations_for avg prog).
Proof.
  destruct of_int_50_80 as [E50 _].
  intros H. unfold adaptations_for. rewrite E50.
  apply ltb_iff in H. rewrite H. now left.
Qed.



































(** ** Unrecognised exam tracks *)

(** C7, as stated, fails: for the track ["GATE"], which is neither JEE nor
    NEET, [create_roadmap_strategy] returns a strategy built on the NEET
    split, and [generate_weekly_roadmap] returns a roadmap and stores it. *)
Lemma unknown_track_gets_neet_split :
  (exists strat,
     create_roadmap_strategy sample_env
       (with_exam_type sample_jee_profile "GATE") []
       (get_subjects_for_exam sample_store "GATE") = Ok strat /\
     subject_allocation strat
     = [("Physics", 29); ("Chemistry", 29); ("Biology", 42)]) /\
  (exists rid week year plan strat st',
     generate_weekly_roadmap sample_env sample_store "u2" 0
     = Ok (RoadmapReply rid week year "GATE" 4 plan strat, st') /\
     dict_keys (subject_allocation strat) = ["Physics"; "Chemistry"; "Biology"] /\
     List.length (roadmaps st') = 1%nat).
Proof.
  split.
  - eexists. split; vm_compute; reflexivity.
  - do 6 eexists. split; [vm_compute; reflexivity|].
    split; reflexivity.
Qed.

Lemma allocation_subjects (env : Env) (profile : user_profile)
    (prog : list progress) (subs : list subject_row) (strat : strategy) :
  create_roadmap_strategy env profile prog subs = Ok strat ->
  dict_keys (subject_allocation strat)
  = dict_keys (base_allocation (exam_type profile)).
Proof.
  intros Hs. apply create_roadmap_strategy_inv in Hs as (Hn & _).
  destruct (normalize_base (subject_performance_of prog subs) (exam_type profile))
    as (alloc & Hn' & Hk & _).
  rewrite Hn in Hn'. injection Hn' as ->. exact Hk.
Qed.

(** C7, amended: a track other than ["JEE"], recognised or not, is handled
    exactly as ["NEET"]: [create_roadmap_strategy] returns what it returns
    for the same profile with track NEET, which for a valid target year is
    a strategy over Physics, Chemistry and Biology; and for such a stored
    profile [generate_weekly_roadmap] returns a roadmap with that
    allocation as soon as the catalogue has a subject for the track.  No
    failure is raised on account of the track. *)
Theorem unknown_track_as_neet (env : Env) (profile : user_profile)
    (prog : list progress) (subs : list subject_row) :
  exam_type profile <> "JEE" ->
  create_roadmap_strategy env profile prog subs
  = create_roadmap_strategy env (with_exam_type profile "NEET") prog subs /\
  (valid_year (target_year profile) ->
   exists strat,
     create_roadmap_strategy env profile prog subs = Ok strat /\
     dict_keys (subject_allocation strat) = ["Physics"; "Chemistry"; "Biology"]) /\
  (forall st uid week_offset,
     get_user_profile st uid = Some profile ->
     valid_year (target_year profile) ->
     get_subjects_for_exam st (exam_type profile) <> [] ->
     exists rid week_number year plan strat st',
       generate_weekly_roadmap env st uid week_offset
       = Ok (RoadmapReply rid week_number year (exam_type profile)
               (study_hours_per_day profile) plan strat, st') /\
       dict_keys (subject_allocation strat) = ["Physics"; "Chemistry"; "Biology"]).
Proof.
  intros Hne.
  assert (He : String.eqb (exam_type profile) "JEE" = false).
  { apply String.eqb_neq. exact Hne. }
  assert (Hbase : dict_keys (base_allocation (exam_type profile))
                  = ["Physics"; "Chemistry"; "Biology"]).
  { unfold base_allocation. rewrite He. reflexivity. }
  split; [|split].
  - unfold create_roadmap_strategy, base_allocation. simpl.
    rewrite He. reflexivity.
  - intros Hy.
    destruct (create_roadmap_strategy_ok env profile prog subs Hy)
      as (strat & Hs & _).
    exists strat. split; [exact Hs|].
    rewrite <- Hbase. eapply allocation_subjects. exact Hs.
  - intros st uid week_offset Hprof Hy Hsubs.
    destruct (generate_weekly_roadmap_ok env st uid week_offset profile Hprof Hy Hsubs)
      as (rid & week_number & year & plan & strat & st' & Hgen & Hs).
    exists rid, week_number, year, plan, strat, st'.
    split; [exact Hgen|].
    rewrite <- Hbase. eapply allocation_subjects. exact Hs.
Qed.

Lemma unknown_track_as_neet_witness :
  create_roadmap_strategy sample_env (with_exam_type sample_jee_profile "GATE") []
    seed_subjects
  = create_roadmap_strategy sample_env (with_exam_type sample_jee_profile "NEET") []
      seed_subjects.
Proof.
  apply (unknown_track_as_neet sample_env (with_exam_type sample_jee_profile "GATE")).
  simpl. discriminate.
Defined.

(** * Further properties *)

(** ** The ranking of the subjects *)

Lemma leb_total (x y : float) : leb x y = true \/ leb y x = true.
Proof.
  destruct (Qlt_le_dec y x) as [H | H].
  - right. apply leb_iff. now apply Qlt_le_weak.
  - left. now apply leb_iff.
Qed.

Lemma leb_trans (x y z : float) :
  leb x y = true -> leb y z = true -> leb x z = true.
Proof. rewrite !leb_iff. apply Qle_trans. Qed.

Lemma subject_performance_keys (prog : list progress) (subs : list subject_row) :
  NoDup (dict_keys (subject_performance_of prog subs)) /\
  forall name,
    In name (dict_keys (subject_performance_of prog subs)) <-> In name (map s_name subs).
Proof.
  unfold subject_performance_of.
  set (step := fun perf s => _).
  assert (Hstep : forall d s, exists v, step d s = dict_set d (s_name s) v).
  { intros d s. unfold step. destruct (filter _ prog); eauto. }
  assert (Hgen : forall l d,
             NoDup (dict_keys d) ->
             NoDup (dict_keys (fold_left step l d)) /\
             forall name, In name (dict_keys (fold_left step l d))
                          <-> In name (dict_keys d) \/ In name (map s_name l)).
  { induction l as [|s l IH]; intros d Hd; simpl.
    - split; [exact Hd | intuition].
    - destruct (Hstep d s) as (v & ->).
      destruct (IH (dict_set d (s_name s) v)) as [Hn Hk].
      { now apply dict_set_nodup. }
      split; [exact Hn|]. intros name. rewrite Hk, dict_set_keys. intuition. }
  destruct (Hgen subs []) as [Hn Hk]; [constructor|].
  split; [exact Hn|]. intros name. rewrite Hk. simpl. intuition.
Qed.

(** X1 (ranking): the priority list of a strategy holds every subject name of
    the catalogue list once, ordered by increasing performance: it is the
    list of names of a rearrangement of [subject_performance] in which no
    entry is followed by one of lower performance. *)
Theorem priority_subjects_weakest_first (env : Env) (profile : user_profile)
    (prog : list progress) (subs : list subject_row) (strat : strategy) :
  create_roadmap_strategy env profile prog subs = Ok strat ->
  NoDup (priority_subjects strat) /\
  (forall name, In name (priority_subjects strat) <-> In name (map s_name subs)) /\
  exists ranked,
    priority_subjects strat = map fst ranked /\
    Permutation ranked (subject_performance strat) /\
    StronglySorted (fun a b => (snd a <= snd b)%Q) ranked.
Proof.
  intros H. apply create_roadmap_strategy_inv in H as (_ & Hperf & Hprio).
  destruct (subject_performance_keys prog subs) as [Hn Hk].
  set (le := fun a b : string * float => leb (snd a) (snd b)).
  assert (Hperm : Permutation (stable_sort le (subject_performance_of prog subs))
                              (subject_performance_of prog subs))
    by apply stable_sort_perm.
  assert (Hkeys : Permutation (priority_subjects strat)
                              (dict_keys (subject_performance_of prog subs))).
  { rewrite Hprio. unfold get_priority_subjects, dict_keys.
    apply Permutation_map. exact Hperm. }
  split; [|split].
  - eapply Permutation_NoDup; [apply Permutation_sym, Hkeys | exact Hn].
  - intros name. rewrite <- Hk. split; apply Permutation_in;
      [exact Hkeys | apply Permutation_sym, Hkeys].
  - exists (stable_sort le (subject_performance_of prog subs)).
    split; [exact Hprio|]. split; [now rewrite Hperf|].
    assert (Hs := stable_sort_sorted _ le
                    (fun a b => leb_total (snd a) (snd b))
                    (fun a b c => leb_trans (snd a) (snd b) (snd c))
                    (subject_performance_of prog subs)).
    eapply StronglySorted_ind with (P := StronglySorted _); [| |exact Hs].
    + constructor.
    + intros a l _ IH Ha. constructor; [exact IH|].
      eapply Forall_impl; [|exact Ha]. intros b Hb. now apply leb_iff.
Qed.

Lemma priority_subjects_weakest_first_witness :
  exists strat,
    create_roadmap_strategy sample_env sample_jee_profile sample_progress_after
      (get_subjects_for_exam sample_store "JEE") = Ok strat /\
    NoDup (priority_subjects strat) /\
    priority_subjects strat = ["Physics"; "Chemistry"; "Mathematics"].
Proof.
  destruct (create_roadmap_strategy sample_env sample_jee_profile
              sample_progress_after (get_subjects_for_exam sample_store "JEE"))
    as [strat|e] eqn:E; [|vm_compute in E; discriminate].
  exists strat. split; [reflexivity|].
  split; [exact (proj1 (priority_subjects_weakest_first _ _ _ _ _ E))|].
  vm_compute in E. injection E as <-. reflexivity.
Defined.

(** ** The selection of topics *)

(** X2: [select_topics_for_day] returns no topic only for an
    empty topic list; otherwise it returns the (up to three) best ranked of
    the topics that suit the phase, or of all topics when none suits it:
    every selected topic ranks (importance, then difficulty) at least as
    high as every candidate left out, and the selection itself is in
    decreasing rank order. *)
Theorem select_topics_top_three (st : Store) (tops : list topic_row) (uid ph : string) :
  let sel := fst (select_topics_for_day st tops uid ph) in
  let cands := candidates st tops uid ph in
  (sel = [] <-> tops = []) /\
  List.length sel = Nat.min 3 (List.length cands) /\
  incl cands tops /\
  ((exists t, In t tops /\ suits_phase ph (topic_mastery st uid t) = true) ->
   forall c, In c cands -> suits_phase ph (topic_mastery st uid c) = true) /\
  exists rest,
    Permutation (sel ++ rest) cands /\
    StronglySorted (fun a b => topic_rank_ge a b = true) (sel ++ rest).
Proof.
  intros sel cands.
  destruct (candidates_spec st tops uid ph) as (Hincl & Hnil & Hsuit).
  destruct tops as [|t tops].
  - subst sel cands. simpl.
    split; [tauto|]. split; [reflexivity|].
    split; [apply incl_refl|].
    split; [intros (t & [] & _)|].
    exists []. split; constructor.
  - assert (Hsel : sel = firstn 3 (stable_sort topic_rank_ge cands)).
    { subst sel cands. rewrite select_topics_for_day_eq by discriminate. reflexivity. }
    assert (Hperm := stable_sort_perm _ topic_rank_ge cands).
    assert (Hlen : List.length sel = Nat.min 3 (List.length cands)).
    { rewrite Hsel, length_firstn. f_equal. now apply Permutation_length. }
    split; [|split; [exact Hlen | split; [exact Hincl | split; [exact Hsuit|]]]].
    + split; [|discriminate]. intros He. exfalso.
      rewrite He in Hlen. simpl in Hlen.
      destruct cands as [|c cs] eqn:Ec; [|destruct cs as [|? [|? ?]]; discriminate].
      fold cands in Hnil. rewrite Ec in Hnil.
      destruct Hnil as [Hnil _]. specialize (Hnil eq_refl). discriminate.
    + exists (skipn 3 (stable_sort topic_rank_ge cands)).
      rewrite Hsel, firstn_skipn. split; [exact Hperm|].
      apply stable_sort_sorted;
        [apply topic_rank_ge_total | apply topic_rank_ge_trans].
Qed.

(** X3: when no topic suits the phase, [select_topics_for_day]
    sorts the caller's list in place.  The list keeps the same topics, and
    selecting again from the list as the call left it returns the same
    selection and leaves the list as it is: the mutation never changes
    what a later day selects. *)
Theorem select_topics_in_place_sort (st : Store) (tops : list topic_row)
    (uid ph : string) :
  let sel := fst (select_topics_for_day st tops uid ph) in
  let tops' := snd (select_topics_for_day st tops uid ph) in
  Permutation tops' tops /\
  select_topics_for_day st tops' uid ph = (sel, tops').
Proof.
  intros sel tops'.
  destruct tops as [|t tops]; [subst sel tops'; simpl; split; [constructor | reflexivity]|].
  subst sel tops'.
  rewrite (select_topics_for_day_eq st (t :: tops)) by discriminate.
  cbn [fst snd]. unfold candidates.
  set (f := fun t0 => suits_phase ph (topic_mastery st uid t0)).
  destruct (filter f (t :: tops)) as [|c cs] eqn:E.
  - split; [apply stable_sort_perm|].
    assert (Hne : stable_sort topic_rank_ge (t :: tops) <> []).
    { intros He. pose proof (stable_sort_perm _ topic_rank_ge (t :: tops)) as Hp.
      rewrite He in Hp. apply Permutation_nil in Hp. discriminate. }
    rewrite select_topics_for_day_eq by exact Hne.
    unfold candidates. fold f.
    rewrite (filter_stable_sort _ topic_rank_ge topic_rank_ge_total topic_rank_ge_trans).
    rewrite E. change (stable_sort topic_rank_ge []) with (@nil topic_row).
    cbv iota.
    rewrite (stable_sort_of_sorted _ topic_rank_ge
               (stable_sort topic_rank_ge (t :: tops)))
      by (apply stable_sort_sorted;
          [apply topic_rank_ge_total | apply topic_rank_ge_trans]).
    reflexivity.
  - split; [apply Permutation_refl|].
    rewrite select_topics_for_day_eq by discriminate.
    unfold candidates. fold f. rewrite E. reflexivity.
Qed.

(** ** The progress store *)

Lemma find_app (A : Type) (f : A -> bool) (l1 l2 : list A) :
  find f (l1 ++ l2) = match find f l1 with
                      | Some x => Some x
                      | None => find f l2
                      end.
Proof.
  induction l1 as [|x l1 IH]; simpl; [reflexivity|].
  destruct (f x); [reflexivity | exact IH].
Qed.

Lemma find_filter_keep (A : Type) (f g : A -> bool) (l : list A) :
  (forall x, In x l -> f x = true -> g x = true) ->
  find f (filter g l) = find f l.
Proof.
  induction l as [|x l IH]; simpl; intros H; [reflexivity|].
  assert (IH' : find f (filter g l) = find f l).
  { apply IH. intros y Hy. apply H. now right. }
  destruct (g x) eqn:Eg; simpl.
  - now rewrite IH'.
  - destruct (f x) eqn:Ef; [|exact IH'].
    rewrite (H x (or_introl eq_refl) Ef) in Eg. discriminate.
Qed.

Lemma find_filter_drop (A : Type) (f g : A -> bool) (l : list A) :
  (forall x, In x l -> f x = true -> g x = false) ->
  find f (filter g l) = None.
Proof.
  induction l as [|x l IH]; simpl; intros H; [reflexivity|].
  assert (IH' : find f (filter g l) = None).
  { apply IH. intros y Hy. apply H. now right. }
  destruct (g x) eqn:Eg; simpl; [|exact IH'].
  destruct (f x) eqn:Ef; [|exact IH'].
  rewrite (H x (or_introl eq_refl) Ef) in Eg. discriminate.
Qed.

Lemma filter_filter_none (A : Type) (f g : A -> bool) (l : list A) :
  (forall x, f x = true -> g x = false) ->
  filter f (filter g l) = [].
Proof.
  intros H. induction l as [|x l IH]; simpl; [reflexivity|].
  destruct (g x) eqn:Eg; simpl; [|exact IH].
  destruct (f x) eqn:Ef; [|exact IH].
  rewrite (H x Ef) in Eg. discriminate.
Qed.

Lemma same_pair_iff (uid tid : string) (p : progress_row) :
  same_pair uid tid p = true <-> pr_user_id p = uid /\ pr_topic_id p = tid.
Proof.
  unfold same_pair. now rewrite andb_true_iff, !String.eqb_eq.
Qed.

Lemma update_progress_rows (env : Env) (st : Store) (uid tid : string) (m : float)
    (time_spent attempts correct : Z) :
  exists row,
    user_progress (update_progress env st uid tid m time_spent attempts correct)
    = filter (fun p => negb (String.eqb (pr_id p) (progress_id uid tid)
                             || same_pair uid tid p))
             (user_progress st) ++ [row] /\
    pr_id row = progress_id uid tid /\
    pr_user_id row = uid /\ pr_topic_id row = tid /\
    pr_mastery_level row = m /\ pr_time_spent row = time_spent /\
    pr_attempts row = attempts /\ pr_correct_answers row = correct /\
    pr_last_studied row = now_stamp env /\
    pr_status row = progress_status m attempts.
Proof. eexists. split; [reflexivity|]. repeat split. Qed.

(** X4: [update_progress] overwrites: afterwards the pair has exactly
    one row, which holds the values of this call (mastery level, time
    spent, attempts, correct answers), whatever was stored before; nothing
    is accumulated. *)
Theorem update_progress_last_write_wins (env : Env) (st : Store) (uid tid : string)
    (m : float) (time_spent attempts correct : Z) :
  let st' := update_progress env st uid tid m time_spent attempts correct in
  exists row,
    filter (same_pair uid tid) (user_progress st') = [row] /\
    stored_progress st' uid tid = Some row /\
    pr_mastery_level row = m /\
    pr_time_spent row = time_spent /\
    pr_attempts row = attempts /\
    pr_correct_answers row = correct /\
    pr_last_studied row = now_stamp env.
Proof.
  intros st'.
  destruct (update_progress_rows env st uid tid m time_spent attempts correct)
    as (row & Hrows & Hid & Hu & Ht & Hm & Hts & Ha & Hc & Hl & _).
  fold st' in Hrows.
  assert (Hrow : same_pair uid tid row = true) by (apply same_pair_iff; auto).
  exists row. split; [|split; [|auto 10]].
  - rewrite Hrows, filter_app. simpl. rewrite Hrow.
    rewrite filter_filter_none; [reflexivity|].
    intros p Hp. rewrite Hp, orb_true_r. reflexivity.
  - unfold stored_progress. fold (same_pair uid tid). rewrite Hrows, find_app.
    rewrite find_filter_drop; [simpl; now rewrite Hrow|].
    intros p _ Hp. rewrite Hp, orb_true_r. reflexivity.
Qed.

Lemma update_progress_well_keyed (env : Env) (st : Store) (uid tid : string)
    (m : float) (time_spent attempts correct : Z) :
  well_keyed st ->
  well_keyed (update_progress env st uid tid m time_spent attempts correct).
Proof.
  intros Hk p Hp.
  destruct (update_progress_rows env st uid tid m time_spent attempts correct)
    as (row & Hrows & Hid & Hu & Ht & _).
  rewrite Hrows in Hp. apply in_app_or in Hp as [Hp | [<- | []]].
  - apply filter_In in Hp as [Hp _]. now apply Hk.
  - now rewrite Hid, Hu, Ht.
Qed.

(** X5: in a database whose progress rows carry the identifier
    [<user>_<topic>] of their pair, [update_progress] for one pair leaves
    the row of every other pair as it is, unless the other pair has the
    same identifier (as ("a_b", "c") and ("a", "b_c") have): the row of
    such a pair is deleted by the [INSERT OR REPLACE].  The rows keep
    carrying the identifier of their pair. *)
Theorem update_progress_other_pairs (env : Env) (st : Store) (uid tid : string)
    (m : float) (time_spent attempts correct : Z) (uid' tid' : string) :
  well_keyed st ->
  (uid', tid') <> (uid, tid) ->
  let st' := update_progress env st uid tid m time_spent attempts correct in
  well_keyed st' /\
  (progress_id uid' tid' <> progress_id uid tid ->
   stored_progress st' uid' tid' = stored_progress st uid' tid') /\
  (progress_id uid' tid' = progress_id uid tid ->
   stored_progress st' uid' tid' = None).
Proof.
  intros Hk Hne st'.
  split; [now apply update_progress_well_keyed|].
  destruct (update_progress_rows env st uid tid m time_spent attempts correct)
    as (row & Hrows & Hid & Hu & Ht & _).
  fold st' in Hrows.
  assert (Hrow : same_pair uid' tid' row = false).
  { destruct (same_pair uid' tid' row) eqn:E; [|reflexivity].
    apply same_pair_iff in E as [E1 E2]. exfalso. apply Hne. congruence. }
  assert (Hpair : forall p, same_pair uid' tid' p = true -> same_pair uid tid p = false).
  { intros p Hp. apply same_pair_iff in Hp as [E1 E2].
    destruct (same_pair uid tid p) eqn:E; [|reflexivity].
    apply same_pair_iff in E as [E3 E4]. exfalso. apply Hne. congruence. }
  unfold stored_progress. fold (same_pair uid' tid'). rewrite Hrows, find_app.
  split; intros Hids.
  - rewrite find_filter_keep.
    + destruct (find _ (user_progress st)); [reflexivity|]. simpl. now rewrite Hrow.
    + intros p Hin Hp. rewrite (Hpair p Hp), orb_false_r.
      apply negb_true_iff, String.eqb_neq.
      rewrite (Hk p Hin). apply same_pair_iff in Hp as [-> ->]. exact Hids.
  - rewrite find_filter_drop; [simpl; now rewrite Hrow|].
    intros p Hin Hp. apply negb_false_iff, orb_true_iff. left.
    apply String.eqb_eq. rewrite (Hk p Hin).
    apply same_pair_iff in Hp as [-> ->]. exact Hids.
Qed.

Lemma update_progress_other_pairs_witness :
  let st1 := update_progress sample_env sample_store "a_b" "c" (lit 5 10) 10 1 1 in
  let st2 := update_progress sample_env st1 "a" "b_c" (lit 9 10) 20 2 2 in
  let st3 := update_progress sample_env st1 "a" "c" (lit 9 10) 20 2 2 in
  option_map pr_mastery_level (stored_progress st1 "a_b" "c") = Some (lit 5 10) /\
  stored_progress st2 "a_b" "c" = None /\
  stored_progress st3 "a_b" "c" = stored_progress st1 "a_b" "c".
Proof.
  intros st1 st2 st3.
  assert (Hk : well_keyed st1).
  { apply update_progress_well_keyed. intros p []. }
  split; [reflexivity|]. split.
  - apply (update_progress_other_pairs sample_env st1 "a" "b_c" (lit 9 10) 20 2 2
             "a_b" "c" Hk); [discriminate | reflexivity].
  - apply (update_progress_other_pairs sample_env st1 "a" "c" (lit 9 10) 20 2 2
             "a_b" "c" Hk); discriminate.
Defined.

(** ** Invariants of the database *)

(** X6: in every database produced by the writers from
    one without progress, a user has at most one progress row per topic,
    and the status of every row is the one that the rule of
    [update_progress] gives for the mastery level and the attempts stored
    in that row. *)
Theorem progress_rows_consistent (st : Store) :
  history st ->
  well_keyed st /\
  NoDup (map (fun p => (pr_user_id p, pr_topic_id p)) (user_progress st)) /\
  forall p, In p (user_progress st) ->
            pr_status p = progress_status (pr_mastery_level p) (pr_attempts p).
Proof.
  induction 1 as [st H0 _ _ | env st name exam year _ IH
                 | env st uid tid m ts at_ co _ IH
                 | env st uid off _ IH | st item_id status _ IH].
  - unfold well_keyed. rewrite H0.
    split; [intros p []|]. split; [constructor | intros p []].
  - assert (E : user_progress (db_after st (create_user env st name exam year))
                = user_progress st).
    { unfold create_user, db_after.
      destruct (existsb _ (users st)); [reflexivity|].
      destruct (existsb _ (user_profiles st)); reflexivity. }
    unfold well_keyed. rewrite E. exact IH.
  - destruct IH as (Hk & Hn & Hs).
    split; [now apply update_progress_well_keyed|].
    destruct (update_progress_rows env st uid tid m ts at_ co)
      as (row & Hrows & Hid & Hu & Ht & Hm & _ & Ha & _ & _ & Hst).
    rewrite Hrows. split.
    + rewrite map_app. simpl. rewrite Hu, Ht.
      apply NoDup_app; [|constructor; [intros []|constructor]|].
      * clear - Hn. induction (user_progress st) as [|p l IH]; simpl; [constructor|].
        inversion Hn as [|? ? Hnot Hn']; subst.
        destruct (negb _); simpl; [|now apply IH].
        constructor; [|now apply IH].
        intros Hin. apply Hnot. apply in_map_iff in Hin as (q & Hq & Hin).
        apply filter_In in Hin as [Hin _]. apply in_map_iff. eauto.
      * intros a Hin [<- | []]. apply in_map_iff in Hin as (q & Hq & Hin).
        apply filter_In in Hin as [_ Hin]. injection Hq as Hq1 Hq2.
        assert (same_pair uid tid q = true) by (apply same_pair_iff; auto).
        rewrite H, orb_true_r in Hin. discriminate.
    + intros p Hp. apply in_app_or in Hp as [Hp | [<- | []]].
      * apply filter_In in Hp as [Hp _]. now apply Hs.
      * now rewrite Hst, Hm, Ha.
  - assert (E : user_progress (store_after st (generate_weekly_roadmap env st uid off))
                = user_progress st).
    { destruct (generate_weekly_roadmap env st uid off) as [[reply st']|e] eqn:Eg;
        [|reflexivity].
      simpl. unfold generate_weekly_roadmap in Eg.
      destruct (get_user_profile st uid) as [profile|].
      - destruct (week_of env off) as [w y].
        apply bind_ok in Eg as (strat & _ & Eg).
        apply bind_ok in Eg as (plan & _ & Eg).
        apply bind_ok in Eg as ([rid st1] & Hsave & Eg).
        injection Eg as _ <-. unfold save_roadmap in Hsave.
        apply bind_ok in Hsave as (acc & _ & Hsave).
        injection Hsave as _ <-. reflexivity.
      - injection Eg as _ <-. reflexivity. }
    unfold well_keyed. rewrite E. exact IH.
  - exact IH.
Qed.

Lemma progress_rows_consistent_witness :
  NoDup (map (fun p => (pr_user_id p, pr_topic_id p))
             (user_progress sample_store_uneven)) /\
  List.length (user_progress sample_store_uneven) = 3%nat.
Proof.
  split; [|reflexivity].
  apply (progress_rows_consistent sample_store_uneven).
  unfold sample_store_uneven.
  do 3 apply history_update_progress.
  apply history_start; reflexivity.
Defined.

(** ** What a generation writes *)

Lemma save_activities_fields (env : Env) (rid : string) (day : Z)
    (acts : list activity) :
  forall acc acc',
    save_activities env rid day acts acc = Ok acc' ->
    exists new,
      snd acc' = snd acc ++ new /\
      List.length new = List.length (filter has_topic_id acts) /\
      forall i, In i new ->
        ri_roadmap_id i = rid /\ ri_day_of_week i = day /\ ri_status i = "pending" /\
        exists a prio,
          In a acts /\ a_topic_id a = Some (ri_topic_id i) /\ ri_topic_id i <> "" /\
          a_priority a = Some prio /\ ri_priority i = priority_number prio /\
          ri_study_hours i = a_duration a.
Proof.
  induction acts as [|a acts IH]; intros acc acc' H; simpl in H.
  - injection H as <-. exists []. split; [now rewrite app_nil_r|].
    split; [reflexivity | intros i []].
  - simpl. destruct (has_topic_id a) eqn:Ht.
    + unfold has_topic_id in Ht.
      destruct (a_topic_id a) as [tid|] eqn:Etid; [|discriminate].
      destruct (a_priority a) as [prio|] eqn:Eprio; [|discriminate].
      apply IH in H as (new & Hnew & Hlen & Hall). simpl in Hnew.
      eexists (_ :: new). split; [rewrite Hnew, <- app_assoc; reflexivity|].
      split; [simpl; now rewrite Hlen|].
      intros i [<- | Hi].
      * simpl. repeat split. exists a, prio. repeat split; auto.
        apply negb_true_iff, String.eqb_neq in Ht. exact Ht.
      * destruct (Hall i Hi) as (H1 & H2 & H3 & a' & prio' & Ha' & Hrest).
        repeat split; auto. exists a', prio'. split; [now right | exact Hrest].
    + apply IH in H as (new & Hnew & Hlen & Hall).
      exists new. split; [exact Hnew|]. split; [exact Hlen|].
      intros i Hi.
      destruct (Hall i Hi) as (H1 & H2 & H3 & a' & prio' & Ha' & Hrest).
      repeat split; auto. exists a', prio'. split; [now right | exact Hrest].
Qed.

Lemma save_days_fields (env : Env) (rid : string) (plan : dict day_plan) :
  forall acc acc',
    save_days env rid plan acc = Ok acc' ->
    exists new,
      snd acc' = snd acc ++ new /\
      List.length new
      = List.length (filter has_topic_id (flat_map (fun kv => dp_activities (snd kv)) plan)) /\
      forall i, In i new ->
        ri_roadmap_id i = rid /\ ri_status i = "pending" /\
        exists name dp a prio,
          In (name, dp) plan /\ In a (dp_activities dp) /\
          ri_day_of_week i = dp_day dp /\
          a_topic_id a = Some (ri_topic_id i) /\ ri_topic_id i <> "" /\
          a_priority a = Some prio /\ ri_priority i = priority_number prio /\
          ri_study_hours i = a_duration a.
Proof.
  induction plan as [|[name dp] plan IH]; intros acc acc' H; simpl in H.
  - injection H as <-. exists []. split; [now rewrite app_nil_r|].
    split; [reflexivity | intros i []].
  - apply bind_ok in H as (acc1 & H1 & H).
    apply save_activities_fields in H1 as (new1 & Hnew1 & Hlen1 & Hall1).
    apply IH in H as (new2 & Hnew2 & Hlen2 & Hall2).
    exists (new1 ++ new2). split; [rewrite Hnew2, Hnew1, <- app_assoc; reflexivity|].
    split.
    + simpl. rewrite filter_app, !length_app, Hlen1, Hlen2. reflexivity.
    + intros i Hi. apply in_app_or in Hi as [Hi | Hi].
      * destruct (Hall1 i Hi) as (R & D & S & a & prio & Ha & Hrest).
        split; [exact R|]. split; [exact S|].
        exists name, dp, a, prio. split; [now left|]. split; [exact Ha|].
        split; [exact D | exact Hrest].
      * destruct (Hall2 i Hi) as (R & S & name' & dp' & a & prio & Hin & Hrest).
        split; [exact R|]. split; [exact S|].
        exists name', dp', a, prio. split; [now right | exact Hrest].
Qed.

Lemma regular_shape_topics (strat : strategy) (profile : user_profile) (day : Z)
    (dp : day_plan) :
  regular_shape strat profile day dp ->
  (List.length (filter has_topic_id (dp_activities dp)) <= 2)%nat /\
  forall a, In a (dp_activities dp) -> a_topic_id a <> None ->
    (a_type a = "concept_study" /\ a_priority a = Some "high" /\
     a_duration a = primary_hours (study_hours_per_day profile)) \/
    (a_type a = "practice" /\ a_priority a = Some "medium" /\
     a_duration a = secondary_hours (study_hours_per_day profile)).
Proof.
  intros (_ & _ & prim & sec & Hacts & Hprim & Hsec). rewrite Hacts. split.
  - rewrite !filter_app, !length_app. simpl.
    destruct Hprim as [-> | (t & ->)]; destruct Hsec as [-> | (t' & ->)]; simpl;
      repeat match goal with
             | |- context [if ?b then _ else _] => destruct b
             end; simpl; lia.
  - intros a Ha Ht.
    apply in_app_or in Ha as [Ha | Ha]; [|apply in_app_or in Ha as [Ha | Ha]].
    + destruct Hprim as [-> | (t & ->)]; [destruct Ha|].
      destruct Ha as [<- | []]. left. auto.
    + destruct Hsec as [-> | (t & ->)]; [destruct Ha|].
      destruct Ha as [<- | []]. right. auto.
    + destruct Ha as [<- | []]. exfalso. now apply Ht.
Qed.

Lemma generated_plan_topic_activities (st : Store) (strat : strategy)
    (profile : user_profile) (plan : dict day_plan) :
  generate_weekly_plan st strat profile = Ok plan ->
  (List.length (filter has_topic_id (flat_map (fun kv => dp_activities (snd kv)) plan))
   <= 12)%nat /\
  forall name dp a,
    In (name, dp) plan -> In a (dp_activities dp) -> a_topic_id a <> None ->
    1 <= dp_day dp <= 6 /\
    ((a_type a = "concept_study" /\ a_priority a = Some "high" /\
      a_duration a = primary_hours (study_hours_per_day profile)) \/
     (a_type a = "practice" /\ a_priority a = Some "medium" /\
      a_duration a = secondary_hours (study_hours_per_day profile))).
Proof.
  intros H.
  apply generate_weekly_plan_inv in H
    as (d1 & d2 & d3 & d4 & d5 & d6 & -> & S1 & S2 & S3 & S4 & S5 & S6).
  pose proof (regular_shape_topics _ _ _ _ S1) as [L1 T1].
  pose proof (regular_shape_topics _ _ _ _ S2) as [L2 T2].
  pose proof (regular_shape_topics _ _ _ _ S3) as [L3 T3].
  pose proof (regular_shape_topics _ _ _ _ S4) as [L4 T4].
  pose proof (regular_shape_topics _ _ _ _ S5) as [L5 T5].
  pose proof (regular_shape_topics _ _ _ _ S6) as [L6 T6].
  destruct S1 as [D1 _], S2 as [D2 _], S3 as [D3 _],
           S4 as [D4 _], S5 as [D5 _], S6 as [D6 _].
  split.
  - cbn [flat_map snd]. rewrite !filter_app, !length_app. simpl. lia.
  - intros name dp a Hin Ha Ht. simpl in Hin.
    destruct Hin as [E | [E | [E | [E | [E | [E | [E | []]]]]]]];
      injection E as <- <-;
      try (split; [lia | auto]).
    simpl in Ha. destruct Ha as [<- | [<- | []]]; exfalso; now apply Ht.
Qed.

(** Everything [generate_weekly_roadmap] does to the database. *)
Lemma generate_weekly_roadmap_writes (env : Env) (st st' : Store) (uid : string)
    (week_offset : Z) (reply : roadmap_reply) :
  generate_weekly_roadmap env st uid week_offset = Ok (reply, st') ->
  (get_user_profile st uid = None /\ reply = ErrorReply "User not found" /\ st' = st) \/
  exists profile plan strat new,
    get_user_profile st uid = Some profile /\
    reply = RoadmapReply (uuid4 env 0%nat) (fst (week_of env week_offset))
              (snd (week_of env week_offset)) (exam_type profile)
              (study_hours_per_day profile) plan strat /\
    st' = with_roadmaps st
            (roadmaps st ++
             [{| r_id := uuid4 env 0%nat; r_user_id := uid;
                 r_week_number := fst (week_of env week_offset);
                 r_year := snd (week_of env week_offset);
                 r_status := "active";
                 r_created_at := now_stamp env; r_updated_at := now_stamp env |}])
            (roadmap_items st ++ new) /\
    (List.length new <= 12)%nat /\
    forall i, In i new ->
      ri_roadmap_id i = uuid4 env 0%nat /\ ri_status i = "pending" /\
      ri_topic_id i <> "" /\ 1 <= ri_day_of_week i <= 6 /\
      ((ri_priority i = 1 /\
        ri_study_hours i = primary_hours (study_hours_per_day profile)) \/
       (ri_priority i = 2 /\
        ri_study_hours i = secondary_hours (study_hours_per_day profile))).
Proof.
  unfold generate_weekly_roadmap.
  destruct (get_user_profile st uid) as [profile|].
  - destruct (week_of env week_offset) as [week_number year]. intros H. right.
    apply bind_ok in H as (strat & _ & H).
    apply bind_ok in H as (plan & Hplan & H).
    apply bind_ok in H as ([rid st1] & Hsave & H).
    injection H as <- <-.
    unfold save_roadmap in Hsave.
    apply bind_ok in Hsave as (acc & Hdays & Hsave).
    injection Hsave as <- <-.
    apply save_days_fields in Hdays as (new & Hnew & Hlen & Hall).
    apply generated_plan_topic_activities in Hplan as [Hcount Hacts].
    exists profile, plan, strat, new. simpl in Hnew. rewrite Hnew.
    split; [reflexivity|]. split; [reflexivity|]. split; [reflexivity|].
    split; [lia|].
    intros i Hi.
    destruct (Hall i Hi)
      as (R & S & name & dp & a & prio & Hin & Ha & D & T & Tne & P & Pn & Hh).
    destruct (Hacts name dp a Hin Ha) as (Hd & Hkind); [rewrite T; discriminate|].
    repeat (split; [assumption || lia|]).
    rewrite Pn, Hh.
    destruct Hkind as [(_ & Hp & Hdur) | (_ & Hp & Hdur)];
      rewrite Hp in P; injection P as <-; [left | right]; split; auto.
  - intros H. injection H as <- <-. left. auto.
Qed.

(** X7: a call of [generate_weekly_roadmap] that returns
    a roadmap appends one row to [roadmaps] (the returned identifier, the
    user, the week and year of the call, status ['active']) and at most
    twelve rows to [roadmap_items]; the rows already stored are kept as
    they are, also a roadmap of the same user and week.  Every new item
    refers to the new roadmap, is ['pending'], and has either priority 1
    with [int(0.7 * h)] hours or priority 2 with [int(0.2 * h)] hours, [h]
    being the daily hours of the profile: priority 3 is never stored. *)
Theorem generation_appends (env : Env) (st st' : Store) (uid : string)
    (week_offset : Z) (rid : string) (week_number year : Z) (exam : string)
    (hours : Z) (plan : dict day_plan) (strat : strategy) :
  generate_weekly_roadmap env st uid week_offset
  = Ok (RoadmapReply rid week_number year exam hours plan strat, st') ->
  exists r new,
    roadmaps st' = roadmaps st ++ [r] /\
    roadmap_items st' = roadmap_items st ++ new /\
    users st' = users st /\ user_profiles st' = user_profiles st /\
    user_progress st' = user_progress st /\
    r_id r = rid /\ r_user_id r = uid /\ r_status r = "active" /\
    (r_week_number r, r_year r) = week_of env week_offset /\
    (week_number, year) = week_of env week_offset /\
    (List.length new <= 12)%nat /\
    forall i, In i new ->
      ri_roadmap_id i = rid /\ ri_status i = "pending" /\
      ((ri_priority i = 1 /\ ri_study_hours i = primary_hours hours) \/
       (ri_priority i = 2 /\ ri_study_hours i = secondary_hours hours)).
Proof.
  intros H.
  apply generate_weekly_roadmap_writes in H
    as [(_ & H & _) | (profile & plan' & strat' & new & _ & Hr & -> & Hlen & Hall)];
    [discriminate|].
  injection Hr as -> -> -> _ -> _ _.
  eexists _, new. simpl.
  do 9 (split; [reflexivity || (destruct (week_of env week_offset); reflexivity)|]).
  split; [destruct (week_of env week_offset); reflexivity|].
  split; [exact Hlen|].
  intros i Hi. destruct (Hall i Hi) as (R & S & _ & _ & P). auto.
Qed.

Lemma generation_appends_witness :
  exists rid plan strat st',
    generate_weekly_roadmap sample_env sample_store "u1" 0
    = Ok (RoadmapReply rid 45 2026 "JEE" 4 plan strat, st') /\
    List.length (roadmaps st') = 1%nat /\
    Forall (fun i => (ri_priority i = 1 /\ ri_study_hours i = 2) \/
                     (ri_priority i = 2 /\ ri_study_hours i = 0))
           (roadmap_items st').
Proof.
  destruct (generate_weekly_roadmap sample_env sample_store "u1" 0)
    as [[reply st']|e] eqn:E; [|vm_compute in E; discriminate].
  pose proof E as V. vm_compute in V. injection V as <- Hst.
  eexists _, _, _, st'. split; [reflexivity|].
  destruct (generation_appends _ _ _ _ _ _ _ _ _ _ _ _ E)
    as (r & new & Hr & Hi & _ & _ & _ & _ & _ & _ & _ & _ & _ & Hall).
  split; [rewrite Hr; reflexivity|].
  rewrite Hi. simpl. apply Forall_forall. intros i Hin.
  destruct (Hall i Hin) as (_ & _ & P). exact P.
Defined.

(** X8: in every database produced by the writers from
    one without roadmaps, every roadmap item belongs to a stored roadmap,
    names a topic and has priority 1 or 2; and every roadmap is
    ['active'], with equal creation and update times: nothing in the code
    completes, skips or updates a roadmap. *)
Theorem roadmaps_stay_active (st : Store) :
  history st ->
  (forall r, In r (roadmaps st) ->
     r_status r = "active" /\ r_created_at r = r_updated_at r) /\
  (forall i, In i (roadmap_items st) ->
     (exists r, In r (roadmaps st) /\ r_id r = ri_roadmap_id i) /\
     (ri_priority i = 1 \/ ri_priority i = 2) /\
     ri_topic_id i <> "").
Proof.
  induction 1 as [st _ H1 H2 | env st name exam year _ IH
                 | env st uid tid m ts at_ co _ IH
                 | env st uid off _ IH | st item_id status _ IH].
  - rewrite H1, H2. split; intros ? [].
  - unfold create_user, db_after.
    destruct (existsb _ (users st)); [exact IH|].
    destruct (existsb _ (user_profiles st)); exact IH.
  - exact IH.
  - destruct (generate_weekly_roadmap env st uid off) as [[reply st']|e] eqn:E;
      [|exact IH].
    simpl. destruct IH as [IHr IHi].
    apply generate_weekly_roadmap_writes in E
      as [(_ & _ & ->) | (profile & plan & strat & new & _ & _ & -> & _ & Hall)];
      [split; assumption|].
    simpl. split.
    + intros r Hr. apply in_app_or in Hr as [Hr | [<- | []]]; [now apply IHr | auto].
    + intros i Hi. apply in_app_or in Hi as [Hi | Hi].
      * destruct (IHi i Hi) as ((r & Hr & Hid) & Hrest).
        split; [|exact Hrest]. exists r. split; [apply in_or_app; now left | exact Hid].
      * destruct (Hall i Hi) as (R & _ & T & _ & P).
        split; [|split; [tauto | exact T]].
        eexists. split; [apply in_or_app; right; left; reflexivity|].
        simpl. now rewrite R.
  - destruct IH as [IHr IHi]. simpl. split; [exact IHr|].
    intros i Hi. apply in_map_iff in Hi as (j & <- & Hj).
    destruct (IHi j Hj) as (Hr & Hp & Ht).
    destruct (String.eqb (ri_id j) item_id); simpl; auto.
Qed.

Lemma roadmaps_stay_active_witness :
  Forall (fun r => r_status r = "active")
         (roadmaps (store_after sample_store
                      (generate_weekly_roadmap sample_env sample_store "u1" 0))).
Proof.
  apply Forall_forall. intros r Hr.
  apply (roadmaps_stay_active
           (store_after sample_store
              (generate_weekly_roadmap sample_env sample_store "u1" 0))); [|exact Hr].
  apply history_generate. apply history_start; reflexivity.
Defined.

(** ** Reading a roadmap back *)

Lemma item_join_not_nil (st : Store) (r : roadmap_row) : item_join st r <> [].
Proof.
  unfold item_join, or_nulls. destruct (flat_map _ _); discriminate.
Qed.

Lemma topic_join_names (st : Store) (i : roadmap_item_row) (names : list sqlval) :
  In names (topic_join st i) ->
  names = [SNull; SNull] \/
  exists t, In t (topics st) /\ t_id t = ri_topic_id i /\
    (names = [SText (t_name t); SNull] \/
     exists s, In s (subjects st) /\ s_id s = t_subject_id t /\
               names = [SText (t_name t); SText (s_name s)]).
Proof.
  unfold topic_join, or_nulls.
  destruct (flat_map _ _) as [|n ns] eqn:E.
  - intros [<- | []]. now left.
  - rewrite <- E. intros Hin. right.
    apply in_flat_map in Hin as (t & Ht & Hin).
    apply filter_In in Ht as [Ht Hid]. apply String.eqb_eq in Hid.
    exists t. split; [exact Ht|]. split; [now symmetry|].
    unfold subject_join, or_nulls in Hin.
    destruct (map _ _) as [|m ms] eqn:Em.
    + destruct Hin as [<- | []]. now left.
    + rewrite <- Em in Hin. right.
      apply in_map_iff in Hin as (s & <- & Hs).
      apply filter_In in Hs as [Hs Hsid]. apply String.eqb_eq in Hsid.
      exists s. auto.
Qed.

Lemma roadmap_rows_in (st : Store) (uid : string) (week_number year : Z)
    (row : list sqlval) :
  In row (roadmap_rows st uid week_number year) ->
  exists r rest,
    In r (matching_roadmaps st uid week_number year) /\
    row = roadmap_columns r ++ rest /\
    (rest = repeat SNull 9 \/
     exists i names,
       In i (roadmap_items st) /\ ri_roadmap_id i = r_id r /\
       In names (topic_join st i) /\ rest = item_columns i ++ names).
Proof.
  unfold roadmap_rows. fold (matching_roadmaps st uid week_number year).
  intros Hin. apply in_flat_map in Hin as (r & Hr & Hrow).
  apply in_map_iff in Hrow as (rest & <- & Hrest).
  exists r, rest. split; [exact Hr|]. split; [reflexivity|].
  unfold item_join, or_nulls in Hrest.
  destruct (flat_map _ _) as [|x xs] eqn:E.
  - destruct Hrest as [<- | []]. now left.
  - rewrite <- E in Hrest. right.
    apply in_flat_map in Hrest as (i & Hi & Hrest).
    apply filter_In in Hi as [Hi Hid]. apply String.eqb_eq in Hid.
    apply in_map_iff in Hrest as (names & <- & Hnames).
    exists i, names. auto.
Qed.

Lemma roadmap_rows_nil (st : Store) (uid : string) (week_number year : Z) :
  roadmap_rows st uid week_number year = [] <->
  matching_roadmaps st uid week_number year = [].
Proof.
  unfold roadmap_rows. fold (matching_roadmaps st uid week_number year).
  destruct (matching_roadmaps st uid week_number year) as [|r rs]; simpl.
  - tauto.
  - split; [|discriminate]. intros H. apply app_eq_nil in H as [H _].
    apply map_eq_nil in H. now apply item_join_not_nil in H.
Qed.

Lemma roadmap_rows_first (st : Store) (uid : string) (week_number year : Z)
    (r : roadmap_row) (rs : list roadmap_row) :
  matching_roadmaps st uid week_number year = r :: rs ->
  exists rest rows,
    roadmap_rows st uid week_number year = (roadmap_columns r ++ rest) :: rows.
Proof.
  unfold roadmap_rows. fold (matching_roadmaps st uid week_number year).
  intros ->. simpl.
  destruct (item_join st r) as [|rest rests] eqn:E;
    [now apply item_join_not_nil in E|].
  simpl. eauto.
Qed.

(** X9: [get_roadmap] returns None exactly when the user has no
    roadmap for the week and year of the call.  Otherwise the header is
    that of the first such roadmap stored, and [items] holds one entry for
    every row of the join, so the items of all roadmaps of that week appear
    under the first roadmap's header. *)
Theorem get_roadmap_lookup (env : Env) (st : Store) (uid : string) (week_offset : Z) :
  let week_number := fst (week_of env week_offset) in
  let year := snd (week_of env week_offset) in
  (get_roadmap env st uid week_offset = None <->
   forall r, In r (roadmaps st) ->
             ~ (r_user_id r = uid /\ r_week_number r = week_number /\ r_year r = year)) /\
  (forall roadmap,
     get_roadmap env st uid week_offset = Some roadmap ->
     exists r rs,
       matching_roadmaps st uid week_number year = r :: rs /\
       rv_id roadmap = SText (r_id r) /\
       rv_user_id roadmap = SText uid /\
       rv_week_number roadmap = SInt week_number /\
       rv_year roadmap = SInt year /\
       rv_status roadmap = SText (r_status r) /\
       List.length (rv_items roadmap)
       = List.length (roadmap_rows st uid week_number year)).
Proof.
  intros week_number year. unfold get_roadmap.
  subst week_number year. destruct (week_of env week_offset) as [week_number year].
  cbn [fst snd].
  assert (Hmatch : forall r, In r (matching_roadmaps st uid week_number year) <->
                     In r (roadmaps st) /\
                     r_user_id r = uid /\ r_week_number r = week_number /\ r_year r = year).
  { intros r. unfold matching_roadmaps.
    rewrite filter_In, !andb_true_iff, String.eqb_eq, !Z.eqb_eq. tauto. }
  split.
  - destruct (roadmap_rows st uid week_number year) as [|first rows] eqn:E.
    + apply roadmap_rows_nil in E. split; [|reflexivity].
      intros _ r Hr Hm.
      assert (Hin : In r (matching_roadmaps st uid week_number year))
        by (apply Hmatch; auto).
      rewrite E in Hin. destruct Hin.
    + split; [discriminate|]. intros Hnone. exfalso.
      destruct (matching_roadmaps st uid week_number year) as [|r rs] eqn:Em.
      * apply roadmap_rows_nil in Em. congruence.
      * assert (Hin : In r (r :: rs)) by now left.
        apply Hmatch in Hin as [Hin Hm]. exact (Hnone r Hin Hm).
  - intros roadmap.
    destruct (matching_roadmaps st uid week_number year) as [|r rs] eqn:Em.
    + apply roadmap_rows_nil in Em. rewrite Em. discriminate.
    + destruct (roadmap_rows_first _ _ _ _ _ _ Em) as (rest & rows & Hrows).
      assert (Hlen : forall l,
                (forall row, In row l -> truthy (col row 6) = true) ->
                List.length (map item_of_row
                               (filter (fun result => truthy (col result 6)) l))
                = List.length l).
      { intros l Hl. rewrite length_map. f_equal.
        apply forallb_filter_id. apply forallb_forall. exact Hl. }
      assert (Htruthy : forall row, In row (roadmap_rows st uid week_number year) ->
                                    truthy (col row 6) = true).
      { intros row Hrow.
        apply roadmap_rows_in in Hrow as (r' & rest' & _ & -> & _). reflexivity. }
      rewrite Hrows in Htruthy |- *. intros H. injection H as <-.
      assert (Hin : In r (r :: rs)) by now left.
      apply Hmatch in Hin as (_ & Hu & Hw & Hy).
      exists r, rs. split; [reflexivity|].
      split; [reflexivity|]. split; [rewrite <- Hu; reflexivity|].
      split; [rewrite <- Hw; reflexivity|]. split; [rewrite <- Hy; reflexivity|].
      split; [reflexivity|].
      exact (Hlen ((roadmap_columns r ++ rest) :: rows) Htruthy).
Qed.

Lemma get_roadmap_eq (env : Env) (st : Store) (uid : string) (week_offset : Z) :
  get_roadmap env st uid week_offset
  = let rows := roadmap_rows st uid (fst (week_of env week_offset))
                             (snd (week_of env week_offset)) in
    match rows with
    | [] => None
    | first :: _ =>
        Some {| rv_id := col (firstn 6 first) 0;
                rv_user_id := col (firstn 6 first) 1;
                rv_week_number := col (firstn 6 first) 2;
                rv_year := col (firstn 6 first) 3;
                rv_status := col (firstn 6 first) 4;
                rv_items := map item_of_row rows |}
    end.
Proof.
  unfold get_roadmap. destruct (week_of env week_offset) as [week_number year].
  cbn [fst snd]. cbv zeta.
  assert (Htruthy : forall row, In row (roadmap_rows st uid week_number year) ->
                                truthy (col row 6) = true).
  { intros row Hrow.
    apply roadmap_rows_in in Hrow as (r' & rest' & _ & -> & _). reflexivity. }
  assert (Hall : forall l, (forall row, In row l -> truthy (col row 6) = true) ->
                           filter (fun result => truthy (col result 6)) l = l).
  { intros l Hl. apply forallb_filter_id. apply forallb_forall. exact Hl. }
  destruct (roadmap_rows st uid week_number year) as [|first rows] eqn:E;
    [reflexivity|].
  rewrite (Hall (first :: rows) Htruthy). reflexivity.
Qed.

Lemma get_roadmap_items (env : Env) (st : Store) (uid : string) (week_offset : Z)
    (roadmap : roadmap_view) :
  get_roadmap env st uid week_offset = Some roadmap ->
  rv_items roadmap <> [] /\
  forall item, In item (rv_items roadmap) ->
    exists row,
      In row (roadmap_rows st uid (fst (week_of env week_offset))
                                  (snd (week_of env week_offset))) /\
      item = item_of_row row.
Proof.
  rewrite get_roadmap_eq. cbv zeta.
  destruct (roadmap_rows st uid _ _) as [|first rows] eqn:E; [discriminate|].
  intros H. injection H as <-. cbn [rv_items].
  split; [discriminate|].
  intros item Hitem.
  apply (proj1 (in_map_iff item_of_row (first :: rows) item)) in Hitem
    as (row & <- & Hrow).
  eauto.
Qed.

(** X10: the rows that [get_roadmap] reads start with the
    seven columns of [roadmaps], and it takes the item fields from the
    positions 6, 8, 9, ...: every returned item has the roadmap's
    [updated_at] as ['id'], and, when it stems from a stored item, that
    item's roadmap id as ['topic_id'], its topic id as ['day_of_week'],
    its day as ['study_hours'], its hours as ['priority'], its priority as
    ['status'] and its status as ['topic_name'].  A roadmap without items
    still yields one item, whose other fields are all NULL; so the item
    list is never empty. *)
Theorem get_roadmap_item_fields (env : Env) (st : Store) (uid : string)
    (week_offset : Z) (roadmap : roadmap_view) :
  get_roadmap env st uid week_offset = Some roadmap ->
  rv_items roadmap <> [] /\
  forall item, In item (rv_items roadmap) ->
    exists r,
      In r (roadmaps st) /\ r_user_id r = uid /\
      iv_id item = STime (r_updated_at r) /\
      ((iv_topic_id item = SNull /\ iv_day_of_week item = SNull /\
        iv_study_hours item = SNull /\ iv_priority item = SNull /\
        iv_status item = SNull /\ iv_topic_name item = SNull /\
        iv_subject_name item = SNull) \/
       exists i,
         In i (roadmap_items st) /\ ri_roadmap_id i = r_id r /\
         iv_topic_id item = SText (ri_roadmap_id i) /\
         iv_day_of_week item = SText (ri_topic_id i) /\
         iv_study_hours item = SInt (ri_day_of_week i) /\
         iv_priority item = SInt (ri_study_hours i) /\
         iv_status item = SInt (ri_priority i) /\
         iv_topic_name item = SText (ri_status i) /\
         (iv_subject_name item = SNull \/
          exists t, In t (topics st) /\ t_id t = ri_topic_id i /\
                    iv_subject_name item = SText (t_name t))).
Proof.
  intros H. apply get_roadmap_items in H as [Hne Hitems].
  split; [exact Hne|]. intros item Hitem.
  destruct (Hitems item Hitem) as (row & Hrow & ->).
  apply roadmap_rows_in in Hrow as (r & rest & Hr & -> & Hrest).
  apply filter_In in Hr as [Hr Hm].
  apply andb_true_iff in Hm as [Hm _]. apply andb_true_iff in Hm as [Hm _].
  apply String.eqb_eq in Hm.
  exists r. split; [exact Hr|]. split; [exact Hm|]. split; [reflexivity|].
  destruct Hrest as [-> | (i & names & Hi & Hid & Hnames & ->)].
  - left. repeat split.
  - right. exists i. split; [exact Hi|]. split; [exact Hid|].
    do 6 (split; [reflexivity|]).
    apply topic_join_names in Hnames
      as [-> | (t & Ht & Htid & [-> | (s & _ & _ & ->)])].
    + now left.
    + right. exists t. auto.
    + right. exists t. auto.
Qed.

Lemma get_roadmap_item_fields_witness :
  exists roadmap,
    get_roadmap sample_env scenario_d_store "u1" 0 = Some roadmap /\
    rv_items roadmap <> [] /\
    map iv_study_hours (rv_items roadmap) = [SInt 1; SInt 2; SInt 3; SInt 4; SInt 5].
Proof.
  destruct (get_roadmap sample_env scenario_d_store "u1" 0) as [roadmap|] eqn:E;
    [|vm_compute in E; discriminate].
  exists roadmap. split; [reflexivity|].
  split; [exact (proj1 (get_roadmap_item_fields _ _ _ _ _ E))|].
  vm_compute in E. injection E as <-. reflexivity.
Defined.

(** ** The outcomes of a generation *)

Lemma valid_year_dec (y : Z) :
  (y <? 1) || (9999 <? y) = false <-> valid_year y.
Proof.
  unfold valid_year. rewrite orb_false_iff, !Z.ltb_ge. lia.
Qed.

Lemma generate_weekly_roadmap_invalid_year (env : Env) (st : Store) (uid : string)
    (week_offset : Z) (profile : user_profile) :
  get_user_profile st uid = Some profile ->
  ~ valid_year (target_year profile) ->
  generate_weekly_roadmap env st uid week_offset
  = Raise (if (target_year profile <? - 2147483648)
              || (2147483647 <? target_year profile)
           then OverflowError else ValueError).
Proof.
  intros Hp Hy. unfold generate_weekly_roadmap. rewrite Hp.
  destruct (week_of env week_offset) as [w y].
  unfold create_roadmap_strategy.
  destruct ((target_year profile <? - 2147483648)
            || (2147483647 <? target_year profile)); [reflexivity|].
  destruct ((target_year profile <? 1) || (9999 <? target_year profile)) eqn:E;
    [reflexivity|].
  apply valid_year_dec in E. contradiction.
Qed.

Lemma subject_performance_no_subject (prog : list progress) :
  subject_performance_of prog [] = [].
Proof. reflexivity. Qed.

Lemma generate_weekly_roadmap_no_subject (env : Env) (st : Store) (uid : string)
    (week_offset : Z) (profile : user_profile) :
  get_user_profile st uid = Some profile ->
  valid_year (target_year profile) ->
  get_subjects_for_exam st (exam_type profile) = [] ->
  generate_weekly_roadmap env st uid week_offset = Raise ZeroDivisionError.
Proof.
  intros Hp Hy Hs. unfold generate_weekly_roadmap. rewrite Hp.
  destruct (week_of env week_offset) as [w y].
  destruct (create_roadmap_strategy_ok env profile (get_user_progress st uid)
              (get_subjects_for_exam st (exam_type profile)) Hy)
    as (strat & Hstrat & _ & _ & Hprio).
  rewrite Hstrat. cbn [bind].
  rewrite generate_weekly_plan_no_subject; [reflexivity|].
  rewrite Hprio, Hs. reflexivity.
Qed.



(** Which exception the model raises does not depend on the clock or on
    the identifiers drawn. *)
Lemma generate_weekly_roadmap_raise_any_env (env env' : Env) (st : Store)
    (uid : string) (week_offset : Z) (e : exn) :
  generate_weekly_roadmap env st uid week_offset = Raise e ->
  generate_weekly_roadmap env' st uid week_offset = Raise e.
Proof.
  intros H.
  destruct (get_user_profile st uid) as [profile|] eqn:Hp.
  - destruct (Z_le_dec 1 (target_year profile)) as [H1|H1];
      [destruct (Z_le_dec (target_year profile) 9999) as [H2|H2]|].
    + assert (Hy : valid_year (target_year profile)) by (unfold valid_year; lia).
      destruct (get_subjects_for_exam st (exam_type profile)) as [|s l] eqn:Hs.
      * rewrite (generate_weekly_roadmap_no_subject env st uid week_offset profile)
          in H by assumption.
        rewrite <- H.
        now apply (generate_weekly_roadmap_no_subject env' st uid week_offset profile).
      * destruct (generate_weekly_roadmap_ok env st uid week_offset profile Hp Hy)
          as (rid & w & y & plan & strat & st' & Hok & _);
          [rewrite Hs; discriminate | congruence].
    + assert (Hy : ~ valid_year (target_year profile)) by (unfold valid_year; lia).
      rewrite (generate_weekly_roadmap_invalid_year env st uid week_offset profile)
        in H by assumption.
      rewrite <- H.
      now apply (generate_weekly_roadmap_invalid_year env' st uid week_offset profile).
    + assert (Hy : ~ valid_year (target_year profile)) by (unfold valid_year; lia).
      rewrite (generate_weekly_roadmap_invalid_year env st uid week_offset profile)
        in H by assumption.
      rewrite <- H.
      now apply (generate_weekly_roadmap_invalid_year env' st uid week_offset profile).
  - unfold generate_weekly_roadmap in H. rewrite Hp in H. discriminate.
Qed.

(** ** The route that returns or generates the roadmap *)

Lemma get_roadmap_same_week (env env' : Env) (st : Store) (uid : string)
    (week_offset : Z) :
  week_of env' week_offset = week_of env week_offset ->
  get_roadmap env' st uid week_offset = get_roadmap env st uid week_offset.
Proof. intros H. unfold get_roadmap. now rewrite H. Qed.

Lemma get_roadmap_none (env : Env) (st : Store) (uid : string) (week_offset : Z) :
  get_roadmap env st uid week_offset = None <->
  matching_roadmaps st uid (fst (week_of env week_offset))
                    (snd (week_of env week_offset)) = [].
Proof.
  rewrite get_roadmap_eq. cbv zeta. rewrite <- roadmap_rows_nil.
  destruct (roadmap_rows st uid _ _); split; congruence.
Qed.

Lemma get_roadmap_after_generation (env : Env) (st st' : Store) (uid : string)
    (week_offset : Z) (rid : string) (week_number year : Z) (exam : string)
    (hours : Z) (plan : dict day_plan) (strat : strategy) :
  generate_weekly_roadmap env st uid week_offset
  = Ok (RoadmapReply rid week_number year exam hours plan strat, st') ->
  get_roadmap env st' uid week_offset <> None.
Proof.
  intros H Hnone. apply get_roadmap_none in Hnone.
  apply generate_weekly_roadmap_writes in H
    as [(_ & H & _) | (profile & plan' & strat' & new & _ & _ & -> & _)];
    [discriminate|].
  unfold matching_roadmaps in Hnone. simpl in Hnone.
  rewrite filter_app in Hnone. apply app_eq_nil in Hnone as [_ Hnone].
  simpl in Hnone. rewrite String.eqb_refl, !Z.eqb_refl in Hnone. discriminate.
Qed.

(** X12: the route [GET /api/roadmap/{user_id}] generates at most
    once per user and stored week, a week being stored as its ISO week
    number with the calendar year of its date.  Whatever its first call
    did (returned the stored roadmap, generated one, returned the error
    value or failed), a second call for the same week offset at a time
    with the same week number and the same calendar year leaves the
    database as the first call left it; and after a call that generated a
    roadmap, the next call returns the stored one.  (Two days of one ISO
    week on either side of a new year differ in the calendar year: see
    [get_roadmap_endpoint_across_new_year].) *)
Theorem get_roadmap_endpoint_generates_once (env env' : Env) (st : Store)
    (uid : string) (week_offset : Z) :
  week_of env' week_offset = week_of env week_offset ->
  let st1 := store_after st (get_roadmap_endpoint env st uid week_offset) in
  store_after st1 (get_roadmap_endpoint env' st1 uid week_offset) = st1 /\
  (forall rid week_number year exam hours plan strat st2,
     get_roadmap_endpoint env st uid week_offset
     = Ok (Generated (RoadmapReply rid week_number year exam hours plan strat), st2) ->
     exists roadmap,
       get_roadmap_endpoint env' st2 uid week_offset = Ok (Existing roadmap, st2)).
Proof.
  intros Hweek st1.
  assert (Hstored : forall s roadmap,
            get_roadmap env s uid week_offset = Some roadmap ->
            get_roadmap_endpoint env' s uid week_offset = Ok (Existing roadmap, s)).
  { intros s roadmap Hs. unfold get_roadmap_endpoint.
    now rewrite (get_roadmap_same_week env env' s uid week_offset Hweek), Hs. }
  split.
  - subst st1.
    remember (get_roadmap_endpoint env st uid week_offset) as first eqn:Hfirst.
    unfold get_roadmap_endpoint in Hfirst.
    destruct (get_roadmap env st uid week_offset) as [roadmap|] eqn:Hget.
    + subst first. simpl. now rewrite (Hstored st roadmap Hget).
    + destruct (generate_weekly_roadmap env st uid week_offset)
        as [[reply st2]|e] eqn:Hgen; subst first; simpl.
      * pose proof Hgen as Hw.
        apply generate_weekly_roadmap_writes in Hw
          as [(Hprof & -> & ->) | (profile & plan & strat & new & _ & -> & _)].
        -- unfold get_roadmap_endpoint.
           rewrite (get_roadmap_same_week env env' st uid week_offset Hweek), Hget.
           unfold generate_weekly_roadmap. rewrite Hprof. reflexivity.
        -- destruct (get_roadmap env st2 uid week_offset) as [roadmap|] eqn:Hget2.
           ++ now rewrite (Hstored st2 roadmap Hget2).
           ++ exfalso. eapply get_roadmap_after_generation; eassumption.
      * unfold get_roadmap_endpoint.
        rewrite (get_roadmap_same_week env env' st uid week_offset Hweek), Hget.
        now rewrite (generate_weekly_roadmap_raise_any_env env env' st uid week_offset e Hgen).
  - intros rid week_number year exam hours plan strat st2 H.
    unfold get_roadmap_endpoint in H.
    destruct (get_roadmap env st uid week_offset); [discriminate|].
    apply bind_ok in H as ([reply st3] & Hgen & H).
    injection H as -> ->.
    destruct (get_roadmap env st2 uid week_offset) as [roadmap|] eqn:Hget2.
    + exists roadmap. now apply Hstored.
    + exfalso. eapply get_roadmap_after_generation; eassumption.
Qed.

Lemma get_roadmap_endpoint_generates_once_witness :
  List.length
    (roadmaps (store_after sample_store
                 (get_roadmap_endpoint sample_env sample_store "u1" 0))) = 1%nat /\
  store_after
    (store_after sample_store (get_roadmap_endpoint sample_env sample_store "u1" 0))
    (get_roadmap_endpoint sample_env
       (store_after sample_store (get_roadmap_endpoint sample_env sample_store "u1" 0))
       "u1" 0)
  = store_after sample_store (get_roadmap_endpoint sample_env sample_store "u1" 0).
Proof.
  split; [vm_compute; reflexivity|].
  apply (get_roadmap_endpoint_generates_once sample_env sample_env sample_store "u1" 0).
  reflexivity.
Defined.

(** A call on 2024-12-31 and a call on 2025-01-02 are in the same ISO
    week, but the roadmap of the first is stored under the year 2024 and
    the second looks for the year 2025: the route generates twice. *)
Example get_roadmap_endpoint_across_new_year :
  fst (week_of env_2024_12_31 0) = fst (week_of env_2025_01_02 0) /\
  List.length
    (roadmaps (store_after sample_store
                 (get_roadmap_endpoint env_2024_12_31 sample_store "u1" 0))) = 1%nat /\
  List.length
    (roadmaps
       (store_after
          (store_after sample_store
             (get_roadmap_endpoint env_2024_12_31 sample_store "u1" 0))
          (get_roadmap_endpoint env_2025_01_02
             (store_after sample_store
                (get_roadmap_endpoint env_2024_12_31 sample_store "u1" 0))
             "u1" 0))) = 2%nat.
Proof. split; [reflexivity|]. split; vm_compute; reflexivity. Qed.

(** ** The daily budget *)

Lemma hours_bounds (h : Z) :
  0 <= h <= 24 ->
  0 <= primary_hours h /\ 0 <= secondary_hours h /\
  primary_hours h + secondary_hours h <= h /\
  0 <= h / 2 /\ 2 * (h / 2) <= h.
Proof.
  intros Hh. destruct (hours_of_a_day h Hh) as (-> & -> & _).
  pose proof (Z.mul_div_le (7 * h) 10). pose proof (Z.mul_div_le (2 * h) 10).
  pose proof (Z.mul_div_le h 2).
  pose proof (Z.div_pos (7 * h) 10). pose proof (Z.div_pos (2 * h) 10).
  pose proof (Z.div_pos h 2). lia.
Qed.

(** X13: for a daily budget [h] of 0 to 24 hours, no activity of a
    generated plan has a negative duration and no day is planned for more
    than [h] hours.  A day with three activities (a regular day on which
    both subjects got a topic) is planned for exactly [h] hours; day 7 is
    planned for [2 * (h // 2)] hours, one hour short of an odd budget. *)
Theorem days_within_budget (st : Store) (strat : strategy) (profile : user_profile)
    (plan : dict day_plan) :
  let h := study_hours_per_day profile in
  generate_weekly_plan st strat profile = Ok plan ->
  0 <= h <= 24 ->
  forall name dp,
    In (name, dp) plan ->
    (forall a, In a (dp_activities dp) -> 0 <= a_duration a) /\
    day_total dp <= h /\
    (List.length (dp_activities dp) = 3%nat -> day_total dp = h) /\
    (dp_day dp = 7 -> day_total dp = 2 * (h / 2)).
Proof.
  intros h Hplan Hh name dp Hin.
  destruct (hours_bounds h Hh) as (Hp & Hs & Hps & Hhalf & Hhalf2).
  apply generate_weekly_plan_inv in Hplan
    as (d1 & d2 & d3 & d4 & d5 & d6 & -> & S1 & S2 & S3 & S4 & S5 & S6).
  assert (Hreg : forall day d,
            regular_shape strat profile day d -> 1 <= day <= 6 ->
            (forall a, In a (dp_activities d) -> 0 <= a_duration a) /\
            day_total d <= h /\
            (List.length (dp_activities d) = 3%nat -> day_total d = h) /\
            (dp_day d = 7 -> day_total d = 2 * (h / 2))).
  { intros day d (Hday & _ & prim & sec & Hacts & Hprim & Hsec) Hrange.
    unfold day_total. rewrite Hacts.
    destruct Hprim as [-> | (t & ->)]; destruct Hsec as [-> | (t' & ->)];
      cbn [app map a_duration primary_activity secondary_activity mixed_revision
           List.length];
      rewrite ?sum_Z_cons; change (sum_Z []) with 0;
      fold h; unfold revision_hours;
      (split; [intros a Ha;
               repeat (destruct Ha as [<- | Ha]; [simpl; fold h;
                                                 unfold revision_hours; lia|]);
               destruct Ha|]);
      (split; [lia|]); (split; [intros E; try discriminate E; lia|]);
      intros E; lia. }
  simpl in Hin.
  destruct Hin as [E | [E | [E | [E | [E | [E | [E | []]]]]]]];
    injection E as <- <-;
    [ apply (Hreg 1 d1) | apply (Hreg 2 d2) | apply (Hreg 3 d3)
    | apply (Hreg 4 d4) | apply (Hreg 5 d5) | apply (Hreg 6 d6) | ];
    try (assumption || lia).
  unfold day_total. cbn [sunday dp_activities dp_day map a_duration].
  rewrite !sum_Z_cons. change (sum_Z []) with 0. fold h.
  split; [intros a [<- | [<- | []]]; simpl; fold h; lia|].
  split; [lia|]. split; [discriminate|]. intros _. lia.
Qed.

Lemma days_within_budget_witness :
  exists plan,
    generate_weekly_plan sample_store sample_strategy sample_jee_profile = Ok plan /\
    Forall (fun kv => day_total (snd kv) <= 4) plan.
Proof.
  destruct (generate_weekly_plan sample_store sample_strategy sample_jee_profile)
    as [plan|e] eqn:E; [|vm_compute in E; discriminate].
  exists plan. split; [reflexivity|].
  apply Forall_forall. intros [name dp] Hin.
  apply (days_within_budget sample_store sample_strategy sample_jee_profile plan E)
    with (name := name); [simpl; lia | exact Hin].
Defined.

(** ** The range of the percentages *)

Lemma normalize_range (performance : dict float) (exam : string) :
  exists alloc,
    normalize (adjusted_allocation performance (base_allocation exam)) = Ok alloc /\
    Forall (fun kv => 19 <= snd kv <= 56) alloc /\
    (String.eqb exam "JEE" = true -> Forall (fun kv => 24 <= snd kv <= 44) alloc).
Proof.
  rewrite adjusted_allocation_base. unfold base_allocation.
  destruct (String.eqb exam "JEE"); cbn [map fst snd].
  - destruct (adjust_cases performance "Physics" 33) as [-> | [-> | ->]];
    destruct (adjust_cases performance "Chemistry" 33) as [-> | [-> | ->]];
    destruct (adjust_cases performance "Mathematics" 34) as [-> | [-> | ->]];
    eexists; (split; [vm_compute; reflexivity|]);
    (split; [|intros _]); repeat constructor; simpl; discriminate.
  - destruct (adjust_cases performance "Physics" 25) as [-> | [-> | ->]];
    destruct (adjust_cases performance "Chemistry" 25) as [-> | [-> | ->]];
    destruct (adjust_cases performance "Biology" 50) as [-> | [-> | ->]];
    eexists; (split; [vm_compute; reflexivity|]);
    (split; [|discriminate]); repeat constructor; simpl; discriminate.
Qed.

(** X14: the cap of 50 and the floor of 20 are applied before the
    normalisation, not after it: the percentages of a strategy always lie
    between 19 and 56 (between 24 and 44 for JEE); the example after the
    theorem reaches both 19 and 56. *)
Theorem allocation_range (env : Env) (profile : user_profile)
    (prog : list progress) (subs : list subject_row) (strat : strategy) :
  create_roadmap_strategy env profile prog subs = Ok strat ->
  forall subject percent,
    In (subject, percent) (subject_allocation strat) ->
    19 <= percent <= 56 /\
    (exam_type profile = "JEE" -> 24 <= percent <= 44).
Proof.
  intros H subject percent Hin.
  apply create_roadmap_strategy_inv in H as (Hn & _).
  destruct (normalize_range (subject_performance_of prog subs) (exam_type profile))
    as (alloc & Hn' & Hall & Hjee).
  rewrite Hn in Hn'. injection Hn' as <-.
  rewrite Forall_forall in Hall. split.
  - exact (Hall (subject, percent) Hin).
  - intros He. apply String.eqb_eq in He. specialize (Hjee He).
    rewrite Forall_forall in Hjee. exact (Hjee (subject, percent) Hin).
Qed.

Lemma allocation_range_witness :
  (exists strat,
     create_roadmap_strategy sample_env sample_neet_profile sample_progress_strong_two
       (get_subjects_for_exam sample_store "NEET") = Ok strat /\
     subject_allocation strat = [("Physics", 22); ("Chemistry", 22); ("Biology", 56)]) /\
  (exists strat,
     create_roadmap_strategy sample_env sample_neet_profile sample_progress_strong_one
       (get_subjects_for_exam sample_store "NEET") = Ok strat /\
     subject_allocation strat = [("Physics", 19); ("Chemistry", 33); ("Biology", 48)] /\
     Forall (fun kv => 19 <= snd kv <= 56) (subject_allocation strat)).
Proof.
  split.
  - eexists. split; vm_compute; reflexivity.
  - destruct (create_roadmap_strategy sample_env sample_neet_profile
                sample_progress_strong_one (get_subjects_for_exam sample_store "NEET"))
      as [strat|e] eqn:E; [|vm_compute in E; discriminate].
    exists strat. split; [reflexivity|].
    split; [vm_compute in E; injection E as <-; reflexivity|].
    apply Forall_forall. intros [subject percent] Hin.
    exact (proj1 (allocation_range _ _ _ _ _ E subject percent Hin)).
Defined.

(** ** Reading the progress *)

(** X15: [get_user_progress] returns one record for every
    combination of a progress row of the user, a topic with the row's
    topic id and a subject with the topic's subject id, and nothing else:
    progress recorded for a topic id that the catalogue does not know, or
    whose subject is missing, is not returned.  The records come most
    recently studied first. *)
Theorem get_user_progress_rows (st : Store) (uid : string) :
  (forall r,
     In r (get_user_progress st uid) <->
     exists p t s,
       In p (user_progress st) /\ pr_user_id p = uid /\
       In t (topics st) /\ t_id t = pr_topic_id p /\
       In s (subjects st) /\ s_id s = t_subject_id t /\
       r = joined_progress p t s) /\
  StronglySorted (fun a b => p_last_studied b <= p_last_studied a)
                 (get_user_progress st uid).
Proof.
  unfold get_user_progress.
  set (le := fun a b : progress => p_last_studied b <=? p_last_studied a).
  set (joined := flat_map _ _).
  split.
  - intros r. split.
    + intros Hr.
      apply (Permutation_in _ (stable_sort_perm _ le joined)) in Hr.
      apply in_flat_map in Hr as (p & Hp & Hr).
      apply filter_In in Hp as [Hp Hu]. apply String.eqb_eq in Hu.
      apply in_flat_map in Hr as (t & Ht & Hr).
      apply filter_In in Ht as [Ht Htid]. apply String.eqb_eq in Htid.
      apply in_map_iff in Hr as (s & <- & Hs).
      apply filter_In in Hs as [Hs Hsid]. apply String.eqb_eq in Hsid.
      exists p, t, s. auto 10.
    + intros (p & t & s & Hp & Hu & Ht & Htid & Hs & Hsid & ->).
      apply (Permutation_in _ (Permutation_sym (stable_sort_perm _ le joined))).
      apply in_flat_map. exists p. split.
      { apply filter_In. split; [exact Hp | now apply String.eqb_eq]. }
      apply in_flat_map. exists t. split.
      { apply filter_In. split; [exact Ht | now apply String.eqb_eq]. }
      apply in_map_iff. exists s. split; [reflexivity|].
      apply filter_In. split; [exact Hs | now apply String.eqb_eq].
  - assert (Hs : StronglySorted (fun a b => le a b = true) (stable_sort le joined)).
    { apply stable_sort_sorted.
      - intros x y. unfold le. rewrite !Z.leb_le. lia.
      - intros x y z. unfold le. rewrite !Z.leb_le. lia. }
    induction Hs as [|a l _ IH Ha]; constructor; [exact IH|].
    eapply Forall_impl; [|exact Ha]. intros b Hb. now apply Z.leb_le.
Qed.

(** ** The directives *)

Lemma struggling_topics_app (l1 l2 : list progress) (subject : string) :
  struggling_topics (l1 ++ l2) subject
  = struggling_topics l1 subject + struggling_topics l2 subject.
Proof.
  unfold struggling_topics. rewrite filter_app, length_app. lia.
Qed.

Lemma struggling_topics_nonneg (l : list progress) (subject : string) :
  0 <= struggling_topics l subject.
Proof. unfold struggling_topics. lia. Qed.

(** The dictionary [subject_struggles] after the loop over the progress. *)
Lemma subject_struggles_spec (prog : list progress) :
  let d :=
    fold_left
      (fun d p =>
         if String.eqb (p_status p) "struggling"
         then dict_set d (p_subject_name p) (count_of d (p_subject_name p) + 1)
         else d)
      prog [] in
  NoDup (dict_keys d) /\
  forall subject,
    dict_get d subject
    = if struggling_topics prog subject =? 0 then None
      else Some (struggling_topics prog subject).
Proof.
  set (step := fun (d : dict Z) (p : progress) => _).
  assert (Hgen : forall l d done,
             NoDup (dict_keys d) ->
             (forall subject,
                dict_get d subject
                = if struggling_topics done subject =? 0 then None
                  else Some (struggling_topics done subject)) ->
             NoDup (dict_keys (fold_left step l d)) /\
             forall subject,
               dict_get (fold_left step l d) subject
               = if struggling_topics (done ++ l) subject =? 0 then None
                 else Some (struggling_topics (done ++ l) subject)).
  { induction l as [|p l IH]; intros d done Hn Hd.
    - simpl. rewrite app_nil_r. auto.
    - simpl. replace (done ++ p :: l) with ((done ++ [p]) ++ l)
        by (rewrite <- app_assoc; reflexivity).
      apply IH.
      + unfold step. destruct (String.eqb (p_status p) "struggling");
          [now apply dict_set_nodup | exact Hn].
      + intros subject. rewrite struggling_topics_app.
        pose proof (struggling_topics_nonneg done subject) as Hnn.
        unfold step. unfold struggling_topics at 2 4. simpl.
        destruct (String.eqb (p_status p) "struggling") eqn:Es; simpl.
        * rewrite dict_get_set.
          destruct (String.eqb (p_subject_name p) subject) eqn:En; simpl.
          -- apply String.eqb_eq in En. subst subject.
             unfold count_of. rewrite Hd.
             destruct (struggling_topics done (p_subject_name p) =? 0) eqn:E0.
             ++ apply Z.eqb_eq in E0. rewrite E0. reflexivity.
             ++ destruct (_ + 1 =? 0) eqn:E1; [apply Z.eqb_eq in E1; lia|].
                reflexivity.
          -- rewrite Z.add_0_r. apply Hd.
        * rewrite Z.add_0_r. apply Hd. }
  destruct (Hgen prog [] []) as [Hn Hd]; [constructor | reflexivity |].
  split; [exact Hn | exact Hd].
Qed.

(** X16: [adapt_roadmap_based_on_performance] emits an
    increase-focus directive for a subject exactly when at least two of
    the user's progress records of that subject have the status
    ['struggling'], and the directive states that number. *)
Theorem increase_focus_directives (env : Env) (st : Store) (uid : string) :
  let reply := adapt_roadmap_based_on_performance env st uid in
  let prog := get_user_progress st uid in
  (forall subject,
     2 <= struggling_topics prog subject ->
     In (increase_focus subject (struggling_topics prog subject))
        (adaptations reply)) /\
  (forall a,
     In a (adaptations reply) -> ad_type a = "increase_focus" ->
     exists subject,
       a = increase_focus subject (struggling_topics prog subject) /\
       2 <= struggling_topics prog subject).
Proof.
  intros reply prog.
  destruct (subject_struggles_spec prog) as [Hn Hd].
  subst reply. unfold adapt_roadmap_based_on_performance. cbn [adaptations].
  fold prog. unfold adaptations_for.
  match type of Hn with
  | NoDup (dict_keys ?x) => set (d := x) in *
  end.
  split.
  - intros subject Hc.
    apply in_or_app. right. apply in_or_app. left.
    apply in_flat_map. exists (subject, struggling_topics prog subject). split.
    + apply dict_get_in. rewrite Hd.
      destruct (_ =? 0) eqn:E; [apply Z.eqb_eq in E; lia | reflexivity].
    + simpl. apply Z.leb_le in Hc. rewrite Hc. now left.
  - intros a Hin Hty.
    apply in_app_or in Hin as [Hin | Hin]; [|apply in_app_or in Hin as [Hin | Hin]].
    + destruct (ltb _ _); [|destruct Hin].
      destruct Hin as [<- | []]. discriminate.
    + apply in_flat_map in Hin as ([subject count] & Hkv & Hin). simpl in Hin.
      destruct (2 <=? count) eqn:Ec; [|destruct Hin].
      destruct Hin as [<- | []]. apply Z.leb_le in Ec.
      apply dict_in_get in Hkv; [|exact Hn]. rewrite Hd in Hkv.
      destruct (_ =? 0); [discriminate|]. injection Hkv as <-.
      exists subject. auto.
    + destruct (ltb _ _); [|destruct Hin].
      destruct prog as [|p prog'].
      * destruct (ltb (lit 7 10) 0%Q); [|destruct Hin].
        destruct Hin as [<- | []]. discriminate.
      * destruct (ltb (lit 7 10) _); [|destruct Hin].
        destruct Hin as [<- | []]. discriminate.
Qed.

(** X17: roadmaps without items are not tracked.  When no
    roadmap of the user from the week two before the current one on has an
    item (in particular for a user without any roadmap),
    [get_roadmap_analytics] tracks no week and reports an average
    completion rate of 0, and [adapt_roadmap_based_on_performance]
    therefore recommends to reduce the workload. *)
Theorem nothing_tracked_reduces_workload (env : Env) (st : Store) (uid : string) :
  (forall r i,
     In r (roadmaps st) -> In i (roadmap_items st) ->
     r_user_id r = uid -> fst (week_of env 0) - 2 <= r_week_number r ->
     ri_roadmap_id i <> r_id r) ->
  let stats := get_roadmap_analytics env st uid 2 in
  let reply := adapt_roadmap_based_on_performance env st uid in
  weekly_stats stats = [] /\
  total_weeks_tracked stats = 0 /\
  avg_completion_rate stats = 0%Q /\
  In reduce_workload (adaptations reply) /\
  recommended_changes reply = true.
Proof.
  intros Hno stats reply.
  assert (Hrows : analytics_rows st uid (fst (week_of env 0) - 2) = []).
  { unfold analytics_rows. rewrite flat_map_nil; [reflexivity|].
    intros r Hr. apply filter_In in Hr as [Hr Hm].
    apply andb_true_iff in Hm as [Hu Hw].
    apply String.eqb_eq in Hu. apply Z.leb_le in Hw.
    rewrite filter_nil; [reflexivity|].
    intros i Hi. apply String.eqb_neq. intros E.
    exact (Hno r i Hr Hi Hu Hw (eq_sym E)). }
  assert (Hstats : stats = {| weekly_stats := []; avg_completion_rate := 0%Q;
                              total_weeks_tracked := 0 |}).
  { subst stats. unfold get_roadmap_analytics. rewrite Hrows. reflexivity. }
  assert (Hads : In reduce_workload (adaptations reply)).
  { subst reply. unfold adapt_roadmap_based_on_performance. cbn [adaptations].
    fold stats. rewrite Hstats. cbn [avg_completion_rate].
    apply adaptations_for_reduce. reflexivity. }
  rewrite Hstats. do 3 (split; [reflexivity|]).
  split; [exact Hads|].
  subst reply. unfold adapt_roadmap_based_on_performance in *.
  cbn [adaptations recommended_changes] in *.
  destruct (adaptations_for _ _); [destruct Hads | reflexivity].
Qed.

Lemma nothing_tracked_reduces_workload_witness :
  In reduce_workload
     (adaptations (adapt_roadmap_based_on_performance sample_env sample_store "u1")) /\
  recommended_changes (adapt_roadmap_based_on_performance sample_env sample_store "u1")
  = true.
Proof.
  apply (nothing_tracked_reduces_workload sample_env sample_store "u1").
  intros r i [].
Defined.

(** ** Users and profiles *)

Lemma existsb_false_filter (A : Type) (f : A -> bool) (l : list A) :
  existsb f l = false -> filter f l = [].
Proof.
  intros H. apply filter_nil. intros x Hx.
  destruct (f x) eqn:E; [|reflexivity].
  assert (existsb f l = true) by (apply existsb_exists; eauto). congruence.
Qed.

Lemma flat_map_agree (A B : Type) (f g : A -> list B) (l : list A) :
  (forall x, In x l -> f x = g x) -> flat_map f l = flat_map g l.
Proof.
  induction l as [|x l IH]; intros H; [reflexivity|].
  simpl. rewrite (H x (or_introl eq_refl)), IH; [reflexivity|].
  intros y Hy. apply H. now right.
Qed.

Lemma get_user_profile_in (st : Store) (uid : string) (profile : user_profile) :
  get_user_profile st uid = Some profile ->
  exists u p,
    In u (users st) /\ In p (user_profiles st) /\ u_id u = uid /\
    up_user_id p = uid /\ user_id profile = uid /\
    exam_type profile = u_exam_type u /\ target_year profile = u_target_year u /\
    study_hours_per_day profile = up_study_hours_per_day p.
Proof.
  unfold get_user_profile. intros H.
  destruct (flat_map _ _) as [|row rows] eqn:E; [discriminate|].
  injection H as ->.
  assert (Hin : In profile (profile :: rows)) by now left.
  rewrite <- E in Hin.
  apply in_flat_map in Hin as (u & Hu & Hin).
  apply filter_In in Hu as [Hu Hid]. apply String.eqb_eq in Hid.
  apply in_map_iff in Hin as (p & <- & Hp).
  apply filter_In in Hp as [Hp Hpid]. apply String.eqb_eq in Hpid.
  exists u, p. simpl. repeat split; congruence.
Qed.

(** X18: [create_user] fails (the identifier drawn is a primary
    key already in use) without changing anything, or returns an
    identifier under which [get_user_profile] finds the exam type and the
    target year given, with the default of 4 study hours a day; the
    profiles of all other users, the catalogue, the progress and the
    roadmaps are as before. *)
Theorem create_user_then_get_profile (env : Env) (st : Store) (name exam : string)
    (year : Z) :
  match create_user env st name exam year with
  | Done (uid, st') =>
      get_user_profile st uid = None /\
      get_user_profile st' uid
      = Some {| user_id := uid; exam_type := exam; target_year := year;
                study_hours_per_day := 4 |} /\
      (forall other, other <> uid ->
                     get_user_profile st' other = get_user_profile st other) /\
      subjects st' = subjects st /\ topics st' = topics st /\
      user_progress st' = user_progress st /\
      roadmaps st' = roadmaps st /\ roadmap_items st' = roadmap_items st
  | Failed e =>
      e = IntegrityError /\
      ((exists u, In u (users st) /\ u_id u = uuid4 env 0%nat) \/
       (exists p, In p (user_profiles st) /\ up_user_id p = uuid4 env 0%nat))
  end.
Proof.
  unfold create_user.
  destruct (existsb _ (users st)) eqn:Eu.
  { split; [reflexivity|]. left.
    apply existsb_exists in Eu as (u & Hu & E). apply String.eqb_eq in E. eauto. }
  destruct (existsb _ (user_profiles st)) eqn:Ep.
  { split; [reflexivity|]. right.
    apply existsb_exists in Ep as (p & Hp & E). apply String.eqb_eq in E. eauto. }
  set (uid := uuid4 env 0%nat) in *.
  apply existsb_false_filter in Eu. apply existsb_false_filter in Ep.
  assert (Ep' : filter (fun up => String.eqb uid (up_user_id up)) (user_profiles st)
                = []).
  { rewrite <- Ep. apply filter_ext. intros p. apply String.eqb_sym. }
  split; [|split; [|split; [|repeat split]]].
  - unfold get_user_profile. now rewrite Eu.
  - unfold get_user_profile. simpl. rewrite !filter_app, Eu. simpl.
    rewrite String.eqb_refl. simpl. rewrite filter_app, Ep'. simpl.
    rewrite String.eqb_refl. reflexivity.
  - intros other Hne. unfold get_user_profile. simpl.
    rewrite filter_app. simpl.
    assert (E : String.eqb uid other = false) by (apply String.eqb_neq; congruence).
    rewrite E, app_nil_r. f_equal.
    apply flat_map_agree. intros u Hu. apply filter_In in Hu as [_ Hid].
    apply String.eqb_eq in Hid. rewrite filter_app. simpl.
    rewrite Hid, String.eqb_sym, E, app_nil_r. reflexivity.
Qed.

Lemma create_user_then_get_profile_witness :
  exists uid st',
    create_user sample_env fresh_store "Asha" "NEET" 2026 = Done (uid, st') /\
    get_user_profile st' uid
    = Some {| user_id := uid; exam_type := "NEET"; target_year := 2026;
              study_hours_per_day := 4 |}.
Proof.
  pose proof (create_user_then_get_profile sample_env fresh_store "Asha" "NEET" 2026)
    as H.
  destruct (create_user sample_env fresh_store "Asha" "NEET" 2026)
    as [[uid st']|e] eqn:E; [|vm_compute in E; discriminate].
  exists uid, st'. split; [reflexivity|]. exact (proj1 (proj2 H)).
Defined.

Lemma default_hours_split : primary_hours 4 = 2 /\ secondary_hours 4 = 0.
Proof. split; vm_compute; reflexivity. Qed.

(** X19: [update_user_profile] cannot change a profile (its
    statement names a column that the table does not have), and no other
    code writes [study_hours_per_day]; so in every database the modelled
    operations produce, each profile has the default of 4 hours a day, and
    each stored item is a 2-hour slot of priority 1 or a 0-hour slot of
    priority 2. *)
Theorem study_hours_stay_default (st : Store) :
  profile_history st ->
  (forall p, In p (user_profiles st) -> up_study_hours_per_day p = 4) /\
  (forall i, In i (roadmap_items st) ->
     (ri_priority i = 1 /\ ri_study_hours i = 2) \/
     (ri_priority i = 2 /\ ri_study_hours i = 0)).
Proof.
  induction 1 as [st H1 H2 | env st name exam year _ IH
                 | st uid kwargs _ IH
                 | env st uid tid m ts at_ co _ IH
                 | env st uid off _ IH | st item_id status _ IH].
  - rewrite H1, H2. split; intros ? [].
  - unfold create_user, db_after.
    destruct (existsb _ (users st)); [exact IH|].
    destruct (existsb _ (user_profiles st)); [exact IH|].
    destruct IH as [IHp IHi]. simpl. split; [|exact IHi].
    intros p Hp. apply in_app_or in Hp as [Hp | [<- | []]]; [now apply IHp | reflexivity].
  - unfold update_user_profile. destruct (existsb _ profile_fields); exact IH.
  - exact IH.
  - destruct (generate_weekly_roadmap env st uid off) as [[reply st']|e] eqn:E;
      [|exact IH].
    simpl. destruct IH as [IHp IHi].
    apply generate_weekly_roadmap_writes in E
      as [(_ & _ & ->) | (profile & plan & strat & new & Hprof & _ & -> & _ & Hall)];
      [split; assumption|].
    simpl. split; [exact IHp|].
    apply get_user_profile_in in Hprof as (u & p & _ & Hp & _ & _ & _ & _ & _ & Hh).
    rewrite (IHp p Hp) in Hh.
    intros i Hi. apply in_app_or in Hi as [Hi | Hi]; [now apply IHi|].
    destruct (Hall i Hi) as (_ & _ & _ & _ & P). rewrite Hh in P.
    destruct default_hours_split as [E1 E2]. rewrite E1, E2 in P. exact P.
  - destruct IH as [IHp IHi]. simpl. split; [exact IHp|].
    intros i Hi. apply in_map_iff in Hi as (j & <- & Hj).
    specialize (IHi j Hj).
    destruct (String.eqb (ri_id j) item_id); simpl; exact IHi.
Qed.

Lemma study_hours_stay_default_witness :
  roadmap_items
    (store_after sample_store_new_user
       (generate_weekly_roadmap sample_env sample_store_new_user
          (uuid4 sample_env 0%nat) 0)) <> [] /\
  Forall (fun p => up_study_hours_per_day p = 4)
    (user_profiles
       (store_after sample_store_new_user
          (generate_weekly_roadmap sample_env sample_store_new_user
             (uuid4 sample_env 0%nat) 0))) /\
  Forall (fun i => ri_study_hours i = 2 \/ ri_study_hours i = 0)
    (roadmap_items
       (store_after sample_store_new_user
          (generate_weekly_roadmap sample_env sample_store_new_user
             (uuid4 sample_env 0%nat) 0))).
Proof.
  destruct (study_hours_stay_default
              (store_after sample_store_new_user
                 (generate_weekly_roadmap sample_env sample_store_new_user
                    (uuid4 sample_env 0%nat) 0))) as [Hp Hi].
  { apply profile_generate. unfold sample_store_new_user.
    apply profile_update, profile_create_user, profile_start; reflexivity. }
  split; [vm_compute; discriminate|].
  split; apply Forall_forall.
  - exact Hp.
  - intros i Hin. destruct (Hi i Hin) as [[_ E] | [_ E]]; [left | right]; exact E.
Defined.

(** ** Completion rates *)

Lemma rate_of_no_completed (stats : dict Z) :
  count_of stats "completed" = 0 -> rate_of stats = 0%Q.
Proof.
  intros H. unfold rate_of. rewrite H.
  set (total := count_of stats "total").
  destruct (0 <? total); [|reflexivity].
  unfold fmul, int_truediv.
  rewrite (fl_zero (inject_Z 0 / inject_Z total)) by reflexivity.
  apply fl_zero. reflexivity.
Qed.

Lemma fsum_zeros (xs : list float) :
  (forall x, In x xs -> x = 0%Q) -> fsum xs = 0%Q.
Proof.
  unfold fsum. induction xs as [|x xs IH]; intros H; [reflexivity|].
  simpl. rewrite (H x (or_introl eq_refl)).
  change (fadd 0%Q 0%Q) with 0%Q. apply IH. intros y Hy. apply H. now right.
Qed.

Lemma tally_no_completed (weekly : dict (dict Z)) (row : stat_row) :
  sr_status row <> "completed" ->
  (forall kv, In kv weekly -> count_of (snd kv) "completed" = 0) ->
  forall kv, In kv (tally weekly row) -> count_of (snd kv) "completed" = 0.
Proof.
  intros Hs Hall kv Hin. unfold tally in Hin.
  apply dict_set_in in Hin as [-> | Hin]; [|now apply Hall].
  cbn [snd]. unfold count_of at 1. rewrite !dict_get_set.
  change (String.eqb "total" "completed") with false. cbv iota.
  destruct (String.eqb (sr_status row) "completed") eqn:E;
    [apply String.eqb_eq in E; contradiction|].
  destruct (dict_get weekly (week_key row)) as [stats|] eqn:Eg; [|reflexivity].
  apply dict_get_in in Eg. exact (Hall _ Eg).
Qed.

Lemma count_group_status (groups : list stat_row) (w y : Z) (s : string)
    (g : stat_row) :
  In g (count_group groups w y s) -> sr_status g = s \/ In g groups.
Proof.
  induction groups as [|g0 groups IH]; simpl.
  - intros [<- | []]. now left.
  - destruct (same_group g0 w y s); intros [<- | H]; auto.
    destruct (IH H); auto.
Qed.

Lemma analytics_rows_status (st : Store) (uid : string) (from_week : Z)
    (row : stat_row) :
  In row (analytics_rows st uid from_week) ->
  exists r i,
    In r (roadmaps st) /\ In i (roadmap_items st) /\ r_user_id r = uid /\
    ri_roadmap_id i = r_id r /\ sr_status row = ri_status i.
Proof.
  unfold analytics_rows. intros Hin.
  apply (Permutation_in _ (stable_sort_perm _ _ _)) in Hin.
  set (joined := flat_map _ _) in Hin.
  assert (Hj : forall t, In t joined ->
             exists r i, In r (roadmaps st) /\ In i (roadmap_items st) /\
                         r_user_id r = uid /\ ri_roadmap_id i = r_id r /\
                         snd t = ri_status i).
  { intros t Ht. apply in_flat_map in Ht as (r & Hr & Ht).
    apply filter_In in Hr as [Hr Hm]. apply andb_true_iff in Hm as [Hu _].
    apply String.eqb_eq in Hu.
    apply in_map_iff in Ht as (i & <- & Hi).
    apply filter_In in Hi as [Hi Hid]. apply String.eqb_eq in Hid.
    exists r, i. auto. }
  clearbody joined.
  assert (Hg : forall groups : list stat_row,
             (forall g, In g groups -> exists t, In t joined /\ snd t = sr_status g) ->
             forall rows, (forall t, In t rows -> In t joined) ->
             forall g,
               In g (fold_left
                       (fun gs t => count_group gs (fst (fst t)) (snd (fst t)) (snd t))
                       rows groups) ->
               exists t, In t joined /\ snd t = sr_status g).
  { intros groups Hgroups rows. revert groups Hgroups.
    induction rows as [|t rows IH]; intros groups Hgroups Hrows g Hin'.
    - now apply Hgroups.
    - simpl in Hin'. apply IH in Hin'; [exact Hin' | | intros; apply Hrows; now right].
      intros g' Hg'. apply count_group_status in Hg' as [E | Hg'].
      + exists t. split; [apply Hrows; now left | now rewrite E].
      + now apply Hgroups. }
  apply (Hg [] (fun g F => match F with end) joined (fun t H => H)) in Hin
    as (t & Ht & E).
  destruct (Hj t Ht) as (r & i & Hr & Hi & Hu & Hid & Hs).
  exists r, i. repeat split; auto. congruence.
Qed.

(** X20: as long as no item of the user's roadmaps has
    the status ['completed'] (every item is created ['pending']),
    [get_roadmap_analytics] reports a completion rate of 0 for every week
    it tracks and on average, whatever [weeks_back]; so
    [adapt_roadmap_based_on_performance] recommends to reduce the workload
    and does not recommend to increase the difficulty, however high the
    recorded mastery is. *)
Theorem no_completed_item_reduces_workload (env : Env) (st : Store) (uid : string) :
  (forall r i,
     In r (roadmaps st) -> In i (roadmap_items st) ->
     r_user_id r = uid -> ri_roadmap_id i = r_id r ->
     ri_status i <> "completed") ->
  (forall weeks_back,
     avg_completion_rate (get_roadmap_analytics env st uid weeks_back) = 0%Q /\
     forall kv, In kv (weekly_stats (get_roadmap_analytics env st uid weeks_back)) ->
                completion_rate (snd kv) = 0%Q) /\
  In reduce_workload (adaptations (adapt_roadmap_based_on_performance env st uid)) /\
  ~ In increase_difficulty
       (adaptations (adapt_roadmap_based_on_performance env st uid)) /\
  recommended_changes (adapt_roadmap_based_on_performance env st uid) = true.
Proof.
  intros Hno.
  assert (Hstats : forall weeks_back,
             avg_completion_rate (get_roadmap_analytics env st uid weeks_back) = 0%Q /\
             forall kv,
               In kv (weekly_stats (get_roadmap_analytics env st uid weeks_back)) ->
               completion_rate (snd kv) = 0%Q).
  { intros weeks_back. unfold get_roadmap_analytics.
    set (results := analytics_rows st uid _).
    assert (Hres : forall row, In row results -> sr_status row <> "completed").
    { intros row Hrow. apply analytics_rows_status in Hrow
        as (r & i & Hr & Hi & Hu & Hid & ->). eauto. }
    clearbody results.
    assert (Ht : forall weekly,
               (forall kv, In kv weekly -> count_of (snd kv) "completed" = 0) ->
               forall kv, In kv (fold_left tally results weekly) ->
                          count_of (snd kv) "completed" = 0).
    { induction results as [|row results IH]; intros weekly Hw; [exact Hw|].
      simpl. apply IH; [intros; apply Hres; now right|].
      apply tally_no_completed; [apply Hres; now left | exact Hw]. }
    specialize (Ht [] (fun kv F => match F with end)).
    set (tallied := fold_left tally results []) in *. clearbody tallied.
    cbn [avg_completion_rate weekly_stats].
    assert (Hrates : forall kv,
               In kv (map (fun kv => (fst kv, {| counts := snd kv;
                                                 completion_rate := rate_of (snd kv) |}))
                          tallied) ->
               completion_rate (snd kv) = 0%Q).
    { intros kv Hkv. apply in_map_iff in Hkv as (kv0 & <- & Hkv0).
      cbn [snd completion_rate]. apply rate_of_no_completed, Ht, Hkv0. }
    split; [|exact Hrates].
    destruct (map _ tallied) as [|kv stats] eqn:E; [reflexivity|].
    rewrite fsum_zeros.
    - unfold fdiv. apply fl_zero. reflexivity.
    - intros x Hx. apply in_map_iff in Hx as (kv' & <- & Hkv'). now apply Hrates. }
  split; [exact Hstats|].
  unfold adapt_roadmap_based_on_performance. cbn [adaptations recommended_changes].
  rewrite (proj1 (Hstats 2)).
  assert (Hred : In reduce_workload (adaptations_for 0%Q (get_user_progress st uid))).
  { apply adaptations_for_reduce. reflexivity. }
  split; [exact Hred|]. split.
  - intros Hin. apply adaptations_for_spec in Hin
      as [[E _] | [(subject & count & E) | (_ & H & _)]].
    + discriminate E.
    + discriminate E.
    + discriminate H.
  - destruct (adaptations_for _ _); [destruct Hred | reflexivity].
Qed.

Lemma no_completed_item_reduces_workload_witness :
  In reduce_workload
     (adaptations
        (adapt_roadmap_based_on_performance sample_env
           (store_after sample_store
              (generate_weekly_roadmap sample_env sample_store "u1" 0)) "u1")) /\
  ~ In increase_difficulty
       (adaptations
          (adapt_roadmap_based_on_performance sample_env
             (store_after sample_store
                (generate_weekly_roadmap sample_env sample_store "u1" 0)) "u1")).
Proof.
  assert (F : forallb (fun i => negb (String.eqb (ri_status i) "completed"))
                (roadmap_items
                   (store_after sample_store
                      (generate_weekly_roadmap sample_env sample_store "u1" 0)))
              = true) by (vm_compute; reflexivity).
  destruct (no_completed_item_reduces_workload sample_env
              (store_after sample_store
                 (generate_weekly_roadmap sample_env sample_store "u1" 0)) "u1")
    as (_ & H1 & H2 & _).
  - intros r i _ Hi _ _ E.
    pose proof (proj1 (forallb_forall _ _) F i Hi) as H.
    cbv beta in H. rewrite E in H. discriminate H.
  - split; assumption.
Defined.

(** ** Item status *)

Lemma map_fixed (A : Type) (f : A -> A) (l : list A) :
  (forall x, In x l -> f x = x) -> map f l = l.
Proof.
  induction l as [|x l IH]; intros H; simpl; [reflexivity|].
  rewrite (H x (or_introl eq_refl)), IH; [reflexivity|].
  intros y Hy. apply H. now right.
Qed.

(** X21: [update_roadmap_progress] checks neither the
    identifier nor the status.  With an identifier that no item has it
    changes nothing (and reports nothing); otherwise it overwrites the
    status of the items with that identifier by any string given, and
    leaves their other fields, the other items and the order of the items
    as they were.  A second update of the same identifier replaces the
    first, and updates of different identifiers commute. *)
Theorem update_roadmap_progress_writes (st : Store) (item_id status : string) :
  ((forall i, In i (roadmap_items st) -> ri_id i <> item_id) ->
   update_roadmap_progress st item_id status = st) /\
  List.length (roadmap_items (update_roadmap_progress st item_id status))
  = List.length (roadmap_items st) /\
  (forall n i, nth_error (roadmap_items st) n = Some i ->
     exists i',
       nth_error (roadmap_items (update_roadmap_progress st item_id status)) n = Some i' /\
       ri_id i' = ri_id i /\ ri_roadmap_id i' = ri_roadmap_id i /\
       ri_topic_id i' = ri_topic_id i /\ ri_day_of_week i' = ri_day_of_week i /\
       ri_study_hours i' = ri_study_hours i /\ ri_priority i' = ri_priority i /\
       ri_status i' = (if String.eqb (ri_id i) item_id then status else ri_status i)) /\
  (forall earlier,
     update_roadmap_progress (update_roadmap_progress st item_id earlier) item_id status
     = update_roadmap_progress st item_id status) /\
  (forall other status',
     other <> item_id ->
     update_roadmap_progress (update_roadmap_progress st item_id status) other status'
     = update_roadmap_progress (update_roadmap_progress st other status') item_id status).
Proof.
  split; [|split; [|split; [|split]]].
  - intros Hno. unfold update_roadmap_progress, with_roadmaps.
    rewrite map_fixed; [destruct st; reflexivity|].
    intros i Hi. apply Hno in Hi. apply String.eqb_neq in Hi. now rewrite Hi.
  - unfold update_roadmap_progress. simpl. apply length_map.
  - intros n i Hn. unfold update_roadmap_progress. simpl.
    rewrite nth_error_map, Hn. simpl. eexists. split; [reflexivity|].
    destruct (String.eqb (ri_id i) item_id); simpl; repeat split.
  - intros earlier. unfold update_roadmap_progress, with_roadmaps. simpl.
    f_equal. rewrite map_map. apply map_ext. intros i.
    destruct (String.eqb (ri_id i) item_id) eqn:E; simpl; rewrite E; reflexivity.
  - intros other status' Hne. unfold update_roadmap_progress, with_roadmaps. simpl.
    f_equal. rewrite !map_map. apply map_ext. intros i.
    destruct (String.eqb (ri_id i) item_id) eqn:E1;
      destruct (String.eqb (ri_id i) other) eqn:E2; simpl; rewrite ?E1, ?E2;
      try reflexivity.
    apply String.eqb_eq in E1, E2. congruence.
Qed.

Lemma update_roadmap_progress_writes_witness :
  update_roadmap_progress scenario_d_store "a9" "completed" = scenario_d_store /\
  update_roadmap_progress
    (update_roadmap_progress scenario_d_store "a3" "done") "b2" "completed"
  = update_roadmap_progress
      (update_roadmap_progress scenario_d_store "b2" "completed") "a3" "done".
Proof.
  split.
  - apply (proj1 (update_roadmap_progress_writes scenario_d_store "a9" "completed")).
    apply Forall_forall. repeat constructor; discriminate.
  - apply (proj2 (proj2 (proj2 (proj2
             (update_roadmap_progress_writes scenario_d_store "a3" "done"))))).
    discriminate.
Defined.

(** ** Phase and pace *)

Lemma calculate_study_intensity_cases (months : Z) (ph : string) :
  (months <= 2 -> calculate_study_intensity months ph = "high") /\
  (12 < months -> calculate_study_intensity months ph = "low_medium").
Proof.
  unfold calculate_study_intensity. split; intros H.
  - destruct (Z.leb_spec months 2); [reflexivity | lia].
  - destruct (Z.leb_spec months 2); [lia|].
    destruct (Z.leb_spec months 6); [lia|].
    destruct (Z.leb_spec months 12); [lia | reflexivity].
Qed.

(** X22: in a strategy that [create_roadmap_strategy]
    returns, at least one month remains.  A target year before the current
    one is not refused: one month remains and the intensity is ['high'];
    a target year two or more years ahead gives ['low_medium'].  The phase
    is ['foundation'] without progress or with a mean mastery below 0.3,
    ['intermediate'] below 0.6 and ['advanced'] from 0.6 on; the intensity
    does not depend on it. *)
Theorem strategy_phase_and_pace (env : Env) (profile : user_profile)
    (prog : list progress) (subs : list subject_row) (strat : strategy) :
  1 <= now_month env <= 12 ->
  create_roadmap_strategy env profile prog subs = Ok strat ->
  1 <= months_remaining strat /\
  study_intensity strat = calculate_study_intensity (months_remaining strat) "" /\
  (target_year profile < now_year env ->
   months_remaining strat = 1 /\ study_intensity strat = "high") /\
  (now_year env + 2 <= target_year profile -> study_intensity strat = "low_medium") /\
  (prog = [] ->
   phase strat = "foundation" /\
   focus_areas strat = ["basic_concepts"; "ncert_completion"]) /\
  (prog <> [] ->
   (mean_mastery prog < lit 3 10 ->
    phase strat = "foundation" /\
    focus_areas strat = ["concept_building"; "basic_practice"])%Q /\
   (lit 3 10 <= mean_mastery prog -> mean_mastery prog < lit 6 10 ->
    phase strat = "intermediate" /\
    focus_areas strat = ["problem_solving"; "previous_year_questions"])%Q /\
   (lit 6 10 <= mean_mastery prog ->
    phase strat = "advanced" /\
    focus_areas strat = ["mock_tests"; "advanced_problems"; "revision"])%Q).
Proof.
  intros Hm H. unfold create_roadmap_strategy in H.
  destruct ((target_year profile <? - 2147483648)
            || (2147483647 <? target_year profile)); [discriminate|].
  destruct ((target_year profile <? 1) || (9999 <? target_year profile));
    [discriminate|].
  set (exam_month := if String.eqb (exam_type profile) "JEE" then 4 else 5) in H.
  assert (He : 4 <= exam_month <= 5)
    by (subst exam_month; destruct (String.eqb (exam_type profile) "JEE"); lia).
  set (months := Z.max 1 ((target_year profile - now_year env) * 12
                          + exam_month - now_month env)) in H.
  destruct (normalize _) as [alloc|e]; [|destruct prog as [|p prog];
    [discriminate | destruct (ltb _ _); [discriminate|destruct (ltb _ _); discriminate]]].
  assert (Hpace : 1 <= months /\
                  (target_year profile < now_year env -> months = 1) /\
                  (now_year env + 2 <= target_year profile -> 12 < months))
    by (subst months; lia).
  destruct Hpace as (H1 & Hpast & Hfar).
  assert (Hint : forall ph,
             calculate_study_intensity months ph = calculate_study_intensity months "")
    by reflexivity.
  destruct (calculate_study_intensity_cases months "") as [Hhigh Hlow].
  destruct prog as [|p prog].
  - simpl in H. injection H as <-. cbn [months_remaining study_intensity phase focus_areas].
    rewrite Hint. split; [exact H1|]. split; [reflexivity|].
    split; [intros Hy; split; [auto | apply Hhigh; rewrite (Hpast Hy); lia]|].
    split; [auto|]. split; [auto|]. intros F. now contradiction F.
  - destruct (ltb (mean_mastery (p :: prog)) (lit 3 10)) eqn:E3;
      [|destruct (ltb (mean_mastery (p :: prog)) (lit 6 10)) eqn:E6];
      simpl in H; injection H as <-;
      cbn [months_remaining study_intensity phase focus_areas];
      rewrite Hint;
      (split; [exact H1|]); (split; [reflexivity|]);
      (split; [intros Hy; split; [auto | apply Hhigh; rewrite (Hpast Hy); lia]|]);
      (split; [auto|]); (split; [discriminate|]); intros _.
    + apply ltb_iff in E3. pose proof lit_order as [L1 L2].
      split; [auto|]. split; intros A; [|].
      * exfalso. apply (Qlt_irrefl (lit 3 10)). eapply Qle_lt_trans; eauto.
      * exfalso. apply (Qlt_irrefl (lit 6 10)).
        eapply Qle_lt_trans; [exact A|]. eapply Qlt_trans; [exact E3|].
        vm_compute. reflexivity.
    + apply ltb_false_iff in E3. apply ltb_iff in E6.
      split; [intros A; exfalso; apply (Qlt_irrefl (lit 3 10));
              eapply Qle_lt_trans; eauto|].
      split; [auto|]. intros A. exfalso. apply (Qlt_irrefl (lit 6 10)).
      eapply Qle_lt_trans; eauto.
    + apply ltb_false_iff in E3, E6.
      split; [intros A; exfalso; apply (Qlt_irrefl (lit 3 10));
              eapply Qle_lt_trans; eauto|].
      split; [|auto]. intros _ A. exfalso. apply (Qlt_irrefl (lit 6 10)).
      eapply Qle_lt_trans; eauto.
Qed.

Lemma strategy_phase_and_pace_witness :
  exists strat,
    create_roadmap_strategy sample_env sample_late_profile [] seed_subjects = Ok strat /\
    months_remaining strat = 1 /\ study_intensity strat = "high" /\
    phase strat = "foundation".
Proof.
  destruct (create_roadmap_strategy sample_env sample_late_profile [] seed_subjects)
    as [strat|e] eqn:E; [|vm_compute in E; discriminate].
  exists strat. split; [reflexivity|].
  destruct (strategy_phase_and_pace sample_env sample_late_profile [] seed_subjects
              strat) as (_ & _ & Hpast & _ & Hnew & _);
    [vm_compute; split; discriminate | exact E |].
  destruct Hpast as [A B]; [vm_compute; reflexivity|].
  destruct (Hnew eq_refl) as [C _]. auto.
Defined.
